(** * echopype: ragged-array zarr writer and multi-file combine

    A shallow embedding of [echopype/convert/parsed_to_zarr.py] and of
    [Convert.combine_files] of [echopype/convert/convert_ui.py], followed by
    the properties the specification states about them.

    Conventions of the embedding.
    - A Python function that can raise returns a [result]; a function with
      side effects is a state transformer [M St A], which keeps the state
      reached when the exception was raised (files written before a failure
      stay written).
    - Python [int] is [Z]; [//] and [divmod] are [Z.div] and [Z.modulo]
      (floor division, remainder with the sign of the divisor), with the
      zero divisor written out as [ZeroDivisionError].
    - [float64] sample values are primitive floats; the padding marker is
      [nan].
    - Library calls (pandas, numpy, zarr, more_itertools, xarray, netCDF4,
      os, shutil) are modelled by small definitions, those of the modules
      [miter], [np], [pd], [zarr], [os_path] and [nc] and the ones named
      [xr_...], [os_...] and [shutil_...], each with a comment that says
      what of the library it covers. *)

From Stdlib Require Import ZArith List Lia Bool Ascii String.
From Stdlib Require Import Floats.PrimFloat.
From stdpp Require Import base option list gmap strings.

Local Open Scope Z_scope.

(** ** Exceptions and effects *)

Inductive exn : Type :=
  | ValueError
  | TypeError
  | KeyError
  | IndexError
  | ZeroDivisionError
  | OverflowError
  | UnboundLocalError
  | FileNotFoundError
  | NotADirectoryError
  | IsADirectoryError
  | OSError
  | ContainsArrayError
  | NotImplementedError.

Inductive result (A : Type) : Type :=
  | Ok (a : A)
  | Raise (e : exn).
Arguments Ok {A} a.
Arguments Raise {A} e.

Definition is_ok {A} (r : result A) : bool :=
  match r with Ok _ => true | Raise _ => false end.

Definition rbind {A B} (r : result A) (k : A -> result B) : result B :=
  match r with Ok a => k a | Raise e => Raise e end.

(** A computation over a mutable store [St] that may raise. *)
Definition M (St A : Type) : Type := St -> result A * St.

Definition ret {St A} (a : A) : M St A := fun s => (Ok a, s).
Definition raise {St A} (e : exn) : M St A := fun s => (Raise e, s).
Definition bind {St A B} (m : M St A) (k : A -> M St B) : M St B :=
  fun s => match m s with
           | (Ok a, s') => k a s'
           | (Raise e, s') => (Raise e, s')
           end.
Definition lift {St A} (r : result A) : M St A := fun s => (r, s).
Definition modify {St} (f : St -> St) : M St unit := fun s => (Ok tt, f s).
Definition get {St} : M St St := fun s => (Ok s, s).

Declare Scope py_scope.
Delimit Scope py_scope with py.
Notation "'do' x <- m ; k" := (bind m (fun x => k))
  (at level 10, x pattern, m at level 100, k at level 200) : py_scope.
Notation "'run' m ; k" := (bind m (fun _ => k))
  (at level 10, m at level 100, k at level 200) : py_scope.
Local Open Scope py_scope.

(** [for x in l: body x], stopping at the first exception. *)
Fixpoint for_each {St A} (l : list A) (body : A -> M St unit) : M St unit :=
  match l with
  | [] => ret tt
  | x :: l' => run body x; for_each l' body
  end.

(** [[f(x) for x in l]] for an effectful [f]. *)
Fixpoint map_M {St A B} (f : A -> M St B) (l : list A) : M St (list B) :=
  match l with
  | [] => ret []
  | x :: l' => do y <- f x; do ys <- map_M f l'; ret (y :: ys)
  end.

(** Python's [max] of a list of ints: [ValueError] on the empty list. *)
Definition py_max (l : list Z) : result Z :=
  match l with
  | [] => Raise ValueError
  | x :: l' => Ok (fold_left Z.max l' x)
  end.

Definition py_min (l : list Z) : result Z :=
  match l with
  | [] => Raise ValueError
  | x :: l' => Ok (fold_left Z.min l' x)
  end.

Definition len {A} (l : list A) : Z := Z.of_nat (length l).

(** Python's [sum] of a list of ints. *)
Definition py_sum (l : list Z) : Z := fold_left Z.add l 0.

(** ** more_itertools *)

Module miter.
Section chunked_even.
Context {A : Type}.

(** First loop of [_chunked_even_finite]:
    [for x in iterator: buffer.append(x);
       if len(buffer) == full_size:
         yield buffer; buffer = []; num_full -= 1;
         if num_full <= 0: break].
    Returns the lists yielded, what is left of the iterator and the
    buffer at the end of the loop. *)
Fixpoint yield_full (full_size : Z) (iterator buffer : list A) (num_full : Z)
  : list (list A) * list A * list A :=
  match iterator with
  | [] => ([], [], buffer)
  | x :: iterator' =>
      let buffer := buffer ++ [x] in
      if len buffer =? full_size then
        let num_full := num_full - 1 in
        if num_full <=? 0 then ([buffer], iterator', [])
        else
          let '(ys, rest, b) := yield_full full_size iterator' [] num_full in
          (buffer :: ys, rest, b)
      else yield_full full_size iterator' buffer num_full
  end.

(** Second loop:
    [for x in iterator: buffer.append(x);
       if len(buffer) == partial_size:
         yield buffer; buffer = []; num_partial -= 1].
    [num_partial] is only counted down, it does not stop the loop. *)
Fixpoint yield_partial (partial_size : Z) (iterator buffer : list A)
    (num_partial : Z) : list (list A) :=
  match iterator with
  | [] => []
  | x :: iterator' =>
      let buffer := buffer ++ [x] in
      if len buffer =? partial_size then
        buffer :: yield_partial partial_size iterator' [] (num_partial - 1)
      else yield_partial partial_size iterator' buffer num_partial
  end.

(** [q + (1 if r > 0 else 0)] for [q, r = divmod(a, b)]. *)
Definition div_round_up (a b : Z) : Z :=
  let q := a / b in
  let r := a mod b in
  q + (if 0 <? r then 1 else 0).

(** [list(_chunked_even_finite(iterable, N, n))] as in more_itertools 8,
    the release line of the time this writer was written. *)
Definition _chunked_even_finite (iterable : list A) (N n : Z)
  : result (list (list A)) :=
  if N <? 1 then Ok []
  else if n =? 0 then Raise ZeroDivisionError       (* divmod(N, n) *)
  else
    let num_lists := div_round_up N n in
    if num_lists =? 0 then Raise ZeroDivisionError  (* divmod(N, num_lists) *)
    else
      let full_size := div_round_up N num_lists in
      let partial_size := full_size - 1 in
      let num_full := N - partial_size * num_lists in
      let num_partial := num_lists - num_full in
      let '(fulls, iterator, buffer) :=
        yield_full full_size iterable [] num_full in
      Ok (fulls ++ yield_partial partial_size iterator buffer num_partial).

(** [list(chunked_even(iterable, n))] for an iterable that has [__len__]
    (a pandas [Index] has), which is sent to [_chunked_even_finite]. *)
Definition chunked_even (iterable : list A) (n : Z) : result (list (list A)) :=
  _chunked_even_finite iterable (len iterable) n.

(** The same function as more_itertools 10 has it, which no longer asks
    for [__len__]: it keeps [(n - 1) * (n - 2)] items back, yields
    chunks of [n] items while more arrive, and cuts what is left evenly
    by slicing. The definitions below follow it. *)

(** [buffer[:n]], [buffer[n:]] and [buffer[i:j]] for indices that are
    not negative. *)
Definition take (n : Z) (buffer : list A) : list A := firstn (Z.to_nat n) buffer.
Definition drop (n : Z) (buffer : list A) : list A := skipn (Z.to_nat n) buffer.
Definition slice (buffer : list A) (i j : Z) : list A := take (j - i) (drop i buffer).

(** [list(range(start, stop, step))] for a positive [step]. *)
Fixpoint range_from (fuel : nat) (start stop step : Z) : list Z :=
  match fuel with
  | O => []
  | S fuel' =>
      if start <? stop then start :: range_from fuel' (start + step) stop step
      else []
  end.
Definition range (start stop step : Z) : list Z :=
  range_from (Z.to_nat (stop - start)) start stop step.

(** [for _ in islice(map(buffer.append, iterable), n, None, n):
       yield buffer[:n]; del buffer[:n]].
    [islice] lets [skip] items pass (each is appended to the buffer) and
    stops at the next one; after the first stop it lets [n - 1] pass.
    Returns the chunks yielded and the buffer at the end. *)
Fixpoint yield_streamed (n : Z) (iterable buffer : list A) (skip : Z)
  : list (list A) * list A :=
  match iterable with
  | [] => ([], buffer)
  | x :: iterable' =>
      let buffer := buffer ++ [x] in
      if 0 <? skip then yield_streamed n iterable' buffer (skip - 1)
      else
        let '(ys, b) := yield_streamed n iterable' (drop n buffer) (n - 1) in
        (take n buffer :: ys, b)
  end.

(** What [chunked_even] does with the buffer that is left, from
    [length = len(buffer)] on. *)
Definition cut_evenly (buffer : list A) (n : Z) : result (list (list A)) :=
  let length := len buffer in
  if n =? 0 then Raise ZeroDivisionError        (* divmod(length, n) *)
  else
    let num_lists := div_round_up length n in
    if num_lists =? 0 then Raise ZeroDivisionError
    else
      let full_size := div_round_up length num_lists in
      let partial_size := full_size - 1 in
      let num_full := length - partial_size * num_lists in
      (* Yield chunks of full size *)
      let partial_start_idx := num_full * full_size in
      let fulls :=
        if 0 <? full_size then
          map (fun i => slice buffer i (i + full_size))
              (range 0 partial_start_idx full_size)
        else [] in
      (* Yield chunks of partial size *)
      let partials :=
        if 0 <? partial_size then
          map (fun i => slice buffer i (i + partial_size))
              (range partial_start_idx length partial_size)
        else [] in
      Ok (fulls ++ partials).

(** [list(chunked_even(iterable, n))] of more_itertools 10. *)
Definition chunked_even_buffered (iterable : list A) (n : Z)
  : result (list (list A)) :=
  let min_buffer := (n - 1) * (n - 2) in
  let buffer := take min_buffer iterable in
  let iterable := drop min_buffer iterable in
  if n <? 1 then Raise ValueError             (* islice(..., n, None, n) *)
  else
    let '(streamed, buffer) := yield_streamed n iterable buffer n in
    if len buffer =? 0 then Ok streamed       (* if not buffer: return *)
    else rbind (cut_evenly buffer n) (fun chunks => Ok (streamed ++ chunks)).
End chunked_even.
End miter.

(** ** numpy *)

Module np.
(** An [ndarray] of [float64]: its shape and its elements in C order. *)
Record ndarray : Type := mk_ndarray { shape : list Z; data : list float }.

(** A one-dimensional array. *)
Definition array1 (xs : list float) : ndarray :=
  {| shape := [len xs]; data := xs |}.

(** [a = np.empty(n, dtype=np.float64); a[:] = np.nan]. *)
Definition full_nan (n : Z) : ndarray := array1 (repeat nan (Z.to_nat n)).

(** [np.concatenate(arrays, axis=0)] of one-dimensional arrays;
    [ValueError] (need at least one array to concatenate) for an
    empty list. *)
Definition concatenate (arrays : list ndarray) : result ndarray :=
  match arrays with
  | [] => Raise ValueError
  | _ :: _ => Ok (array1 (concat (map data arrays)))
  end.

(** [a.reshape(new_shape)]: [ValueError] unless the sizes agree. *)
Definition reshape (a : ndarray) (new_shape : list Z) : result ndarray :=
  if fold_right Z.mul 1 new_shape =? len (data a)
  then Ok {| shape := new_shape; data := data a |}
  else Raise ValueError.

(** [np.max] of a pandas series of ints: the largest element; pandas
    gives NaN for an empty series, here [None]. *)
Definition max (l : list Z) : option Z :=
  match l with
  | [] => None
  | x :: l' => Some (fold_left Z.max l' x)
  end.
End np.

(** ** pandas *)

Module pd.
(** A cell of an object column: the float [np.nan] that [reindex] fills
    in (and that [DataFrame.from_dict] leaves where a datagram has no
    such field), or a one-dimensional [np.ndarray] of samples. *)
Inductive cell : Type :=
  | NaN
  | NdArray (samples : list float).

(** Where the dimensions [timestamp] and [channel] of a frame live: as
    ordinary columns (the frame built from the datagrams) or as the two
    levels of its [MultiIndex] (after [set_index(dims)], which drops
    them from the columns). *)
Inductive placement : Type := AsColumns | AsIndexLevels.

(** A frame with the dimensions [timestamp], [channel] (in this order)
    and the value columns [columns]; a row holds its two dimension
    values and one cell per value column. *)
Record DataFrame : Type := mk_DataFrame {
  dims_at : placement;
  columns : list string;
  rows : list ((Z * Z) * list cell)
}.

(** One column of a frame indexed by (timestamp, channel). *)
Record Series : Type := mk_Series {
  name : string;
  items : list ((Z * Z) * cell)
}.

Definition keys (df : DataFrame) : list (Z * Z) := map fst (rows df).
Definition timestamps (df : DataFrame) : list Z := map fst (keys df).
Definition channels (df : DataFrame) : list Z := map snd (keys df).

(** [Series.unique()] / [Index.unique()]: the distinct values in order
    of first appearance. *)
Fixpoint unique_from (seen l : list Z) : list Z :=
  match l with
  | [] => []
  | x :: l' =>
      if bool_decide (x ∈ seen) then unique_from seen l'
      else x :: unique_from (x :: seen) l'
  end.
Definition unique (l : list Z) : list Z := unique_from [] l.

(** [df[name]] for the dimension [name]: a column lookup, [KeyError]
    when the dimensions are index levels and no longer columns. *)
Definition dim_column (df : DataFrame) (proj : Z * Z -> Z) : result (list Z) :=
  match dims_at df with
  | AsColumns => Ok (map proj (keys df))
  | AsIndexLevels => Raise KeyError
  end.

(** [df.copy().set_index(dims)]. *)
Definition set_index (df : DataFrame) : result DataFrame :=
  match dims_at df with
  | AsColumns =>
      Ok {| dims_at := AsIndexLevels; columns := columns df; rows := rows df |}
  | AsIndexLevels => Raise KeyError
  end.

(** [df.reset_index()] of a frame indexed by the dimensions. *)
Definition reset_index (df : DataFrame) : DataFrame :=
  {| dims_at := AsColumns; columns := columns df; rows := rows df |}.

(** [pd.MultiIndex.from_product([ts, chs])]. *)
Definition from_product (ts chs : list Z) : list (Z * Z) := list_prod ts chs.

(** [Index.is_unique]. *)
Definition is_unique (ks : list (Z * Z)) : bool := bool_decide (NoDup ks).

(** The row of [rs] labelled [k]. *)
Fixpoint find_row (k : Z * Z) (rs : list ((Z * Z) * list cell))
  : option (list cell) :=
  match rs with
  | [] => None
  | (k', v) :: rs' => if bool_decide (k' = k) then Some v else find_row k rs'
  end.

(** [df.reindex(multi_index, fill_value=np.nan)]: one row per label of
    [multi_index], in its order; a label the frame does not have gets
    [fill_value] in every column. pandas refuses to reindex a
    [MultiIndex] with repeated labels ("cannot handle a non-unique
    multi-index!"), unless it equals the target. *)
Definition reindex (df : DataFrame) (multi_index : list (Z * Z))
  : result DataFrame :=
  if bool_decide (keys df = multi_index) then Ok df
  else if is_unique (keys df) then
    let fill := map (fun _ => NaN) (columns df) in
    Ok {| dims_at := dims_at df;
          columns := columns df;
          rows := map (fun k => (k, default fill (find_row k (rows df))))
                      multi_index |}
  else Raise ValueError.

(** [df[column]] of a frame indexed by the dimensions. *)
Definition getitem (df : DataFrame) (column : string) : result Series :=
  match list_find (fun c => c = column) (columns df) with
  | Some (j, _) =>
      Ok {| name := column;
            items := map (fun r => (fst r, nth j (snd r) NaN)) (rows df) |}
  | None => Raise KeyError
  end.

(** [pd_series.index.get_level_values(0)]. *)
Definition level0 (s : Series) : list Z := map (fun it => fst (fst it)) (items s).

(** [pd_series.index.unique('channel')]. *)
Definition unique_channels (s : Series) : list Z :=
  unique (map (fun it => snd (fst it)) (items s)).

(** [pd_series.loc[chunk]] for a list of timestamps: the cells of the
    rows whose first index level is in the list. *)
Definition loc (s : Series) (chunk : list Z) : list cell :=
  map snd (filter (fun it => fst (fst it) ∈ chunk) (items s)).
End pd.

(** ** zarr *)

Module zarr.
(** A zarr array of dtype [f8] and fill value NaN. *)
Record Array : Type := mk_Array {
  shape : list Z;
  chunks : list Z;
  data : list float
}.

(** The arrays of a group, by name. *)
Abbreviation Group := (gmap string Array).

(** [grp.array(name=name, data=a, chunks=chunks, dtype='f8',
    fill_value='NaN')]. *)
Definition array (name : string) (a : np.ndarray) (chunks : list Z)
  : M Group unit :=
  fun grp =>
    match grp !! name with
    | Some _ => (Raise ContainsArrayError, grp)
    | None =>
        (Ok tt, <[name := {| shape := np.shape a; chunks := chunks;
                             data := np.data a |}]> grp)
    end.

(** [full_array.append(a)] (along axis 0) on the array called [name]:
    the other dimensions have to agree. *)
Definition append (name : string) (a : np.ndarray) : M Group unit :=
  fun grp =>
    match grp !! name with
    | None => (Raise KeyError, grp)
    | Some arr =>
        match shape arr, np.shape a with
        | t :: dims, t' :: dims' =>
            if bool_decide (dims = dims') then
              (Ok tt, <[name := {| shape := (t + t') :: dims;
                                   chunks := chunks arr;
                                   data := data arr ++ np.data a |}]> grp)
            else (Raise ValueError, grp)
        | _, _ => (Raise ValueError, grp)
        end
    end.
End zarr.

(** ** parsed_to_zarr.py *)

(** [set_multi_index(df, dims)] for [dims = ['timestamp', 'channel']]. *)
Definition set_multi_index (df : pd.DataFrame) : result pd.DataFrame :=
  (* unique_dims = [list(df[name].unique()) for name in dims] *)
  rbind (pd.dim_column df fst) (fun ts =>
  rbind (pd.dim_column df snd) (fun chs =>
  let unique_dims := (pd.unique ts, pd.unique chs) in
  (* df_multi = df.copy().set_index(dims) *)
  rbind (pd.set_index df) (fun df_multi =>
  let multi_index := pd.from_product (fst unique_dims) (snd unique_dims) in
  (* df_multi = df_multi.reindex(multi_index, fill_value=np.nan) *)
  pd.reindex df_multi multi_index))).

(** [get_np_chunk(df_chunk, time_chunk, num_chan, size_elem, nan_array)];
    [df_chunk] is given as [df_chunk.to_list()]. *)
Definition get_np_chunk (df_chunk : list pd.cell) (time_chunk num_chan size_elem : Z)
    (nan_array : np.ndarray) : result np.ndarray :=
  rbind (np.concatenate
           (map (fun elm => match elm with
                            | pd.NdArray samples => np.array1 samples
                            | pd.NaN => nan_array
                            end) df_chunk)) (fun np_chunk =>
  np.reshape np_chunk [time_chunk; num_chan; size_elem]).

(** Lines 64-73 of [write_chunks]: the chunks of timestamps, their
    lengths and the largest length. *)
Definition time_chunks (pd_series : pd.Series) (max_time_chunk : Z)
  : result (list (list Z)) :=
  let unique_times := pd.unique (pd.level0 pd_series) in
  miter.chunked_even unique_times max_time_chunk.

(** [write_chunks(pd_series, num_chan, size_elem, nan_array,
    max_time_chunk, zarr_grp)]. *)
Definition write_chunks (pd_series : pd.Series) (num_chan size_elem : Z)
    (nan_array : np.ndarray) (max_time_chunk : Z) : M zarr.Group unit :=
  do chunks <- lift (time_chunks pd_series max_time_chunk);
  let chunk_len := map len chunks in
  do max_chunk_len <- lift (py_max chunk_len);
  match chunks, chunk_len with
  | chunk0 :: chunks', len0 :: chunk_len' =>
      (* write initial chunk to the Zarr *)
      let df_chunk := pd.loc pd_series chunk0 in
      do np_chunk <- lift (get_np_chunk df_chunk len0 num_chan size_elem nan_array);
      run zarr.array (pd.name pd_series) np_chunk [max_chunk_len; num_chan; size_elem];
      (* append each chunk to full_array *)
      for_each (combine chunks' chunk_len') (fun '(chunk, len_i) =>
        let df_chunk := pd.loc pd_series chunk in
        do np_chunk <- lift (get_np_chunk df_chunk len_i num_chan size_elem nan_array);
        zarr.append (pd.name pd_series) np_chunk)
  | _, _ => raise IndexError
  end.

(** [x.shape[0] if isinstance(x, np.ndarray) else 0]. *)
Definition sample_length (x : pd.cell) : Z :=
  match x with
  | pd.NdArray samples => len samples
  | pd.NaN => 0
  end.

(** The sizes [array_col_to_zarr] computes before it writes (lines
    98-110): [max_dim], [num_chan] and [max_num_pings].

    [np.max] of an empty series is NaN and [int(NaN)] raises
    [ValueError]. [elem_bytes] is a numpy integer, so [1e6 // elem_bytes]
    is numpy's float floor division: for [elem_bytes = 0] it gives [inf]
    (NaN before numpy 1.20) with a warning, and [int] of it raises. For
    [0 < elem_bytes] both operands are integers that a double holds
    exactly, and the quotient is the integer floor. [num_mb] is an int. *)
Definition chunk_sizes (pd_series : pd.Series) (num_mb : Z) : result (Z * Z * Z) :=
  match np.max (map (fun it => sample_length (snd it)) (pd.items pd_series)) with
  | None => Raise ValueError
  | Some max_dim =>
      (* bytes required to hold one element of the column *)
      let elem_bytes := max_dim * 8 in
      if elem_bytes =? 0 then Raise OverflowError
      else
        let num_elements := num_mb * (1000000 / elem_bytes) in
        let num_chan := len (pd.unique_channels pd_series) in
        if num_chan =? 0 then Raise ZeroDivisionError
        else
          let max_num_pings := num_elements / num_chan in
          Ok (max_dim, num_chan, max_num_pings)
  end.

(** [array_col_to_zarr(pd_series, array_grp, num_mb)]. *)
Definition array_col_to_zarr (pd_series : pd.Series) (num_mb : Z)
  : M zarr.Group unit :=
  do (max_dim, num_chan, max_num_pings) <- lift (chunk_sizes pd_series num_mb);
  (* nan array used in padding of elements *)
  let nan_array := np.full_nan max_dim in
  write_chunks pd_series num_chan max_dim nan_array max_num_pings.

(** [write_df_to_zarr(df, array_grp, num_mb)]. The index names of a frame
    that still has its default index are not among
    [{"timestamp", "channel"}]. *)
Definition write_df_to_zarr (df : pd.DataFrame) (num_mb : Z) : M zarr.Group unit :=
  for_each (pd.columns df) (fun column =>
    do pd_series <- lift (pd.getitem df column);
    match pd.dims_at df with
    | pd.AsIndexLevels => array_col_to_zarr pd_series num_mb
    | pd.AsColumns => raise NotImplementedError
    end).

(** ** os.path (posixpath) and str *)

Module os_path.
(** [p.rfind(c)] for a one-character [c]: the last index of [c] in
    [p], or [-1]; [i] is the index of the first character of [p]. *)
Fixpoint rfind_from (c : ascii) (p : string) (i : Z) : Z :=
  match p with
  | EmptyString => -1
  | String a p' =>
      let r := rfind_from c p' (i + 1) in
      if r =? -1 then (if Ascii.eqb a c then i else -1) else r
  end.
Definition rfind (c : ascii) (p : string) : Z := rfind_from c p 0.

(** [p[:i]] and [p[i:]] for [0 <= i]. *)
Definition slice_to (p : string) (i : Z) : string :=
  String.substring 0 (Z.to_nat i) p.
Definition slice_from (p : string) (i : Z) : string :=
  String.substring (Z.to_nat i) (String.length p - Z.to_nat i) p.

(** The loop of [genericpath._splitext] that skips leading dots:
    whether some character of [p[filenameIndex:dotIndex]] is not a
    dot. *)
Fixpoint has_non_dot (fuel : nat) (p : string) (filenameIndex dotIndex : Z)
  : bool :=
  match fuel with
  | O => false
  | S fuel' =>
      if filenameIndex <? dotIndex then
        match String.get (Z.to_nat filenameIndex) p with
        | Some a =>
            if negb (Ascii.eqb a ".") then true
            else has_non_dot fuel' p (filenameIndex + 1) dotIndex
        | None => false
        end
      else false
  end.

(** [os.path.splitext(p)]. *)
Definition splitext (p : string) : string * string :=
  let sepIndex := rfind "/" p in
  let dotIndex := rfind "." p in
  if (sepIndex <? dotIndex)
     && has_non_dot (String.length p) p (sepIndex + 1) dotIndex
  then (slice_to p dotIndex, slice_from p dotIndex)
  else (p, EmptyString).

(** [os.path.basename(p)]. *)
Definition basename (p : string) : string := slice_from p (rfind "/" p + 1).

(** [os.path.join(a, b)]. *)
Definition join (a b : string) : string :=
  if String.prefix "/" b then b
  else if String.eqb a "" || String.eqb (slice_from a (Z.of_nat (String.length a) - 1)) "/"
  then a +:+ b
  else a +:+ "/" +:+ b.

(** [sub in s]. *)
Fixpoint contains (sub s : string) : bool :=
  String.prefix sub s ||
  match s with
  | EmptyString => false
  | String _ s' => contains sub s'
  end.
End os_path.

(** ** netCDF4 *)

Module nc.
Definition complex64 : Type := float * float.

Inductive attr : Type :=
  | AttrInt (z : Z)
  | AttrFloat (x : float)
  | AttrStr (s : string).

Record Dimension : Type := mk_Dimension {
  size : nat;
  isunlimited : bool
}.

(** A variable of the compound type [complex64]; the filter
    coefficients are one-dimensional, [len(v)] is the number of
    values. *)
Record Var : Type := mk_Var {
  dimensions_of : list string;
  values : list complex64
}.

Record Group : Type := mk_Group {
  cmptypes : list string;
  ncattrs : list (string * attr);
  dimensions : list (string * Dimension);
  variables : list (string * Var)
}.

Definition empty_group : Group :=
  {| cmptypes := []; ncattrs := []; dimensions := []; variables := [] |}.

(** [grp.createCompoundType(dtype, name)]. *)
Definition createCompoundType (name : string) (g : Group) : Group :=
  {| cmptypes := cmptypes g ++ [name]; ncattrs := ncattrs g;
     dimensions := dimensions g; variables := variables g |}.

(** [grp.setncatts(d)]. *)
Definition setncatts (d : list (string * attr)) (g : Group) : Group :=
  {| cmptypes := cmptypes g; ncattrs := ncattrs g ++ d;
     dimensions := dimensions g; variables := variables g |}.

(** [grp.createDimension(k, size)]; [None] makes it unlimited, of
    current size 0. *)
Definition createDimension (k : string) (sz : option nat) (g : Group) : Group :=
  let d := match sz with
           | Some n => {| size := n; isunlimited := false |}
           | None => {| size := 0; isunlimited := true |}
           end in
  {| cmptypes := cmptypes g; ncattrs := ncattrs g;
     dimensions := dimensions g ++ [(k, d)]; variables := variables g |}.

(** What writing [n] values along the dimension [k] does to the
    dimensions: an unlimited one grows to hold them. *)
Definition grow (k : string) (n : nat) (ds : list (string * Dimension))
  : list (string * Dimension) :=
  map (fun kd =>
         if String.eqb (fst kd) k && isunlimited (snd kd)
         then (fst kd, {| size := Nat.max (size (snd kd)) n; isunlimited := true |})
         else kd) ds.

(** [var = grp.createVariable(k, complex64_t, dims); var[:] = data]. *)
Definition createVariable (k : string) (dims : list string)
    (data : list complex64) (g : Group) : Group :=
  {| cmptypes := cmptypes g; ncattrs := ncattrs g;
     dimensions := match dims with
                   | d :: _ => grow d (length data) (dimensions g)
                   | [] => dimensions g
                   end;
     variables := variables g ++ [(k, {| dimensions_of := dims; values := data |})] |}.
End nc.

(** ** convert_ui.py *)

(** Arguments of [combine_files] may be any Python object; [save_path]
    is tested with [is None] and [isinstance(save_path, str)]. *)
Inductive pyobj : Type :=
  | PyNone
  | PyStr (s : string)
  | PyOther.

(** How [xr.open_mfdataset] is asked to put the datasets together. *)
Inductive combine_opt : Type :=
  | by_coords (data_vars : option string)
  | nested (concat_dim : string).

(** The attributes of [Convert] that [combine_files] reads. [None] is
    the value [__init__] gives to [sonar_model], [source_file] and
    [output_file]. *)
Record Convert : Type := mk_Convert {
  sonar_model : option string;
  source_file : option (list string);
  output_file : option (list string);
  extra_files : list string
}.

Section convert_ui.
(** What xarray reads from one group of a store, and how it merges the
    datasets of several stores ([xr.combine_by_coords],
    [xr.combine_nested]); both are left to xarray. *)
Context {Dataset : Type}.
Context (xr_combine : combine_opt -> list Dataset -> result Dataset).
(** The contents of the memory [np.empty] hands out. *)
Context (uninitialized : nat -> nc.complex64).

(** A converted file: a netCDF file or a zarr directory, with the
    groups xarray reads and writes (the root group is ["/"]) and the
    compound-typed groups only netCDF4 reads and writes. *)
Record Store : Type := mk_Store {
  is_dir : bool;
  groups : gmap string Dataset;
  nc_groups : gmap string nc.Group
}.

(** The file system and what was printed. *)
Record World : Type := mk_World {
  files : gmap string Store;
  stdout : list string
}.

Definition print (msg : string) : M World unit :=
  modify (fun w => {| files := files w; stdout := stdout w ++ [msg] |}).

Definition set_files (f : gmap string Store -> gmap string Store) : M World unit :=
  modify (fun w => {| files := f (files w); stdout := stdout w |}).

(** [os.remove(path)]. *)
Definition os_remove (path : string) : M World unit :=
  do w <- get;
  match files w !! path with
  | None => raise FileNotFoundError
  | Some st =>
      if is_dir st then raise IsADirectoryError
      else set_files (delete path)
  end.

(** [shutil.rmtree(path)]. *)
Definition shutil_rmtree (path : string) : M World unit :=
  do w <- get;
  match files w !! path with
  | None => raise FileNotFoundError
  | Some st =>
      if is_dir st then set_files (delete path)
      else raise NotADirectoryError
  end.

(** [xr.open_dataset(path, group=group)] ([is_zarr = false]) and
    [xr.open_zarr(path, group=group)] ([is_zarr = true]). *)
Definition xr_open (is_zarr : bool) (path group : string) : M World Dataset :=
  do w <- get;
  match files w !! path with
  | None => raise FileNotFoundError
  | Some st =>
      if negb (Bool.eqb (is_dir st) is_zarr) then raise OSError
      else match groups st !! group with
           | Some ds => ret ds
           | None => raise OSError
           end
  end.

(** [ds.to_netcdf(path=path, mode=mode, group=group)] ([is_zarr = false])
    and [ds.to_zarr(store=path, mode=mode, group=group)]
    ([is_zarr = true]); [append] is [mode == 'a'], otherwise the mode is
    ['w'] and the store starts afresh. *)
Definition xr_write (is_zarr : bool) (ds : Dataset) (path : string)
    (append : bool) (group : string) : M World unit :=
  do w <- get;
  match files w !! path with
  | Some st =>
      if negb (Bool.eqb (is_dir st) is_zarr) then raise OSError
      else if append then
        set_files (insert path {| is_dir := is_zarr;
                                  groups := <[group := ds]> (groups st);
                                  nc_groups := nc_groups st |})
      else
        set_files (insert path {| is_dir := is_zarr;
                                  groups := {[group := ds]};
                                  nc_groups := ∅ |})
  | None =>
      set_files (insert path {| is_dir := is_zarr;
                                groups := {[group := ds]};
                                nc_groups := ∅ |})
  end.

(** [xr.open_mfdataset(files, group=group, combine=..., ...)]. *)
Definition xr_open_mfdataset (paths : list string) (group : string)
    (how : combine_opt) : M World Dataset :=
  match paths with
  | [] => raise OSError
  | _ =>
      do datasets <- map_M (fun p => xr_open false p group) paths;
      lift (xr_combine how datasets)
  end.

(** [Convert._check_param_consistency]. *)
Definition _check_param_consistency (self : Convert) : bool := true.

(** [Convert._remove]. *)
Definition _remove (path : string) : M World unit :=
  let '(fname, ext) := os_path.splitext path in
  if String.eqb ext ".zarr" then shutil_rmtree path
  else os_remove path.

(** The local functions of [combine_files]. *)

(** [set_open_dataset(ext)]: [xr.open_dataset], [xr.open_zarr] or
    (falling off the end) [None]. *)
Definition set_open_dataset (ext : string)
  : option (string -> string -> M World Dataset) :=
  if String.eqb ext ".nc" then Some (xr_open false)
  else if String.eqb ext ".zarr" then Some (xr_open true)
  else None.

(** [open_mfzarr(files, group, combine, data_vars)]: it opens the root
    of every store and calls [xr.combine_nested(datasets)] without the
    [concat_dim] that function requires. *)
Definition open_mfzarr (paths : list string) (group : string)
    (how : combine_opt) : M World Dataset :=
  match how with
  | nested _ => raise TypeError   (* no parameter concat_dim, decode_times *)
  | by_coords _ =>
      do datasets <- map_M (fun p => xr_open true p "/") paths;
      raise TypeError
  end.

(** [set_open_mfdataset(ext)]. *)
Definition set_open_mfdataset (ext : string)
  : option (list string -> string -> combine_opt -> M World Dataset) :=
  if String.eqb ext ".nc" then Some xr_open_mfdataset
  else if String.eqb ext ".zarr" then Some open_mfzarr
  else None.

(** Calling what [set_open_dataset] or [set_open_mfdataset] returned:
    [None] is not callable. *)
Definition call {A B} (f : option (A -> B -> M World Dataset)) (a : A) (b : B)
  : M World Dataset :=
  match f with
  | Some g => g a b
  | None => raise TypeError
  end.

(** [_save(ext, ds, path, mode, group)]. *)
Definition _save (ext : string) (ds : Dataset) (path : string)
    (append : bool) (group : string) : M World unit :=
  if String.eqb ext ".nc" then xr_write false ds path append group
  else xr_write true ds path append group.

(** [np.empty(n, complex64)]. *)
Definition np_empty (n : nat) : list nc.complex64 :=
  map uninitialized (seq 0 n).

(** The body of [for k, v in ds_vend.dimensions.items()]. *)
Definition copy_dimension (vdr : nc.Group) (kv : string * nc.Dimension)
  : nc.Group :=
  let '(k, v) := kv in
  nc.createDimension k
    (if negb (nc.isunlimited v) then Some (nc.size v) else None) vdr.

(** The body of [for k, v in ds_vend.variables.items()]. *)
Definition copy_variable (vdr : nc.Group) (kv : string * nc.Var) : nc.Group :=
  let '(k, v) := kv in
  let data := np_empty (length (nc.values v)) in
  nc.createVariable k (nc.dimensions_of v) data vdr.

(** The group [copy_vendor] builds from the source's [Vendor] group
    (lines 269-284). *)
Definition copy_vendor_group (ds_vend : nc.Group) : nc.Group :=
  let vdr := nc.empty_group in
  let vdr := nc.createCompoundType "complex64" vdr in
  (* set decimation values *)
  let vdr := nc.setncatts (nc.ncattrs ds_vend) vdr in
  (* Create the dimensions of the file *)
  let vdr := fold_left copy_dimension (nc.dimensions ds_vend) vdr in
  (* Create the variables in the file *)
  fold_left copy_variable (nc.variables ds_vend) vdr.

(** [copy_vendor(src_file, trg_file)]. [createGroup] on a target that
    already has a [Vendor] group returns that group, and creating the
    compound type a second time fails. *)
Definition copy_vendor (src_file trg_file : string) : M World unit :=
  do w <- get;
  match files w !! src_file with
  | None => raise FileNotFoundError
  | Some src =>
      match files w !! trg_file with
      | None => raise FileNotFoundError
      | Some trg =>
          match nc_groups src !! "Vendor" with
          | None => raise KeyError
          | Some ds_vend =>
              match nc_groups trg !! "Vendor" with
              | Some _ => raise OSError
              | None =>
                  set_files (insert trg_file
                    {| is_dir := is_dir trg;
                       groups := groups trg;
                       nc_groups := <["Vendor" := copy_vendor_group ds_vend]>
                                      (nc_groups trg) |})
              end
          end
      end
  end.

(** [split_into_groups(files)]. *)
Definition split_into_groups (self : Convert) (paths : list string)
  : list (list string) :=
  if bool_decide (sonar_model self = Some "EK80") then
    fold_left (fun file_groups f =>
                 match file_groups with
                 | [g0; g1] =>
                     if os_path.contains "_cw" f then [g0; g1 ++ [f]]
                     else [g0 ++ [f]; g1]
                 | _ => file_groups
                 end) paths [[]; []]
  else [paths].

(** [l[0]]. *)
Definition first {A} (l : list A) : M World A :=
  match l with
  | x :: _ => ret x
  | [] => raise IndexError
  end.

(** [with opener(...) as ds: _save(ext, ds, save_path, mode, group=group)]. *)
Definition copy_first (_open_dataset : option (string -> string -> M World Dataset))
    (ext : string) (file_group : list string) (save_path : string)
    (append : bool) (group : string) : M World unit :=
  do f0 <- first file_group;
  do ds <- call _open_dataset f0 group;
  _save ext ds save_path append group.

Definition concat_all
    (_open_mfdataset : option (list string -> string -> combine_opt -> M World Dataset))
    (ext : string) (file_group : list string) (save_path : string)
    (group : string) (how : combine_opt) : M World unit :=
  do ds <- match _open_mfdataset with
           | Some g => g file_group group how
           | None => raise TypeError
           end;
  _save ext ds save_path true group.

(** The body of [for i, file_group in enumerate(file_groups)] (lines
    322-367); it returns the [save_path] and [ext] the next iteration
    starts from. *)
Definition combine_group (self : Convert)
    (_open_dataset : option (string -> string -> M World Dataset))
    (_open_mfdataset : option (list string -> string -> combine_opt -> M World Dataset))
    (i : nat) (file_group : list string) (save_path ext : string)
  : M World (string * string) :=
  let model_is m := bool_decide (sonar_model self = Some m) in
  (* Append '_cw' to EK80 filepath if combining CW files *)
  let '(save_path, ext) :=
    if (i =? 1)%nat then
      let '(fname, ext) := os_path.splitext save_path in
      (fname +:+ "_cw" +:+ ext, ext)
    else (save_path, ext) in
  (* Combine Top-level *)
  run copy_first _open_dataset ext file_group save_path false "/";
  (* Combine Provenance *)
  run copy_first _open_dataset ext file_group save_path true "Provenance";
  (* Combine Sonar *)
  run copy_first _open_dataset ext file_group save_path true "Sonar";
  (* Combine Beam *)
  run concat_all _open_mfdataset ext file_group save_path "Beam"
        (by_coords (Some "minimal"));
  (* Combine Environment *)
  run (if model_is "AZFP" then
         concat_all _open_mfdataset ext file_group save_path "Environment"
           (by_coords None)
       else copy_first _open_dataset ext file_group save_path true "Environment");
  (* Combine Platfrom *)
  run (if model_is "AZFP" then
         copy_first _open_dataset ext file_group save_path true "Platform"
       else
         concat_all _open_mfdataset ext file_group save_path "Platform"
           (by_coords None));
  (* Combine Sonar-specific *)
  run (if model_is "AZFP" then
         concat_all _open_mfdataset ext file_group save_path "Vendor"
           (by_coords (Some "minimal"))
       else ret tt);
  run (if model_is "EK80" || model_is "EK60" then
         concat_all _open_mfdataset ext file_group save_path "Platform/NMEA"
           (nested "time")
       else ret tt);
  run (if model_is "EK80" then
         (* Save filter coefficients in EK80 *)
         do f0 <- first file_group;
         copy_vendor f0 save_path
       else ret tt);
  ret (save_path, ext).

Fixpoint combine_groups (self : Convert)
    (_open_dataset : option (string -> string -> M World Dataset))
    (_open_mfdataset : option (list string -> string -> combine_opt -> M World Dataset))
    (i : nat) (file_groups : list (list string)) (save_path ext : string)
  : M World unit :=
  match file_groups with
  | [] => ret tt
  | file_group :: rest =>
      do (save_path, ext) <-
        combine_group self _open_dataset _open_mfdataset i file_group save_path ext;
      combine_groups self _open_dataset _open_mfdataset (S i) rest save_path ext
  end.

(** Lines 369-372: [for f in src_files + self.extra_files: self._remove(f)]. *)
Definition remove_originals (paths : list string) : M World unit :=
  for_each paths _remove.

(** [Convert.combine_files(self, src_files, save_path, remove_orig)],
    with the method [self._check_param_consistency] it calls as
    [check]. *)
Definition combine_files_with (check : Convert -> bool) (self : Convert)
    (src_files : option (list string)) (save_path : pyobj)
    (remove_orig : bool) : M World bool :=
  match source_file self with
  | None => raise TypeError                       (* len(None) *)
  | Some source_file =>
  if len source_file <? 2 then
    run print "Combination did not occur as there is only 1 source file";
    ret false
  else if negb (check self) then
    run print "Combination did not occur as there are inconsistent parameters";
    ret false
  else
    run print "combining files...";
    let src_files := match src_files with
                     | None => output_file self
                     | Some l => Some l
                     end in
    let ext := ".nc"%string in
    (* [None]: the local variable is not bound *)
    do file_groups <-
      (if bool_decide (sonar_model self = Some "EK80"%string) then
         match src_files with
         | Some l => ret (Some (split_into_groups self (l ++ extra_files self)))
         | None => raise TypeError                (* None + list *)
         end
       else ret None);
    (* [src_files[0]] *)
    let src_files_0 : M World string :=
      match src_files with
      | Some l => first l
      | None => raise TypeError
      end in
    do (save_path, ext) <-
      match save_path with
      | PyNone =>
          do f0 <- src_files_0;
          let '(fname, ext) := os_path.splitext f0 in
          ret (fname +:+ "[combined]" +:+ ext, ext)
      | PyStr save_path =>
          let '(fname, ext) := os_path.splitext save_path in
          (* If save_path is a directory. *)
          if String.eqb ext "" then
            do f0 <- src_files_0;
            let file := os_path.basename f0 in
            let '(fname, ext) := os_path.splitext file in
            ret (os_path.join save_path (fname +:+ "[combined]" +:+ ext), ext)
          else ret (save_path, ext)
      | PyOther => raise ValueError
      end;
    let _open_dataset := set_open_dataset ext in
    let _open_mfdataset := set_open_mfdataset ext in
    do file_groups <- match file_groups with
                      | Some l => ret l
                      | None => raise UnboundLocalError
                      end;
    run combine_groups self _open_dataset _open_mfdataset 0 file_groups save_path ext;
    (* Delete files after combining *)
    run (if remove_orig then
           match src_files with
           | Some l => remove_originals (l ++ extra_files self)
           | None => raise TypeError
           end
         else ret tt);
    ret true
  end.

Definition combine_files : Convert -> option (list string) -> pyobj -> bool -> M World bool :=
  combine_files_with _check_param_consistency.
End convert_ui.
(** * The rest of the [Convert] class *)

(** A value of a conversion parameter. *)
Inductive pyval : Type :=
  | VNone
  | VStr (s : string)
  | VInt (n : Z)
  | VFloat (x : float).

(** ** The object
    All attributes of a [Convert] object that its methods read:
    [attrs] holds the four that [combine_files] reads
    ([sonar_model], [source_file], [output_file], [extra_files]).
    [out_dir], [nc_path] and [zarr_path] do not exist before
    [_validate_path] sets them ([None] here). [_source_path],
    [_output_path], [timestamp_pattern] and [nmea_gps_sentence] are
    set by [__init__] and read by no method of the class. *)
Module obj.
Record t : Type := mk {
  attrs : Convert;
  xml_path : string;
  _conversion_params : gmap string pyval;
  data_type : string;
  combine : bool;
  compress : bool;
  overwrite : bool;
  out_dir : option string;
  nc_path : option (list string);
  zarr_path : option (list string)
}.

(** [self.<attribute> = v]. *)
Definition set_attrs (v : Convert) (self : t) : t :=
  {| attrs := v;
     xml_path := xml_path self;
     _conversion_params := _conversion_params self;
     data_type := data_type self;
     combine := combine self;
     compress := compress self;
     overwrite := overwrite self;
     out_dir := out_dir self;
     nc_path := nc_path self;
     zarr_path := zarr_path self |}.

Definition set_xml_path (v : string) (self : t) : t :=
  {| attrs := attrs self;
     xml_path := v;
     _conversion_params := _conversion_params self;
     data_type := data_type self;
     combine := combine self;
     compress := compress self;
     overwrite := overwrite self;
     out_dir := out_dir self;
     nc_path := nc_path self;
     zarr_path := zarr_path self |}.

Definition set_conversion_params (v : gmap string pyval) (self : t) : t :=
  {| attrs := attrs self;
     xml_path := xml_path self;
     _conversion_params := v;
     data_type := data_type self;
     combine := combine self;
     compress := compress self;
     overwrite := overwrite self;
     out_dir := out_dir self;
     nc_path := nc_path self;
     zarr_path := zarr_path self |}.

Definition set_data_type (v : string) (self : t) : t :=
  {| attrs := attrs self;
     xml_path := xml_path self;
     _conversion_params := _conversion_params self;
     data_type := v;
     combine := combine self;
     compress := compress self;
     overwrite := overwrite self;
     out_dir := out_dir self;
     nc_path := nc_path self;
     zarr_path := zarr_path self |}.

Definition set_combine (v : bool) (self : t) : t :=
  {| attrs := attrs self;
     xml_path := xml_path self;
     _conversion_params := _conversion_params self;
     data_type := data_type self;
     combine := v;
     compress := compress self;
     overwrite := overwrite self;
     out_dir := out_dir self;
     nc_path := nc_path self;
     zarr_path := zarr_path self |}.

Definition set_compress (v : bool) (self : t) : t :=
  {| attrs := attrs self;
     xml_path := xml_path self;
     _conversion_params := _conversion_params self;
     data_type := data_type self;
     combine := combine self;
     compress := v;
     overwrite := overwrite self;
     out_dir := out_dir self;
     nc_path := nc_path self;
     zarr_path := zarr_path self |}.

Definition set_overwrite (v : bool) (self : t) : t :=
  {| attrs := attrs self;
     xml_path := xml_path self;
     _conversion_params := _conversion_params self;
     data_type := data_type self;
     combine := combine self;
     compress := compress self;
     overwrite := v;
     out_dir := out_dir self;
     nc_path := nc_path self;
     zarr_path := zarr_path self |}.

Definition set_out_dir (v : option string) (self : t) : t :=
  {| attrs := attrs self;
     xml_path := xml_path self;
     _conversion_params := _conversion_params self;
     data_type := data_type self;
     combine := combine self;
     compress := compress self;
     overwrite := overwrite self;
     out_dir := v;
     nc_path := nc_path self;
     zarr_path := zarr_path self |}.

Definition set_nc_path (v : option (list string)) (self : t) : t :=
  {| attrs := attrs self;
     xml_path := xml_path self;
     _conversion_params := _conversion_params self;
     data_type := data_type self;
     combine := combine self;
     compress := compress self;
     overwrite := overwrite self;
     out_dir := out_dir self;
     nc_path := v;
     zarr_path := zarr_path self |}.

Definition set_zarr_path (v : option (list string)) (self : t) : t :=
  {| attrs := attrs self;
     xml_path := xml_path self;
     _conversion_params := _conversion_params self;
     data_type := data_type self;
     combine := combine self;
     compress := compress self;
     overwrite := overwrite self;
     out_dir := out_dir self;
     nc_path := nc_path self;
     zarr_path := v |}.

Definition set_sonar_model (v : option string) (self : t) : t :=
  set_attrs {| sonar_model := v;
               source_file := source_file (attrs self);
               output_file := output_file (attrs self);
               extra_files := extra_files (attrs self) |} self.

Definition set_source_file (v : option (list string)) (self : t) : t :=
  set_attrs {| sonar_model := sonar_model (attrs self);
               source_file := v;
               output_file := output_file (attrs self);
               extra_files := extra_files (attrs self) |} self.

Definition set_output_file (v : option (list string)) (self : t) : t :=
  set_attrs {| sonar_model := sonar_model (attrs self);
               source_file := source_file (attrs self);
               output_file := v;
               extra_files := extra_files (attrs self) |} self.

Definition set_extra_files (v : list string) (self : t) : t :=
  set_attrs {| sonar_model := sonar_model (attrs self);
               source_file := source_file (attrs self);
               output_file := output_file (attrs self);
               extra_files := v |} self.
End obj.

(** ** str and os.path, continued *)

(** [s.upper()], for ASCII letters. *)
Definition upper_ascii (a : ascii) : ascii :=
  let n := nat_of_ascii a in
  if ((97 <=? n) && (n <=? 122))%nat then ascii_of_nat (n - 32) else a.

Fixpoint upper (s : string) : string :=
  match s with
  | EmptyString => EmptyString
  | String a s' => String (upper_ascii a) (upper s')
  end.

(** [s == c * len(s)]. *)
Fixpoint all_chars (c : ascii) (s : string) : bool :=
  match s with
  | EmptyString => true
  | String a s' => Ascii.eqb a c && all_chars c s'
  end.

(** [s.rstrip(c)]. *)
Fixpoint rstrip (c : ascii) (s : string) : string :=
  match s with
  | EmptyString => EmptyString
  | String a s' =>
      let r := rstrip c s' in
      if String.eqb r "" && Ascii.eqb a c then EmptyString else String a r
  end.

(** [os.path.dirname(p)] (posixpath). *)
Definition dirname (p : string) : string :=
  let i := os_path.rfind "/" p + 1 in
  let head := os_path.slice_to p i in
  if negb (String.eqb head "") && negb (all_chars "/" head)
  then rstrip "/" head
  else head.

(** ** set_param and __init__ *)

(** [param_dict.get(key, default)]. *)
Definition dict_get (param_dict : gmap string pyval) (key : string)
    (default_value : pyval) : pyval :=
  default default_value (param_dict !! key).

(** [Convert.set_param(self, param_dict)]. The loop over
    [param_dict.items()] runs over the entries of the map. *)
Definition set_param (param_dict : gmap string pyval) (self : obj.t) : obj.t :=
  let params := obj._conversion_params self in
  (* Platform *)
  let params := <["platform_name" := dict_get param_dict "platform_name" (VStr "")]> params in
  let params := <["platform_code_ICES" :=
                    dict_get param_dict "platform_code_ICES" (VStr "")]> params in
  let params := <["platform_type" := dict_get param_dict "platform_type" (VStr "")]> params in
  let params := <["water_level" := dict_get param_dict "water_level" VNone]> params in
  (* Top level *)
  let params := <["survey_name" := dict_get param_dict "survey_name" (VStr "")]> params in
  let params :=
    fold_left (fun params kv =>
                 if bool_decide (is_Some (params !! fst kv)) then params
                 else <[fst kv := snd kv]> params)
              (map_to_list param_dict) params in
  obj.set_conversion_params params self.

(** [Convert.__init__(self)]. *)
Definition __init__ : obj.t :=
  set_param ∅
    {| obj.attrs := {| sonar_model := None; source_file := None;
                       output_file := None; extra_files := [] |};
       obj.xml_path := "";
       obj._conversion_params := ∅;
       obj.data_type := "all";
       obj.combine := false;
       obj.compress := true;
       obj.overwrite := false;
       obj.out_dir := None;
       obj.nc_path := None;
       obj.zarr_path := None |}.

(** ** set_source *)

(** The [file] argument: a string, a list of strings, or something
    that cannot be iterated over. *)
Inductive file_arg : Type :=
  | FileStr (s : string)
  | FileList (l : list string)
  | FileOther.

Section set_source.
(** [os.path.isfile]. *)
Context (isfile : string -> bool).

(** Lines 80-95: the extension the model's raw files have; for AZFP
    the XML file is checked and stored. [xml_path] is [None] or a
    string. *)
Definition model_ext (model : string) (xml_path : option string)
  : M obj.t string :=
  if String.eqb model "AZFP" then
    match xml_path with
    | Some xml_path =>
        if String.eqb xml_path "" then raise ValueError
        else
          (* Check for the xml file if dealing with an AZFP *)
          run (if os_path.contains ".XML" (upper xml_path) then
                 if negb (isfile xml_path) then raise FileNotFoundError
                 else ret tt
               else raise ValueError);
          run modify (obj.set_xml_path xml_path);
          ret ".01A"%string
    | None => raise ValueError
    end
  else if String.eqb model "EK60" || String.eqb model "EK80" then
    ret ".raw"%string
  else raise ValueError.

(** [Convert.set_source(self, file, model, xml_path=None)]. *)
Definition set_source (file : file_arg) (model : string)
    (xml_path : option string) : M obj.t unit :=
  (* Check if specified model is valid *)
  do ext <- model_ext model xml_path;
  run modify (obj.set_sonar_model (Some model));
  (* Check if given files are valid *)
  do file <- match file with
             | FileStr s => ret [s]
             | FileList l => ret l
             | FileOther => raise ValueError   (* TypeError in [for p in file] *)
             end;
  run for_each file (fun p =>
        if negb (isfile p) then raise FileNotFoundError
        else if negb (String.eqb (snd (os_path.splitext p)) ext)
        then raise ValueError
        else ret tt);
  modify (obj.set_source_file (Some file)).
End set_source.

(** ** _validate_path, _convert_indiv_file, to_netcdf and to_zarr *)

Section convert_methods.
Context {Dataset : Type}.
Context (xr_combine : combine_opt -> list Dataset -> result Dataset).
Context (uninitialized : nat -> nc.complex64).
(** [os.mkdir(path)], left to the operating system. *)
Context (os_mkdir : string -> M (@World Dataset) unit).
(** Parsing a raw file and saving its groups:
    [c = c(file); c.parse_raw(); sg = sg(c, ...); sg.save()] with the
    parser and the group setter of the sonar model, which are not part
    of this file. The call is given [self._conversion_params] and
    [self.extra_files] themselves, not copies; it returns what they
    hold afterwards. *)
Context (convert_raw :
  string -> string -> string -> string -> bool -> bool ->
  gmap string pyval -> list string ->
  M (@World Dataset) (gmap string pyval * list string)).

(** The object and the file system. *)
Definition Env : Type := obj.t * @World Dataset.

Definition on_self {A} (m : M obj.t A) : M Env A :=
  fun '(self, w) => let '(r, self') := m self in (r, (self', w)).

Definition on_world {A} (m : M (@World Dataset) A) : M Env A :=
  fun '(self, w) => let '(r, w') := m w in (r, (self, w')).

(** [os.path.exists(path)]. *)
Definition os_path_exists (path : string) : M (@World Dataset) bool :=
  fun w => (Ok (bool_decide (is_Some (files w !! path))), w).

(** [Convert._validate_path(self, file_format, save_path=None)];
    [save_path] is [None] or a string. *)
Definition _validate_path (file_format : string) (save_path : option string)
  : M Env unit :=
  (* Raise error if output format is not .nc or .zarr *)
  if negb (String.eqb file_format ".nc") && negb (String.eqb file_format ".zarr")
  then raise ValueError
  else
    do self <- on_self get;
    do filenames <- match source_file (obj.attrs self) with
                    | Some l => ret l
                    | None => raise TypeError     (* None[0] *)
                    end;
    (* Default output directory taken from first input file *)
    do f0 <- match filenames with
             | f0 :: _ => ret f0
             | [] => raise IndexError
             end;
    let out_dir := dirname f0 in
    run on_self (modify (obj.set_out_dir (Some out_dir)));
    do out_dir <-
      match save_path with
      | Some save_path =>
          let path_ext := snd (os_path.splitext save_path) in
          (* Check if save_path is a file or a directory *)
          if String.eqb path_ext "" then
            run on_self (modify (obj.set_out_dir (Some save_path)));
            ret save_path
          else if (String.eqb path_ext ".nc" || String.eqb path_ext ".zarr")
                  && (len filenames =? 1) then
            run on_self (modify (obj.set_out_dir (Some (dirname save_path))));
            ret (dirname save_path)
          else raise ValueError
      | None => ret out_dir
      end;
    (* Create folder if save_path does not exist already *)
    do found <- on_world (os_path_exists out_dir);
    run (if negb found then
           fun st =>
             match on_world (os_mkdir out_dir) st with
             | (Raise FileNotFoundError, st') => (Raise ValueError, st')
             | other => other
             end
         else ret tt);
    (* Store output filenames *)
    let files := map (fun f => fst (os_path.splitext (os_path.basename f)))
                     filenames in
    run on_self (modify (obj.set_output_file
          (Some (map (fun f => os_path.join out_dir (f +:+ file_format)) files))));
    run on_self (modify (obj.set_nc_path
          (Some (map (fun f => os_path.join out_dir (f +:+ ".nc")) files))));
    on_self (modify (obj.set_zarr_path
          (Some (map (fun f => os_path.join out_dir (f +:+ ".zarr")) files)))).

(** [Convert._convert_indiv_file(self, file, output_path, save_ext)]. *)
Definition _convert_indiv_file (file output_path save_ext : string)
  : M Env unit :=
  do self <- on_self get;
  (* use echosounder-specific object *)
  do model <-
    (if bool_decide (sonar_model (obj.attrs self) = Some "EK60"%string)
     then ret "EK60"%string
     else if bool_decide (sonar_model (obj.attrs self) = Some "EK80"%string)
     then ret "EK80"%string
     else if bool_decide (sonar_model (obj.attrs self) = Some "AZFP"%string)
     then ret "AZFP"%string
     else raise ValueError);
  (* Check if file exists *)
  do found <- on_world (os_path_exists output_path);
  run (if found && obj.overwrite self then
         (* Remove the file if self.overwrite is true *)
         run on_world (print ("          overwriting: " +:+ output_path));
         on_world (_remove output_path)
       else ret tt);
  do found <- on_world (os_path_exists output_path);
  if found then
    (* Otherwise, skip saving *)
    on_world (print ("          ... this file has already been converted to "
                     +:+ save_ext +:+ ", conversion not executed."))
  else
    do (params, extra) <-
      on_world (convert_raw model file output_path save_ext
                  (obj.compress self) (obj.overwrite self)
                  (obj._conversion_params self) (extra_files (obj.attrs self)));
    on_self (modify (fun self =>
      obj.set_extra_files extra (obj.set_conversion_params params self))).

(** [for i, file in enumerate(self.source_file):
       self._convert_indiv_file(file=file, output_path=self.output_file[i],
                                save_ext=save_ext)]. *)
Fixpoint convert_each (save_ext : string) (i : nat) (source_file : list string)
  : M Env unit :=
  match source_file with
  | [] => ret tt
  | file :: rest =>
      do self <- on_self get;
      do output_path <-
        match output_file (obj.attrs self) with
        | Some l =>
            match l !! i with
            | Some p => ret p
            | None => raise IndexError
            end
        | None => raise TypeError
        end;
      run _convert_indiv_file file output_path save_ext;
      convert_each save_ext (S i) rest
  end.

(** The body [to_netcdf] and [to_zarr] share, for the extension
    [save_ext]. *)
Definition convert_to (save_ext : string) (save_path : option string)
    (data_type : string) (compress overwrite combine parallel : bool)
  : M Env unit :=
  run on_self (modify (obj.set_data_type data_type));
  run on_self (modify (obj.set_compress compress));
  run on_self (modify (obj.set_combine combine));
  run on_self (modify (obj.set_overwrite overwrite));
  run _validate_path save_ext save_path;
  (* Sequential or parallel conversion *)
  run (if negb parallel then
         do self <- on_self get;
         match source_file (obj.attrs self) with
         | Some l => convert_each save_ext 0 l
         | None => raise TypeError
         end
       else ret tt);
  (* combine files if needed *)
  do self <- on_self get;
  if obj.combine self then
    do combined <-
      on_world (combine_files xr_combine uninitialized (obj.attrs self) None
                  match save_path with
                  | Some p => PyStr p
                  | None => PyNone
                  end true);
    ret tt
  else ret tt.

(** [Convert.to_netcdf(self, save_path=None, data_type='all',
    compress=True, overwrite=True, combine=False, parallel=False)]. *)
Definition to_netcdf : option string -> string -> bool -> bool -> bool -> bool
                       -> M Env unit :=
  convert_to ".nc".

(** [Convert.to_zarr(self, save_path=None, data_type='all',
    compress=True, combine=False, overwrite=False, parallel=False)]. *)
Definition to_zarr (save_path : option string) (data_type : string)
    (compress combine overwrite parallel : bool) : M Env unit :=
  convert_to ".zarr" save_path data_type compress overwrite combine parallel.
End convert_methods.

(** * What the specification says *)

(** ** Chunk Partitioner *)

(** The unique timestamps of a series, in index order, and the sizes the
    specification calls [total_time_steps], [max_sample_length] and
    [channel_count]. *)
Definition unique_times (s : pd.Series) : list Z := pd.unique (pd.level0 s).
Definition total_time_steps (s : pd.Series) : Z := len (unique_times s).
Definition max_sample_length (s : pd.Series) : option Z :=
  np.max (map (fun it => sample_length (snd it)) (pd.items s)).
Definition channel_count (s : pd.Series) : Z := len (pd.unique_channels s).

(** "The concatenation of all chunks in order equals the full sequence
    of unique timestamps (sum of chunk lengths equals total_time_steps),
    and the largest and smallest chunk lengths differ by at most 1." *)
Definition even_partition (s : pd.Series) (max_time_chunk : Z) : Prop :=
  exists chunks hi lo,
    time_chunks s max_time_chunk = Ok chunks /\
    concat chunks = unique_times s /\
    py_sum (map len chunks) = total_time_steps s /\
    py_max (map len chunks) = Ok hi /\
    py_min (map len chunks) = Ok lo /\
    hi - lo <= 1.

(** "[elements_per_budget = floor(budget_mb * 1e6 / elem_bytes)];
    [chunk_len = elements_per_budget / channel_count] (integer division,
    minimum 1)", as the specification words it. *)
Definition spec_chunk_len (budget_mb max_sample_length channel_count : Z) : Z :=
  let elem_bytes := max_sample_length * 8 in
  let elements_per_budget := (budget_mb * 1000000) / elem_bytes in
  Z.max 1 (elements_per_budget / channel_count).

(** The chunk length of the code is the one of the specification. *)
Definition chunk_len_as_specified (s : pd.Series) (budget_mb : Z) : Prop :=
  exists max_dim num_chan,
    chunk_sizes s budget_mb
      = Ok (max_dim, num_chan, spec_chunk_len budget_mb max_dim num_chan).

(** "Every record has absent or zero-length samples." *)
Definition no_samples (s : pd.Series) : Prop :=
  Forall (fun it => sample_length (snd it) = 0) (pd.items s).

(** ** Example inputs *)

(** One ping at time 1 on channels 1 and 2, with two samples on the
    first channel and one on the second. *)
Definition ragged_series : pd.Series :=
  {| pd.name := "power";
     pd.items := [((1, 1), pd.NdArray [1%float; 2%float]);
                  ((1, 2), pd.NdArray [3%float])] |}.

(** One ping of three samples on one channel. *)
Definition three_sample_series : pd.Series :=
  {| pd.name := "power";
     pd.items := [((1, 1), pd.NdArray [1%float; 2%float; 3%float])] |}.

(** Five pings on two channels, no record for (3, 2). *)
Definition five_ping_series : pd.Series :=
  {| pd.name := "power";
     pd.items :=
       [((1, 1), pd.NdArray [1%float]); ((1, 2), pd.NdArray [2%float]);
        ((2, 1), pd.NdArray [3%float]); ((2, 2), pd.NdArray [4%float]);
        ((3, 1), pd.NdArray [5%float]); ((3, 2), pd.NaN);
        ((4, 1), pd.NdArray [7%float]); ((4, 2), pd.NdArray [8%float]);
        ((5, 1), pd.NdArray [9%float]); ((5, 2), pd.NdArray [10%float])] |}.

(** Two pings on one channel, none with samples. *)
Definition empty_ping_series : pd.Series :=
  {| pd.name := "power";
     pd.items := [((1, 1), pd.NaN); ((2, 1), pd.NdArray [])] |}.

(** ** Ragged Array Writer *)

(** The number of elements a cell contributes to a chunk in
    [get_np_chunk]: an absent cell is replaced by [nan_array]. *)
Definition chunk_elements (size_elem : Z) (x : pd.cell) : Z :=
  match x with
  | pd.NdArray samples => len samples
  | pd.NaN => size_elem
  end.

(** "If absent or length < group's reference length, pad on the right
    with NaN; if present and exactly reference length, use as-is." *)
Definition padded (size_elem : Z) (x : pd.cell) : list float :=
  match x with
  | pd.NdArray samples =>
      samples ++ repeat nan (Z.to_nat (size_elem - len samples))
  | pd.NaN => repeat nan (Z.to_nat size_elem)
  end.

(** ** Padded Multi-Index Builder *)

(** A record set: a frame that has [timestamp] and [channel] as
    columns. *)
Definition record_set (columns : list string)
    (rows : list ((Z * Z) * list pd.cell)) : pd.DataFrame :=
  {| pd.dims_at := pd.AsColumns; pd.columns := columns; pd.rows := rows |}.

(** The row of padding markers: [fill_value] in every value column. *)
Definition padding_row (df : pd.DataFrame) : list pd.cell :=
  map (fun _ => pd.NaN) (pd.columns df).

(** "The output has exactly size unique(timestamp) x unique(channel),
    each such pair appears exactly once, and every pair absent from the
    input is populated with an explicit padding marker rather than
    omitted"; a pair of the input keeps its row. *)
Definition padded_view (df out : pd.DataFrame) : Prop :=
  len (pd.rows out)
    = len (pd.unique (pd.timestamps df)) * len (pd.unique (pd.channels df)) /\
  forall t c,
    t ∈ pd.timestamps df -> c ∈ pd.channels df ->
    count_occ (fun a b => decide (a = b)) (pd.keys out) (t, c) = 1%nat /\
    pd.find_row (t, c) (pd.rows out)
      = Some (default (padding_row df) (pd.find_row (t, c) (pd.rows df))).

(** "Running the builder a second time on its own padded output yields
    the same padded view." *)
Definition rebuild_is_noop (df : pd.DataFrame) : Prop :=
  exists out, set_multi_index df = Ok out /\ set_multi_index out = Ok out.

(** Five pings on two channels, the record for (3, 2) missing. *)
Definition five_ping_frame : pd.DataFrame :=
  record_set ["power"]
    [((1, 1), [pd.NdArray [1%float]]); ((1, 2), [pd.NdArray [2%float]]);
     ((2, 1), [pd.NdArray [3%float]]); ((2, 2), [pd.NdArray [4%float]]);
     ((3, 1), [pd.NdArray [5%float]]);
     ((4, 1), [pd.NdArray [7%float]]); ((4, 2), [pd.NdArray [8%float]]);
     ((5, 1), [pd.NdArray [9%float]]); ((5, 2), [pd.NdArray [10%float]])].

(** ** Store Combine Engine *)

Section combine_specification.
Context {Dataset : Type}.
Context (xr_combine : combine_opt -> list Dataset -> result Dataset).
Context (uninitialized : nat -> nc.complex64).

(** The files [combine_files] combines and, on request, deletes:
    [src_files], or [self.output_file] when that is [None]. *)
Definition files_to_combine (self : Convert) (src_files : option (list string))
  : option (list string) :=
  match src_files with
  | None => output_file self
  | Some l => Some l
  end.

(** [_remove(path)] can delete [path]: it exists and is a directory
    exactly when its extension is [.zarr]. *)
Definition deletable (w : @World Dataset) (path : string) : bool :=
  match files w !! path with
  | Some st =>
      Bool.eqb (is_dir st) (String.eqb (snd (os_path.splitext path)) ".zarr")
  | None => false
  end.

(** The world once [paths] have been deleted, one after the other. *)
Definition removed (paths : list string) (w : @World Dataset) : @World Dataset :=
  {| files := fold_left (fun fs p => delete p fs) paths (files w);
     stdout := stdout w |}.

(** "For every invocation of combine with fewer than 2 source stores
    [...] the combine is skipped as a reported no-op (returning a
    false/skip indicator) rather than raising an error, no combined
    output is written, and no source files are deleted"; the source
    stores are the files to combine. *)
Definition few_stores_skipped (self : Convert)
    (src_files : option (list string)) (save_path : pyobj)
    (remove_orig : bool) (w : @World Dataset) : Prop :=
  let r := combine_files xr_combine uninitialized self src_files save_path
             remove_orig w in
  len (default [] (files_to_combine self src_files)) < 2 ->
  fst r = Ok false /\ files (snd r) = files w.

(** "The call fails with an unbound-local-variable error before any
    combined output is written or any source file is deleted." *)
Definition fails_unbound (self : Convert) (src_files : option (list string))
    (save_path : pyobj) (remove_orig : bool) (w : @World Dataset) : Prop :=
  let r := combine_files xr_combine uninitialized self src_files save_path
             remove_orig w in
  fst r = Raise UnboundLocalError /\ files (snd r) = files w.

(** "For every successful combine with deletion requested, every
    source store and every auxiliary file is individually attempted
    for deletion, and a failure to delete one file does not abort the
    deletion of the remaining files": whenever the combine without
    deletion succeeds, the combine with deletion leaves none of the
    files that could be deleted. *)
Definition best_effort_deletion (self : Convert)
    (src_files : option (list string)) (save_path : pyobj)
    (w : @World Dataset) : Prop :=
  let combined := combine_files xr_combine uninitialized self src_files
                    save_path false w in
  let cleaned := combine_files xr_combine uninitialized self src_files
                   save_path true w in
  fst combined = Ok true ->
  forall f,
    f ∈ default [] (files_to_combine self src_files) ++ extra_files self ->
    deletable (snd combined) f = true ->
    files (snd cleaned) !! f = None.
End combine_specification.

(** ** Example stores *)

(** A [Vendor] group with one variable of filter coefficients. *)
Definition vendor_group (coefficients : list nc.complex64) : nc.Group :=
  {| nc.cmptypes := ["complex64"];
     nc.ncattrs := [("decimation", nc.AttrInt 4)];
     nc.dimensions :=
       [("coefficient", {| nc.size := length coefficients;
                           nc.isunlimited := false |})];
     nc.variables :=
       [("filter", {| nc.dimensions_of := ["coefficient"];
                      nc.values := coefficients |})] |}.

(** A converted EK80 netCDF file; a dataset is the list of its ping
    times. *)
Definition ek80_store (beam : list Z) (coefficients : list nc.complex64)
  : @Store (list Z) :=
  {| is_dir := false;
     groups := list_to_map
       [("/", []); ("Provenance", []); ("Sonar", []); ("Beam", beam);
        ("Environment", []); ("Platform", beam); ("Platform/NMEA", beam)];
     nc_groups := {[ "Vendor" := vendor_group coefficients ]} |}.

(** Two raw files converted, each to a store and a continuous-wave
    store. *)
Definition four_stores : @World (list Z) :=
  {| files := list_to_map
       [("a.nc", ek80_store [10; 11] [(1%float, 2%float)]);
        ("b.nc", ek80_store [12] [(1%float, 2%float)]);
        ("a_cw.nc", ek80_store [20] [(3%float, 4%float)]);
        ("b_cw.nc", ek80_store [30] [(3%float, 4%float)])];
     stdout := [] |}.

(** Datasets are put together by concatenation. *)
Definition concat_datasets (_ : combine_opt) (datasets : list (list Z))
  : result (list Z) := Ok (concat datasets).

(** Memory that happens to hold zeros. *)
Definition zeroed (_ : nat) : nc.complex64 := (0%float, 0%float).

(** The EK80 conversion that made them. *)
Definition ek80_convert : Convert :=
  {| sonar_model := Some "EK80";
     source_file := Some ["a.raw"; "b.raw"];
     output_file := Some ["a.nc"; "b.nc"];
     extra_files := ["a_cw.nc"; "b_cw.nc"] |}.

(** Files to combine that name the continuous-wave store of the first
    raw file, which is among the extra files as well. *)
Definition listed_twice : option (list string) :=
  Some ["a.nc"; "a_cw.nc"; "b.nc"].

(** An EK80 conversion that made no continuous-wave file. *)
Definition ek80_broadband_only : Convert :=
  {| sonar_model := Some "EK80";
     source_file := Some ["a.raw"; "b.raw"];
     output_file := Some ["a.nc"; "b.nc"];
     extra_files := [] |}.

(** The stores of two raw files whose [Sonar] groups differ. *)
Definition sonar_store (sonar beam : list Z) : @Store (list Z) :=
  {| is_dir := false;
     groups := list_to_map
       [("/", []); ("Provenance", []); ("Sonar", sonar); ("Beam", beam);
        ("Environment", []); ("Platform", beam); ("Platform/NMEA", beam)];
     nc_groups := {[ "Vendor" := vendor_group [(1%float, 2%float)] ]} |}.

Definition mismatched_stores : @World (list Z) :=
  {| files := list_to_map
       [("a.nc", sonar_store [38] [10; 11]);
        ("b.nc", sonar_store [200] [12]);
        ("a_cw.nc", sonar_store [38] [20]);
        ("b_cw.nc", sonar_store [200] [30])];
     stdout := [] |}.

(** An EK60 conversion of two raw files. *)
Definition ek60_convert : Convert :=
  {| sonar_model := Some "EK60";
     source_file := Some ["a.raw"; "b.raw"];
     output_file := Some ["a.nc"; "b.nc"];
     extra_files := [] |}.

(** A conversion of a single raw file. *)
Definition single_convert : Convert :=
  {| sonar_model := Some "EK80";
     source_file := Some ["a.raw"];
     output_file := Some ["a.nc"];
     extra_files := ["a_cw.nc"] |}.

(** * Further properties: what they speak of *)

(** ** The writer on a padded series *)

(** A series as [set_multi_index] hands it to the writer: its index is
    the product of the timestamps [ts] and the channels [chs], each
    listed once. *)
Definition indexed_by_product (s : pd.Series) (ts chs : list Z) : Prop :=
  map fst (pd.items s) = pd.from_product ts chs /\ NoDup ts /\ NoDup chs.

(** Every cell is absent or an array of [size_elem] samples. *)
Definition uniform_samples (size_elem : Z) (s : pd.Series) : Prop :=
  Forall (fun it => chunk_elements size_elem (snd it) = size_elem) (pd.items s).

(** The values of the series in index order, an absent cell as a row of
    NaN. *)
Definition dense_values (size_elem : Z) (s : pd.Series) : list float :=
  concat (map (fun it => padded size_elem (snd it)) (pd.items s)).

(** The rows of [items] whose timestamp is in [chunk], which
    [pd_series.loc[chunk]] selects. *)
Definition chunk_rows (chunk : list Z) (items : list ((Z * Z) * pd.cell))
  : list ((Z * Z) * pd.cell) :=
  filter (fun it => fst (fst it) ∈ chunk) items.

(** The array the writer leaves for a series of [len ts] timestamps and
    [len chs] channels. *)
Definition written_array (s : pd.Series) (ts chs : list Z)
    (size_elem max_chunk_len : Z) : zarr.Array :=
  {| zarr.shape := [len ts; len chs; size_elem];
     zarr.chunks := [max_chunk_len; len chs; size_elem];
     zarr.data := dense_values size_elem s |}.

(** The dense block of a chunk of timestamps: one row of [size_elem]
    values per (timestamp, channel) cell. *)
Definition chunk_block (s : pd.Series) (num_chan size_elem : Z)
    (chunk : list Z) : np.ndarray :=
  {| np.shape := [len chunk; num_chan; size_elem];
     np.data := concat (map (padded size_elem) (pd.loc s chunk)) |}.

(** Whether every cell of a chunk is absent or has [size_elem]
    samples. *)
Definition all_full (size_elem : Z) (df_chunk : list pd.cell) : bool :=
  forallb (fun x => chunk_elements size_elem x =? size_elem) df_chunk.


(** ** Writing a padded frame *)

(** A column the writer can store: its arrays all have one length of at
    least 1, and the budget has room for a ping of it on [num_chan]
    channels. *)
Definition column_ready (df : pd.DataFrame) (num_chan num_mb : Z)
    (column : string) : Prop :=
  exists s max_dim,
    pd.getitem df column = Ok s /\
    max_sample_length s = Some max_dim /\
    1 <= max_dim /\
    uniform_samples max_dim s /\
    num_chan <= num_mb * (1000000 / (max_dim * 8)).

(** The array [array_grp] holds for a column: the dense array of the
    column's series. *)
Definition column_written (df : pd.DataFrame) (ts chs : list Z)
    (array_grp : zarr.Group) (column : string) : Prop :=
  exists s max_dim max_chunk_len,
    pd.getitem df column = Ok s /\
    max_sample_length s = Some max_dim /\
    array_grp !! column = Some (written_array s ts chs max_dim max_chunk_len).

(** A padded frame with two columns of different sample lengths. *)
Definition two_column_frame : pd.DataFrame :=
  {| pd.dims_at := pd.AsIndexLevels;
     pd.columns := ["power"; "angle"];
     pd.rows :=
       [((1, 1), [pd.NdArray [1%float]; pd.NdArray [10%float; 11%float]]);
        ((1, 2), [pd.NdArray [2%float]; pd.NaN]);
        ((2, 1), [pd.NaN; pd.NaN]);
        ((2, 2), [pd.NdArray [4%float]; pd.NdArray [40%float; 41%float]])] |}.

(** ** A write that stops half way *)

(** What the group holds for a series of which only the first chunk of
    timestamps was written. *)
Definition first_chunk_array (s : pd.Series) (num_chan size_elem : Z)
    (chunk0 : list Z) (max_chunk_len : Z) : zarr.Array :=
  {| zarr.shape := [len chunk0; num_chan; size_elem];
     zarr.chunks := [max_chunk_len; num_chan; size_elem];
     zarr.data := concat (map (padded size_elem) (pd.loc s chunk0)) |}.

(** Two pings on two channels; the second ping has a one-sample array
    where the reference length is 2. *)
Definition late_short_series : pd.Series :=
  {| pd.name := "power";
     pd.items := [((1, 1), pd.NdArray [1%float; 2%float]); ((1, 2), pd.NaN);
                  ((2, 1), pd.NdArray [3%float]);
                  ((2, 2), pd.NdArray [4%float; 5%float])] |}.

(** ** Combining: what is touched and what cannot succeed *)

(** Lines 306-317 of [combine_files]: the path of the combined file
    and its extension, from the first file to combine and the
    [save_path] argument. *)
Definition combined_name (src0 : string) (save_path : pyobj)
  : option (string * string) :=
  match save_path with
  | PyNone =>
      let '(fname, ext) := os_path.splitext src0 in
      Some (fname +:+ "[combined]" +:+ ext, ext)
  | PyStr save_path =>
      let '(fname, ext) := os_path.splitext save_path in
      if String.eqb ext "" then
        let file := os_path.basename src0 in
        let '(fname, ext) := os_path.splitext file in
        Some (os_path.join save_path (fname +:+ "[combined]" +:+ ext), ext)
      else Some (save_path, ext)
  | PyOther => None
  end.

(** Lines 324-325: the path of the combined continuous-wave file. *)
Definition cw_name (save_path : string) : string :=
  let '(fname, ext) := os_path.splitext save_path in
  fname +:+ "_cw" +:+ ext.

Section combine_effects.
Context {Dataset : Type}.

(** The world after [print(msg)]. *)
Definition printed (msg : string) (w : @World Dataset) : @World Dataset :=
  {| files := files w; stdout := stdout w ++ [msg] |}.

(** A computation that leaves the file system and the output as they
    are. *)
Definition unchanging {A} (m : M (@World Dataset) A) : Prop :=
  forall w, snd (m w) = w.

(** A computation that changes no file other than [targets], and
    deletes none. *)
Definition touches_only {A} (targets : list string) (m : M (@World Dataset) A)
  : Prop :=
  forall w p,
    (p ∉ targets -> files (snd (m w)) !! p = files w !! p) /\
    (is_Some (files w !! p) -> is_Some (files (snd (m w)) !! p)).

(** A computation that raises whatever the world is. *)
Definition fails {A} (m : M (@World Dataset) A) : Prop :=
  forall w, is_ok (fst (m w)) = false.
End combine_effects.

(** ** The rest of the [Convert] class *)

(** The keys [set_param] always stores. *)
Definition standard_keys : list string :=
  ["platform_name"; "platform_code_ICES"; "platform_type"; "water_level";
   "survey_name"]%string.

(** [file] as the list [set_source] checks. *)
Definition listed (file : file_arg) : option (list string) :=
  match file with
  | FileStr s => Some [s]
  | FileList l => Some l
  | FileOther => None
  end.

(** A raw file [set_source] accepts. *)
Definition valid_raw (isfile : string -> bool) (ext p : string) : bool :=
  isfile p && String.eqb (snd (os_path.splitext p)) ext.

(** Lines 145-154 of [_validate_path]: the output directory, from the
    first source file, the number of source files and [save_path];
    [None] where the method raises [ValueError]. *)
Definition target_dir (f0 : string) (num_files : Z) (save_path : option string)
  : option string :=
  match save_path with
  | None => Some (dirname f0)
  | Some save_path =>
      let path_ext := snd (os_path.splitext save_path) in
      if String.eqb path_ext "" then Some save_path
      else if (String.eqb path_ext ".nc" || String.eqb path_ext ".zarr")
              && (num_files =? 1)
      then Some (dirname save_path)
      else None
  end.

(** Lines 165-168: the source file names moved to [out_dir] with the
    extension [file_format]. *)
Definition output_names (out_dir file_format : string) (filenames : list string)
  : list string :=
  map (fun f => os_path.join out_dir
                  (fst (os_path.splitext (os_path.basename f)) +:+ file_format))
      filenames.

(** The object once [_validate_path] has stored directory and names. *)
Definition with_outputs (out_dir file_format : string) (filenames : list string)
    (self : obj.t) : obj.t :=
  obj.set_zarr_path (Some (output_names out_dir ".zarr" filenames))
    (obj.set_nc_path (Some (output_names out_dir ".nc" filenames))
       (obj.set_output_file (Some (output_names out_dir file_format filenames))
          (obj.set_out_dir (Some out_dir) self))).

(** An object with one EK60 raw file as its source. *)
Definition one_raw_file : obj.t :=
  obj.set_source_file (Some ["raw/a.raw"%string])
    (obj.set_sonar_model (Some "EK60"%string) __init__).

(** An object with two EK60 raw files as its source. *)
Definition two_raw_files : obj.t :=
  obj.set_source_file (Some ["raw/a.raw"; "raw/b.raw"]%string)
    (obj.set_sonar_model (Some "EK60"%string) __init__).

(** A file system with the directories [raw] and [out]. *)
Definition two_dirs : @World (list Z) :=
  {| files := list_to_map
       [("raw"%string, {| is_dir := true; groups := ∅; nc_groups := ∅ |});
        ("out"%string, {| is_dir := true; groups := ∅; nc_groups := ∅ |})];
     stdout := [] |}.

(** An [os.mkdir] that finds no parent directory, and a converter that
    writes a store with one ping and leaves parameters and extra files
    as they are. *)
Definition mkdir_no_parent (path : string) : M (@World (list Z)) unit :=
  raise FileNotFoundError.

Definition convert_stub (model file output_path save_ext : string)
    (compress overwrite : bool) (params : gmap string pyval)
    (extra : list string) : M (@World (list Z)) (gmap string pyval * list string) :=
  fun w =>
    (Ok (params, extra),
     {| files := <[output_path := ek80_store [1] []]> (files w);
        stdout := stdout w |}).

(** What a conversion has to keep for the combine step at its end:
    the model, the source files and the request to combine. *)
Definition set_to_combine (model : option string) (sources : list string)
    (self : obj.t) : Prop :=
  sonar_model (obj.attrs self) = model /\
  source_file (obj.attrs self) = Some sources /\
  obj.combine self = true.

(** The message [_convert_indiv_file] prints when it skips a file. *)
Definition already_converted (save_ext : string) : string :=
  "          ... this file has already been converted to " +:+ save_ext
  +:+ ", conversion not executed.".

(** A converter that refuses to run where the output is present, and
    is [convert_stub] elsewhere. *)
Definition convert_if_absent (model file output_path save_ext : string)
    (compress overwrite : bool) (params : gmap string pyval)
    (extra : list string) : M (@World (list Z)) (gmap string pyval * list string) :=
  fun w =>
    match files w !! output_path with
    | Some _ => (Raise OSError, w)
    | None =>
        convert_stub model file output_path save_ext compress overwrite params
          extra w
    end.

(** The file system after [raw/a.raw] was converted to [out/a.nc]. *)
Definition converted_once : @World (list Z) :=
  {| files := <["out/a.nc"%string := ek80_store [1] []]> (files two_dirs);
     stdout := [] |}.

(** Lines 174-184 of [_convert_indiv_file]: the sonar model whose
    parser is used; [None] where the method raises [ValueError]. *)
Definition known_model (model : option string) : option string :=
  if bool_decide (model = Some "EK60"%string) then Some "EK60"%string
  else if bool_decide (model = Some "EK80"%string) then Some "EK80"%string
  else if bool_decide (model = Some "AZFP"%string) then Some "AZFP"%string
  else None.

Section method_effects.
Context {Dataset : Type}.

(** A computation on object and file system that keeps a property of
    the object. *)
Definition preserves {A} (holds : obj.t -> Prop)
    (m : M (obj.t * @World Dataset) A) : Prop :=
  forall self w, holds self -> holds (fst (snd (m (self, w)))).
End method_effects.

(** * Properties *)

(** ** Lengths and folds *)

Lemma len_nil {A} : len (@nil A) = 0.
Proof. reflexivity. Qed.

Lemma len_app {A} (l1 l2 : list A) : len (l1 ++ l2) = len l1 + len l2.
Proof. unfold len. rewrite length_app. lia. Qed.

Lemma len_cons {A} (x : A) (l : list A) : len (x :: l) = 1 + len l.
Proof. unfold len. simpl length. lia. Qed.

Lemma len_nonneg {A} (l : list A) : 0 <= len l.
Proof. unfold len. lia. Qed.

Lemma len_zero_nil {A} (l : list A) : len l = 0 -> l = [].
Proof. destruct l; [reflexivity | rewrite len_cons; pose proof (len_nonneg l); lia]. Qed.

Lemma div_round_up_bounds (a b : Z) :
  1 <= a -> 1 <= b ->
  let k := miter.div_round_up a b in
  1 <= k /\ (k - 1) * b < a <= k * b.
Proof.
  intros Ha Hb. unfold miter.div_round_up. cbv zeta.
  pose proof (Z.div_mod a b ltac:(lia)) as Hdm.
  pose proof (Z.mod_pos_bound a b ltac:(lia)) as Hr.
  destruct (0 <? a mod b) eqn:Hpos.
  - apply Z.ltb_lt in Hpos. nia.
  - apply Z.ltb_ge in Hpos. nia.
Qed.

Section loops.
Context {A : Type}.

Lemma yield_full_spec (full_size : Z) :
  1 <= full_size ->
  forall (iterator buffer : list A) (num_full : Z),
    1 <= num_full ->
    len buffer < full_size ->
    num_full * full_size <= len buffer + len iterator ->
    exists ys rest,
      miter.yield_full full_size iterator buffer num_full = (ys, rest, []) /\
      concat ys ++ rest = buffer ++ iterator /\
      Forall (fun c => len c = full_size) ys /\
      len ys = num_full.
Proof.
  intros Hfull. induction iterator as [|x iterator IH]; intros buffer num_full Hk Hb Hlen.
  - rewrite len_nil in Hlen. nia.
  - cbn [miter.yield_full]. rewrite len_cons in Hlen.
    destruct (len (buffer ++ [x]) =? full_size) eqn:Heq.
    + apply Z.eqb_eq in Heq.
      destruct (num_full - 1 <=? 0) eqn:Hlast.
      * apply Z.leb_le in Hlast. exists [buffer ++ [x]], iterator.
        repeat split.
        -- cbn. rewrite app_nil_r, <- app_assoc. reflexivity.
        -- repeat constructor. exact Heq.
        -- rewrite len_cons, len_nil. lia.
      * apply Z.leb_gt in Hlast.
        rewrite len_app, len_cons, len_nil in Heq.
        destruct (IH [] (num_full - 1)) as (ys & rest & Hy & Hc & Hall & Hn).
        -- lia.
        -- rewrite len_nil. lia.
        -- rewrite len_nil. nia.
        -- rewrite Hy. exists ((buffer ++ [x]) :: ys), rest. repeat split.
           ++ cbn [concat]. rewrite <- !app_assoc. cbn in Hc. rewrite Hc. reflexivity.
           ++ constructor; [rewrite len_app, len_cons, len_nil; lia | exact Hall].
           ++ rewrite len_cons. lia.
    + apply Z.eqb_neq in Heq. rewrite len_app, len_cons, len_nil in Heq.
      destruct (IH (buffer ++ [x]) num_full) as (ys & rest & Hy & Hc & Hall & Hn).
      * lia.
      * rewrite len_app, len_cons, len_nil. lia.
      * rewrite len_app, len_cons, len_nil. lia.
      * exists ys, rest. rewrite Hy. repeat split; try assumption.
        rewrite Hc, <- app_assoc. reflexivity.
Qed.

Lemma yield_partial_spec (partial_size : Z) :
  1 <= partial_size ->
  forall (iterator buffer : list A) (num_partial m : Z),
    len buffer < partial_size ->
    len buffer + len iterator = m * partial_size ->
    concat (miter.yield_partial partial_size iterator buffer num_partial)
      = buffer ++ iterator /\
    Forall (fun c => len c = partial_size)
      (miter.yield_partial partial_size iterator buffer num_partial) /\
    len (miter.yield_partial partial_size iterator buffer num_partial) = m.
Proof.
  intros Hp. induction iterator as [|x iterator IH]; intros buffer k m Hb Hlen.
  - rewrite len_nil in Hlen. pose proof (len_nonneg buffer) as H0.
    assert (m = 0) by nia. subst m.
    rewrite (len_zero_nil buffer) by lia. cbn. repeat split. constructor.
  - cbn [miter.yield_partial]. rewrite len_cons in Hlen.
    pose proof (len_nonneg buffer) as H0.
    destruct (len (buffer ++ [x]) =? partial_size) eqn:Heq.
    + apply Z.eqb_eq in Heq. pose proof Heq as Heq'.
      rewrite len_app, len_cons, len_nil in Heq'.
      destruct (IH [] (k - 1) (m - 1)) as (Hc & Hall & Hn).
      * rewrite len_nil. lia.
      * rewrite len_nil. nia.
      * repeat split.
        -- cbn [concat]. rewrite Hc. cbn. rewrite <- app_assoc. reflexivity.
        -- constructor; assumption.
        -- rewrite len_cons. lia.
    + apply Z.eqb_neq in Heq. rewrite len_app, len_cons, len_nil in Heq.
      destruct (IH (buffer ++ [x]) k m) as (Hc & Hall & Hn).
      * rewrite len_app, len_cons, len_nil. lia.
      * rewrite len_app, len_cons, len_nil. lia.
      * repeat split; try assumption. rewrite Hc, <- app_assoc. reflexivity.
Qed.
End loops.

Lemma fold_left_add_shift (l : list Z) (a : Z) :
  fold_left Z.add l a = a + fold_left Z.add l 0.
Proof.
  revert a. induction l as [|x l IH]; intros a; cbn [fold_left].
  - lia.
  - rewrite (IH (a + x)), (IH (0 + x)). lia.
Qed.

Lemma py_sum_cons (x : Z) (l : list Z) : py_sum (x :: l) = x + py_sum l.
Proof. unfold py_sum. cbn [fold_left]. rewrite fold_left_add_shift. lia. Qed.

Lemma py_sum_lens {A} (ls : list (list A)) :
  py_sum (map len ls) = len (concat ls).
Proof.
  induction ls as [|l ls IH]; [reflexivity|].
  cbn [map concat]. rewrite py_sum_cons, len_app, IH. reflexivity.
Qed.

Lemma fold_left_max_bounds (lo hi : Z) (l : list Z) (a : Z) :
  lo <= a <= hi -> Forall (fun x => lo <= x <= hi) l ->
  lo <= fold_left Z.max l a <= hi.
Proof.
  revert a. induction l as [|x l IH]; intros a Ha Hl; cbn [fold_left]; [exact Ha|].
  inversion Hl as [|? ? Hx Hl']; subst. apply IH; [lia | exact Hl'].
Qed.

Lemma fold_left_min_bounds (lo hi : Z) (l : list Z) (a : Z) :
  lo <= a <= hi -> Forall (fun x => lo <= x <= hi) l ->
  lo <= fold_left Z.min l a <= hi.
Proof.
  revert a. induction l as [|x l IH]; intros a Ha Hl; cbn [fold_left]; [exact Ha|].
  inversion Hl as [|? ? Hx Hl']; subst. apply IH; [lia | exact Hl'].
Qed.

Lemma py_max_bounds (lo hi : Z) (l : list Z) :
  l <> [] -> Forall (fun x => lo <= x <= hi) l ->
  exists m, py_max l = Ok m /\ lo <= m <= hi.
Proof.
  destruct l as [|x l]; [congruence|]. intros _ Hl.
  inversion Hl; subst. eexists; split; [reflexivity|].
  apply fold_left_max_bounds; assumption.
Qed.

Lemma py_min_bounds (lo hi : Z) (l : list Z) :
  l <> [] -> Forall (fun x => lo <= x <= hi) l ->
  exists m, py_min l = Ok m /\ lo <= m <= hi.
Proof.
  destruct l as [|x l]; [congruence|]. intros _ Hl.
  inversion Hl; subst. eexists; split; [reflexivity|].
  apply fold_left_min_bounds; assumption.
Qed.

Lemma len_concat_uniform {A} (ls : list (list A)) (k : Z) :
  Forall (fun c => len c = k) ls -> len (concat ls) = len ls * k.
Proof.
  induction 1 as [|c ls Hc _ IH]; [reflexivity|].
  cbn [concat]. rewrite len_app, len_cons, IH, Hc. lia.
Qed.

(** ** The chunk partition of [chunked_even] *)

(** For a limit [n] of at least 1 and a non-empty [l], [chunked_even]
    returns [ceil(len l / n)] chunks whose concatenation is [l], each of
    [full_size] or [full_size - 1] elements, between 1 and [n]. *)
Lemma chunked_even_spec {A} (l : list A) (n : Z) :
  1 <= n -> 1 <= len l ->
  exists chunks full_size,
    miter.chunked_even l n = Ok chunks /\
    concat chunks = l /\
    Forall (fun c => full_size - 1 <= len c <= full_size /\ 1 <= len c <= n) chunks /\
    len chunks = miter.div_round_up (len l) n.
Proof.
  intros Hn Hl. unfold miter.chunked_even, miter._chunked_even_finite.
  destruct (len l <? 1) eqn:H1; [apply Z.ltb_lt in H1; lia|].
  destruct (n =? 0) eqn:H2; [apply Z.eqb_eq in H2; lia|].
  destruct (div_round_up_bounds (len l) n Hl Hn) as [Hk Hkb].
  set (k := miter.div_round_up (len l) n) in *.
  destruct (k =? 0) eqn:H3; [apply Z.eqb_eq in H3; lia|].
  destruct (div_round_up_bounds (len l) k Hl Hk) as [Hf Hfb].
  set (full_size := miter.div_round_up (len l) k) in *.
  assert (Hfn : full_size <= n) by nia.
  destruct (yield_full_spec full_size Hf l [] (len l - (full_size - 1) * k))
    as (ys & rest & Hy & Hc & Hall & Hny).
  { nia. } { rewrite len_nil. lia. } { rewrite len_nil. nia. }
  rewrite Hy. cbn [app] in Hc.
  assert (Hrest : len rest = (k - (len l - (full_size - 1) * k)) * (full_size - 1)).
  { pose proof (f_equal len Hc) as Hlen.
    rewrite len_app, (len_concat_uniform ys full_size Hall), Hny in Hlen. nia. }
  exists (ys ++ miter.yield_partial (full_size - 1) rest []
                  (k - (len l - (full_size - 1) * k))), full_size.
  split; [reflexivity|].
  destruct (Z.eq_dec full_size 1) as [Hone | Hmany].
  - (* no partial chunk *)
    assert (rest = []) as -> by (apply len_zero_nil; nia).
    cbn [miter.yield_partial]. rewrite !app_nil_r in *.
    repeat split.
    + exact Hc.
    + eapply Forall_impl; [exact Hall|]. intros c Hcl. cbn in Hcl. lia.
    + nia.
  - destruct (yield_partial_spec (full_size - 1) ltac:(lia) rest []
                (k - (len l - (full_size - 1) * k))
                (k - (len l - (full_size - 1) * k)))
      as (Hpc & Hpall & Hpn).
    { rewrite len_nil. lia. } { rewrite len_nil. lia. }
    repeat split.
    + rewrite concat_app, Hpc. exact Hc.
    + apply Forall_app; split.
      * eapply Forall_impl; [exact Hall|]. intros c Hcl. cbn in Hcl. lia.
      * eapply Forall_impl; [exact Hpall|]. intros c Hcl. cbn in Hcl. lia.
    + rewrite len_app, Hny, Hpn. lia.
Qed.

(** ** The same partition in later releases of more_itertools *)

Section buffered.
Context {A : Type}.

Lemma len_take (n : Z) (l : list A) :
  0 <= n <= len l -> len (miter.take n l) = n.
Proof. intros Hn. unfold miter.take, len in *. rewrite length_take. lia. Qed.

Lemma len_drop (n : Z) (l : list A) :
  0 <= n <= len l -> len (miter.drop n l) = len l - n.
Proof. intros Hn. unfold miter.drop, len in *. rewrite length_drop. lia. Qed.

Lemma take_app_drop (n : Z) (l : list A) : miter.take n l ++ miter.drop n l = l.
Proof. apply take_drop. Qed.

Lemma slice_step (buffer : list A) (a s t : Z) :
  0 <= a -> 0 <= s -> 0 <= t ->
  miter.slice buffer a (a + s) ++ miter.slice buffer (a + s) (a + s + t)
  = miter.slice buffer a (a + s + t).
Proof.
  intros Ha Hs Ht. unfold miter.slice, miter.take, miter.drop.
  replace (a + s - a) with s by lia.
  replace (a + s + t - (a + s)) with t by lia.
  replace (a + s + t - a) with (s + t) by lia.
  rewrite !Z2Nat.inj_add by lia.
  rewrite <- drop_drop. apply take_take_drop.
Qed.

Lemma len_slice (buffer : list A) (a s : Z) :
  0 <= a -> 0 <= s -> a + s <= len buffer ->
  len (miter.slice buffer a (a + s)) = s.
Proof.
  intros Ha Hs Hlen. unfold miter.slice.
  replace (a + s - a) with s by lia.
  rewrite len_take; [reflexivity|]. rewrite len_drop; lia.
Qed.

Lemma slice_whole (buffer : list A) : miter.slice buffer 0 (len buffer) = buffer.
Proof.
  unfold miter.slice, miter.take, miter.drop, len. cbn [Z.to_nat drop skipn].
  rewrite Z.sub_0_r, Nat2Z.id. apply firstn_all.
Qed.

Lemma slice_empty (buffer : list A) (a : Z) : miter.slice buffer a a = [].
Proof. unfold miter.slice, miter.take. rewrite Z.sub_diag. reflexivity. Qed.

(** [m] slices of [s] items, from index [a] on. *)
Lemma slices_spec (buffer : list A) (s : Z) (m : nat) :
  1 <= s ->
  forall (a : Z) (fuel : nat),
    0 <= a -> (m <= fuel)%nat -> a + Z.of_nat m * s <= len buffer ->
    let chunks := map (fun i => miter.slice buffer i (i + s))
                      (miter.range_from fuel a (a + Z.of_nat m * s) s) in
    concat chunks = miter.slice buffer a (a + Z.of_nat m * s) /\
    Forall (fun c => len c = s) chunks.
Proof.
  intros Hs. induction m as [|m IH]; intros a fuel Ha Hfuel Hlen; cbv zeta.
  - replace (a + Z.of_nat 0 * s) with a by lia.
    rewrite slice_empty.
    destruct fuel; cbn [miter.range_from]; [|rewrite Z.ltb_irrefl];
      split; constructor.
  - destruct fuel as [|fuel]; [lia|]. cbn [miter.range_from].
    replace (a <? a + Z.of_nat (S m) * s) with true
      by (symmetry; apply Z.ltb_lt; nia).
    replace (a + Z.of_nat (S m) * s) with (a + s + Z.of_nat m * s) in * by lia.
    destruct (IH (a + s) fuel) as [Hcat Hall]; [lia | lia | lia |].
    cbn [map concat]. rewrite Hcat. split.
    + apply slice_step; nia.
    + constructor; [apply len_slice; nia | exact Hall].
Qed.

Lemma yield_streamed_spec (n : Z) :
  1 <= n ->
  forall (iterable buffer : list A) (skip kept : Z),
    0 <= kept -> 0 <= skip <= n -> len buffer + skip = kept + n ->
    exists ys b,
      miter.yield_streamed n iterable buffer skip = (ys, b) /\
      concat ys ++ b = buffer ++ iterable /\
      Forall (fun c => len c = n) ys /\
      (ys <> [] -> kept + 1 <= len b <= kept + n) /\
      (ys = [] -> b = buffer ++ iterable /\ len iterable <= skip).
Proof.
  intros Hn. induction iterable as [|x iterable IH];
    intros buffer skip kept Hkept Hskip Hinv.
  - exists [], buffer. cbn [miter.yield_streamed concat app].
    split; [reflexivity|]. split; [symmetry; apply app_nil_r|].
    split; [constructor|]. split; [congruence|].
    intros _. rewrite app_nil_r, len_nil. split; [reflexivity | lia].
  - cbn [miter.yield_streamed]. destruct (0 <? skip) eqn:Hpos.
    + apply Z.ltb_lt in Hpos.
      destruct (IH (buffer ++ [x]) (skip - 1) kept)
        as (ys & b & Hrun & Hcat & Hall & Hne & He).
      { lia. } { lia. } { rewrite len_app, len_cons, len_nil. lia. }
      exists ys, b. rewrite Hrun.
      split; [reflexivity|].
      split; [rewrite Hcat, <- app_assoc; reflexivity|].
      split; [exact Hall|]. split; [exact Hne|].
      intros Hnil. destruct (He Hnil) as [-> Hl].
      rewrite <- app_assoc, len_cons. split; [reflexivity | lia].
    + apply Z.ltb_ge in Hpos. assert (skip = 0) as -> by lia.
      assert (Hbuf : len (buffer ++ [x]) = kept + n + 1)
        by (rewrite len_app, len_cons, len_nil; lia).
      destruct (IH (miter.drop n (buffer ++ [x])) (n - 1) kept)
        as (ys & b & Hrun & Hcat & Hall & Hne & He).
      { lia. } { lia. } { rewrite len_drop; lia. }
      exists (miter.take n (buffer ++ [x]) :: ys), b. rewrite Hrun.
      split; [reflexivity|]. split; [|split; [|split]].
      * cbn [concat]. rewrite <- !app_assoc, Hcat, app_assoc, take_app_drop.
        rewrite <- app_assoc. reflexivity.
      * constructor; [apply len_take; lia | exact Hall].
      * intros _. destruct ys as [|y ys].
        -- destruct (He eq_refl) as [-> Hl]. pose proof (len_nonneg iterable).
           rewrite len_app, len_drop; lia.
        -- apply Hne. discriminate.
      * discriminate.
Qed.

Lemma even_sizes_after_stream (n total k full_size : Z) :
  1 <= n -> 1 <= k -> 1 <= full_size <= n ->
  (n - 1) * (n - 2) < total ->
  (k - 1) * n < total <= k * n ->
  (full_size - 1) * k < total <= full_size * k ->
  full_size = n \/ (full_size = n - 1 /\ total = full_size * k).
Proof.
  intros Hn Hk Hf Hkept Hkb Hfb.
  destruct (Z.eq_dec full_size n) as [Heq | Hne]; [left; exact Heq|].
  right. assert (Hlt : full_size <= n - 1) by lia.
  assert (Hkn : k <= n - 1) by nia.
  assert (Hfull : full_size = n - 1).
  { destruct (Z.eq_dec full_size (n - 1)) as [Heq | Hne']; [exact Heq|].
    exfalso. assert (Hf2 : full_size <= n - 2) by lia.
    assert (H2k : 2 * k < n) by nia. nia. }
  split; [exact Hfull|]. subst full_size.
  destruct (Z.eq_dec total ((n - 1) * k)) as [Heq | Hne']; [exact Heq|].
  exfalso. assert (Hk2 : k <= n - 2) by nia. nia.
Qed.

Lemma cut_evenly_spec (buffer : list A) (n : Z) :
  1 <= n -> 1 <= len buffer ->
  exists chunks full_size,
    miter.cut_evenly buffer n = Ok chunks /\
    concat chunks = buffer /\
    Forall (fun c => full_size - 1 <= len c <= full_size /\ 1 <= len c <= n)
      chunks /\
    ((n - 1) * (n - 2) < len buffer ->
     Forall (fun c => n - 1 <= len c <= n) chunks).
Proof.
  intros Hn Hl. unfold miter.cut_evenly.
  destruct (n =? 0) eqn:H0; [apply Z.eqb_eq in H0; lia|].
  destruct (div_round_up_bounds (len buffer) n Hl Hn) as [Hk Hkb].
  set (k := miter.div_round_up (len buffer) n) in *.
  destruct (k =? 0) eqn:H1; [apply Z.eqb_eq in H1; lia|].
  destruct (div_round_up_bounds (len buffer) k Hl Hk) as [Hf Hfb].
  set (full_size := miter.div_round_up (len buffer) k) in *.
  assert (Hfn : full_size <= n) by nia.
  set (num_full := len buffer - (full_size - 1) * k).
  assert (Hnum : 1 <= num_full <= k) by (subst num_full; nia).
  replace (0 <? full_size) with true by (symmetry; apply Z.ltb_lt; lia).
  (* the chunks of full size *)
  destruct (slices_spec buffer full_size (Z.to_nat num_full) Hf 0
              (Z.to_nat (num_full * full_size - 0)))
    as [Hfcat Hfall]; [lia | nia | nia |].
  rewrite Z2Nat.id in Hfcat, Hfall by lia. rewrite Z.add_0_l in Hfcat, Hfall.
  (* the chunks of partial size *)
  assert (Hpartial :
    exists partials,
      (if 0 <? full_size - 1 then
         map (fun i => miter.slice buffer i (i + (full_size - 1)))
             (miter.range (num_full * full_size) (len buffer) (full_size - 1))
       else []) = partials /\
      concat partials = miter.slice buffer (num_full * full_size) (len buffer) /\
      Forall (fun c => len c = full_size - 1 /\ 1 <= len c) partials /\
      (partials <> [] -> num_full < k)).
  { destruct (0 <? full_size - 1) eqn:Hp.
    - apply Z.ltb_lt in Hp.
      destruct (slices_spec buffer (full_size - 1) (Z.to_nat (k - num_full))
                  ltac:(lia) (num_full * full_size)
                  (Z.to_nat (len buffer - num_full * full_size)))
        as [Hpcat Hpall]; [nia | subst num_full; nia | subst num_full; nia |].
      rewrite Z2Nat.id in Hpcat, Hpall by lia.
      replace (num_full * full_size + (k - num_full) * (full_size - 1))
        with (len buffer) in Hpcat, Hpall by (subst num_full; nia).
      eexists. split; [reflexivity|]. split; [exact Hpcat|]. split.
      + eapply Forall_impl; [exact Hpall|]. intros c Hc. cbn in Hc. lia.
      + intros Hne. destruct (Z.eq_dec num_full k) as [Heq | Hneq]; [|lia].
        exfalso. apply Hne. unfold miter.range.
        replace (len buffer - num_full * full_size) with 0
          by (subst num_full; nia).
        reflexivity.
    - apply Z.ltb_ge in Hp. exists []. split; [reflexivity|]. split.
      + assert (full_size = 1) by lia.
        replace (num_full * full_size) with (len buffer) by (subst num_full; nia).
        rewrite slice_empty. reflexivity.
      + split; [constructor | congruence]. }
  destruct Hpartial as (partials & -> & Hpcat & Hpall & Hpne).
  unfold miter.range.
  eexists _, full_size. split; [reflexivity|]. split; [|split].
  - rewrite concat_app, Hfcat, Hpcat.
    pose proof (slice_step buffer 0 (num_full * full_size)
                  (len buffer - num_full * full_size)) as Hstep.
    rewrite !Z.add_0_l in Hstep.
    replace (num_full * full_size + (len buffer - num_full * full_size))
      with (len buffer) in Hstep by lia.
    rewrite Hstep by (subst num_full; nia). apply slice_whole.
  - apply Forall_app. split.
    + eapply Forall_impl; [exact Hfall|]. intros c Hc. cbn in Hc. lia.
    + eapply Forall_impl; [exact Hpall|]. intros c Hc. cbn in Hc. lia.
  - intros Hkept.
    destruct (even_sizes_after_stream n (len buffer) k full_size)
      as [Hsame | [Hless Htotal]]; try lia.
    + apply Forall_app. split.
      * eapply Forall_impl; [exact Hfall|]. intros c Hc. cbn in Hc. lia.
      * eapply Forall_impl; [exact Hpall|]. intros c Hc. cbn in Hc. lia.
    + assert (partials = []) as ->.
      { destruct partials as [|p ps]; [reflexivity|].
        assert (num_full < k) by (apply Hpne; discriminate).
        subst num_full. nia. }
      rewrite app_nil_r.
      eapply Forall_impl; [exact Hfall|]. intros c Hc. cbn in Hc. lia.
Qed.

(** For a limit [n] of at least 1 and a non-empty [l], the later
    [chunked_even] too returns chunks whose concatenation is [l], each
    of [full_size] or [full_size - 1] elements, between 1 and [n]. *)
Lemma chunked_even_buffered_spec (l : list A) (n : Z) :
  1 <= n -> 1 <= len l ->
  exists chunks full_size,
    miter.chunked_even_buffered l n = Ok chunks /\
    concat chunks = l /\
    Forall (fun c => full_size - 1 <= len c <= full_size /\ 1 <= len c <= n)
      chunks.
Proof.
  intros Hn Hl. unfold miter.chunked_even_buffered.
  destruct (n <? 1) eqn:H1; [apply Z.ltb_lt in H1; lia|].
  set (min_buffer := (n - 1) * (n - 2)).
  assert (Hmin : 0 <= min_buffer).
  { subst min_buffer. destruct (Z.eq_dec n 1) as [-> | Hn1]; [lia | nia]. }
  destruct (Z.le_gt_cases (len l) min_buffer) as [Hshort | Hlong].
  - (* everything fits into the buffer *)
    assert (Ht : miter.take min_buffer l = l).
    { unfold miter.take. apply firstn_all2. unfold len in Hshort. lia. }
    assert (Hd : miter.drop min_buffer l = []).
    { unfold miter.drop. apply skipn_all2. unfold len in Hshort. lia. }
    rewrite Ht, Hd. cbn [miter.yield_streamed].
    destruct (len l =? 0) eqn:H0; [apply Z.eqb_eq in H0; lia|].
    destruct (cut_evenly_spec l n Hn Hl) as (chunks & full_size & -> & Hcat & Hall & _).
    cbn [rbind app]. exists chunks, full_size. repeat split; assumption.
  - destruct (yield_streamed_spec n Hn (miter.drop min_buffer l)
                (miter.take min_buffer l) n min_buffer)
      as (ys & b & Hrun & Hcat & Hall & Hne & He).
    { exact Hmin. } { lia. } { rewrite len_take; lia. }
    rewrite Hrun. rewrite take_app_drop in Hcat.
    destruct (len b =? 0) eqn:H0.
    + apply Z.eqb_eq, len_zero_nil in H0. subst b. rewrite app_nil_r in Hcat.
      exists ys, n. split; [reflexivity|]. split; [exact Hcat|].
      eapply Forall_impl; [exact Hall|]. intros c Hc. cbn in Hc. lia.
    + apply Z.eqb_neq in H0. pose proof (len_nonneg b) as Hb.
      destruct (cut_evenly_spec b n Hn ltac:(lia))
        as (chunks & full_size & -> & Hccat & Hcall & Hlate).
      cbn [rbind]. destruct ys as [|y ys].
      * exists chunks, full_size. cbn [app concat] in *.
        split; [reflexivity|]. split; [congruence|]. exact Hcall.
      * exists ((y :: ys) ++ chunks), n.
        split; [reflexivity|]. split; [rewrite concat_app, Hccat; exact Hcat|].
        assert (Hkept : min_buffer + 1 <= len b <= min_buffer + n)
          by (apply Hne; discriminate).
        apply Forall_app. split.
        -- eapply Forall_impl; [exact Hall|]. intros c Hc. cbn in Hc. lia.
        -- assert (Hlate' := Hlate ltac:(subst min_buffer; lia)).
           clear -Hlate' Hcall. induction Hcall as [|c cs Hc _ IH];
             inversion Hlate'; subst; constructor; [lia | auto].
Qed.

(** For the limit 0 the later [chunked_even] raises as well, from
    [islice]. *)
Lemma chunked_even_buffered_zero (l : list A) :
  miter.chunked_even_buffered l 0 = Raise ValueError.
Proof. reflexivity. Qed.
End buffered.

(** C2, amended. For every series with at least one timestamp and every
    chunk size limit of at least 1, the chunks [write_chunks] cuts the
    unique timestamps into concatenate to the unique timestamps, their
    lengths sum to the number of timestamps, the largest and the
    smallest length differ by at most 1, no chunk is empty or longer
    than the limit, and there are [ceil(total / limit)] chunks. *)
Theorem time_chunks_even (s : pd.Series) (max_time_chunk : Z) :
  1 <= total_time_steps s ->
  1 <= max_time_chunk ->
  even_partition s max_time_chunk /\
  exists chunks,
    time_chunks s max_time_chunk = Ok chunks /\
    Forall (fun c => 1 <= len c <= max_time_chunk) chunks /\
    len chunks = miter.div_round_up (total_time_steps s) max_time_chunk.
Proof.
  intros Htotal Hlimit. unfold even_partition, time_chunks, total_time_steps in *.
  fold (unique_times s).
  destruct (chunked_even_spec (unique_times s) max_time_chunk Hlimit Htotal)
    as (chunks & full_size & Hrun & Hcat & Hall & Hnum).
  assert (Hne : map len chunks <> []).
  { destruct chunks; [|discriminate].
    cbn in Hcat. rewrite <- Hcat, len_nil in Htotal. lia. }
  assert (Hb : Forall (fun x => full_size - 1 <= x <= full_size) (map len chunks)).
  { apply Forall_map. eapply Forall_impl; [exact Hall|]. cbn. intros c Hc. lia. }
  destruct (py_max_bounds _ _ _ Hne Hb) as (hi & Hhi & Hhib).
  destruct (py_min_bounds _ _ _ Hne Hb) as (lo & Hlo & Hlob).
  split.
  - exists chunks, hi, lo. repeat split; try assumption.
    + rewrite py_sum_lens, Hcat. reflexivity.
    + lia.
  - exists chunks. repeat split; try assumption.
    eapply Forall_impl; [exact Hall|]. cbn. intros c Hc. lia.
Qed.

Lemma time_chunks_even_witness :
  1 <= total_time_steps five_ping_series /\
  1 <= 3 /\
  even_partition five_ping_series 3 /\
  exists chunks,
    time_chunks five_ping_series 3 = Ok chunks /\
    Forall (fun c => 1 <= len c <= 3) chunks /\
    len chunks = miter.div_round_up (total_time_steps five_ping_series) 3.
Proof.
  split; [vm_compute; discriminate|]. split; [lia|].
  apply (time_chunks_even five_ping_series 3); vm_compute; discriminate.
Defined.

(** The example of the specification: five timestamps and a limit of 3
    give the chunks [1, 2, 3] and [4, 5]. *)
Example time_chunks_five_by_three :
  time_chunks five_ping_series 3 = Ok [[1; 2; 3]; [4; 5]].
Proof. reflexivity. Qed.

(** C2 as stated fails for the chunk size limit 0: [divmod(N, 0)] raises
    and there is no partition at all. *)
Lemma time_chunks_limit_zero : ~ even_partition five_ping_series 0.
Proof.
  intros (chunks & hi & lo & Hrun & _). vm_compute in Hrun. discriminate.
Qed.

(** The limit 0 is one [array_col_to_zarr] passes on: with a budget of
    1 MB and more than 125000 samples per ping, or with a budget of 0. *)
Example chunk_limit_zero_reached :
  chunk_sizes five_ping_series 0 = Ok (1, 2, 0) /\
  array_col_to_zarr five_ping_series 0 ∅ = (Raise ZeroDivisionError, ∅).
Proof. split; reflexivity. Qed.

(** ** Chunk length *)

Lemma fold_left_max_zero (l : list Z) :
  Forall (fun x => x = 0) l -> fold_left Z.max l 0 = 0.
Proof.
  induction 1 as [|x l Hx _ IH]; [reflexivity|].
  cbn [fold_left]. subst x. exact IH.
Qed.

Lemma np_max_zero (l : list Z) :
  l <> [] -> Forall (fun x => x = 0) l -> np.max l = Some 0.
Proof.
  destruct l as [|x l]; [congruence|]. intros _ Hl.
  inversion Hl as [|? ? Hx Hl']; subst. cbn [np.max].
  rewrite fold_left_max_zero by assumption. reflexivity.
Qed.

Lemma unique_cons_not_nil (x : Z) (l : list Z) : pd.unique (x :: l) <> [].
Proof.
  unfold pd.unique. cbn [pd.unique_from].
  destruct (bool_decide (x ∈ [])) eqn:Hin; [|discriminate].
  apply bool_decide_eq_true in Hin. inversion Hin.
Qed.

(** C3, amended. For every series whose longest sample array has
    [max_dim >= 1] elements, with at least one channel, and every
    budget [num_mb] whose elements
    [num_mb * floor(1e6 / (max_dim * 8))] are at least the number of
    channels, the chunk length [array_col_to_zarr] computes is
    [(num_mb * floor(1e6 / (max_dim * 8))) // channel_count], with a
    minimum of 1: the budget multiplies the floored quotient. *)
Theorem chunk_sizes_formula (s : pd.Series) (num_mb max_dim : Z) :
  max_sample_length s = Some max_dim ->
  1 <= max_dim ->
  1 <= channel_count s ->
  channel_count s <= num_mb * (1000000 / (max_dim * 8)) ->
  chunk_sizes s num_mb
    = Ok (max_dim, channel_count s,
          Z.max 1 ((num_mb * (1000000 / (max_dim * 8))) / channel_count s)).
Proof.
  unfold max_sample_length, channel_count, chunk_sizes.
  intros -> Hdim Hchan Hroom.
  destruct (max_dim * 8 =? 0) eqn:H0; [apply Z.eqb_eq in H0; lia|].
  destruct (len (pd.unique_channels s) =? 0) eqn:H1;
    [apply Z.eqb_eq in H1; lia|].
  rewrite Z.max_r; [reflexivity|].
  apply Z.div_le_lower_bound; lia.
Qed.

Lemma chunk_sizes_formula_witness :
  max_sample_length three_sample_series = Some 3 /\
  1 <= 3 /\
  1 <= channel_count three_sample_series /\
  channel_count three_sample_series <= 2 * (1000000 / (3 * 8)) /\
  chunk_sizes three_sample_series 2
    = Ok (3, channel_count three_sample_series,
          Z.max 1 ((2 * (1000000 / (3 * 8))) / channel_count three_sample_series)).
Proof.
  split; [reflexivity|]. split; [lia|]. split; [vm_compute; discriminate|].
  split; [vm_compute; discriminate|].
  apply (chunk_sizes_formula three_sample_series 2 3);
    [reflexivity | lia | vm_compute; discriminate | vm_compute; discriminate].
Defined.

(** C3 as stated fails: for a budget of 2 MB, three samples per ping
    and one channel the code gives [2 * 41666 = 83332], the formula of
    the specification [floor(2e6 / 24) = 83333]. *)
Lemma chunk_len_differs : ~ chunk_len_as_specified three_sample_series 2.
Proof.
  intros (max_dim & num_chan & H).
  assert (Hrun : chunk_sizes three_sample_series 2 = Ok (3, 1, 83332))
    by (vm_compute; reflexivity).
  rewrite Hrun in H. injection H as <- <- H. vm_compute in H. discriminate.
Qed.

(** With a budget that is not negative the code never exceeds the
    quotient the specification takes the floor of. *)
Lemma chunk_sizes_below_spec (num_mb max_dim num_chan : Z) :
  0 <= num_mb -> 1 <= max_dim -> 1 <= num_chan ->
  (num_mb * (1000000 / (max_dim * 8))) / num_chan
    <= (num_mb * 1000000 / (max_dim * 8)) / num_chan.
Proof.
  intros Hmb Hdim Hchan.
  apply Z.div_le_mono; [lia|].
  apply Z.div_le_lower_bound; [lia|].
  pose proof (Z.mul_div_le 1000000 (max_dim * 8) ltac:(lia)). nia.
Qed.

(** C8. A series in which every record has absent or zero-length
    samples, or which has no channel, makes [array_col_to_zarr] raise
    before [write_chunks] is reached: the group is left as it was. *)
Theorem array_col_to_zarr_degenerate (s : pd.Series) (num_mb : Z)
    (array_grp : zarr.Group) :
  no_samples s \/ channel_count s = 0 ->
  exists e,
    is_ok (chunk_sizes s num_mb) = false /\
    array_col_to_zarr s num_mb array_grp = (Raise e, array_grp).
Proof.
  intros Hdeg. unfold array_col_to_zarr, bind, lift.
  assert (Herr : exists e, chunk_sizes s num_mb = Raise e).
  { unfold chunk_sizes.
    destruct (pd.items s) as [|it its] eqn:Hitems; [eexists; reflexivity|].
    destruct Hdeg as [Hnone | Hchan].
    - unfold no_samples in Hnone. rewrite Hitems in Hnone.
      rewrite (np_max_zero (map (fun it => sample_length (snd it)) (it :: its)));
        [eexists; reflexivity | discriminate |].
      apply Forall_map. exact Hnone.
    - exfalso. unfold channel_count, pd.unique_channels in Hchan.
      rewrite Hitems in Hchan. apply len_zero_nil in Hchan.
      exact (unique_cons_not_nil _ _ Hchan). }
  destruct Herr as [e He]. exists e. rewrite He. split; reflexivity.
Qed.

Lemma array_col_to_zarr_degenerate_witness :
  (no_samples empty_ping_series \/ channel_count empty_ping_series = 0) /\
  exists e,
    is_ok (chunk_sizes empty_ping_series 1) = false /\
    array_col_to_zarr empty_ping_series 1 ∅ = (Raise e, ∅).
Proof.
  assert (H : no_samples empty_ping_series) by (repeat constructor).
  split; [left; exact H|].
  apply (array_col_to_zarr_degenerate empty_ping_series 1 ∅). left. exact H.
Defined.

(** ** Ragged Array Writer *)

Lemma len_repeat {A} (x : A) (n : Z) : 0 <= n -> len (repeat x (Z.to_nat n)) = n.
Proof. intros Hn. unfold len. rewrite repeat_length. lia. Qed.

Lemma np_chunk_data (size_elem : Z) (df_chunk : list pd.cell) :
  df_chunk <> [] ->
  np.concatenate
    (map (fun elm => match elm with
                     | pd.NdArray samples => np.array1 samples
                     | pd.NaN => np.full_nan size_elem
                     end) df_chunk)
  = Ok (np.array1
          (concat (map (fun elm => match elm with
                                   | pd.NdArray samples => samples
                                   | pd.NaN => repeat nan (Z.to_nat size_elem)
                                   end) df_chunk))).
Proof.
  intros Hne. unfold np.concatenate.
  destruct df_chunk as [|x df_chunk]; [congruence|].
  cbn [map]. do 2 f_equal.
  change (concat (map np.data
            (map (fun elm => match elm with
                             | pd.NdArray samples => np.array1 samples
                             | pd.NaN => np.full_nan size_elem
                             end) (x :: df_chunk)))
          = concat (map (fun elm => match elm with
                                    | pd.NdArray samples => samples
                                    | pd.NaN => repeat nan (Z.to_nat size_elem)
                                    end) (x :: df_chunk))).
  f_equal. rewrite map_map. apply map_ext. intros [|samples]; reflexivity.
Qed.

Lemma np_chunk_len (size_elem : Z) (df_chunk : list pd.cell) :
  0 <= size_elem ->
  len (concat (map (fun elm => match elm with
                               | pd.NdArray samples => samples
                               | pd.NaN => repeat nan (Z.to_nat size_elem)
                               end) df_chunk))
  = py_sum (map (chunk_elements size_elem) df_chunk).
Proof.
  intros He. induction df_chunk as [|x df_chunk IH]; [reflexivity|].
  cbn [map concat]. rewrite len_app, py_sum_cons, IH.
  destruct x as [|samples]; cbn [chunk_elements]; [rewrite len_repeat|]; lia.
Qed.

Lemma py_sum_le (f : pd.cell -> Z) (bound : Z) (l : list pd.cell) :
  Forall (fun x => f x <= bound) l -> py_sum (map f l) <= len l * bound.
Proof.
  induction 1 as [|x l Hx _ IH]; [reflexivity|].
  cbn [map]. rewrite py_sum_cons, len_cons. lia.
Qed.

Lemma py_sum_lt (f : pd.cell -> Z) (bound : Z) (l : list pd.cell) :
  Forall (fun x => f x <= bound) l -> Exists (fun x => f x < bound) l ->
  py_sum (map f l) < len l * bound.
Proof.
  intros Hall Hex. induction Hex as [x l Hx | x l Hex IH];
    inversion Hall as [|? ? Hle Hall']; subst;
    cbn [map]; rewrite py_sum_cons, len_cons.
  - pose proof (py_sum_le f bound l Hall'). lia.
  - specialize (IH Hall'). lia.
Qed.

(** What the writer does do: in a chunk whose arrays all have the
    reference length, an absent cell becomes a row of NaN and a present
    one is used as it is. *)
Lemma get_np_chunk_full (df_chunk : list pd.cell) (time_chunk num_chan size_elem : Z) :
  0 <= size_elem ->
  df_chunk <> [] ->
  len df_chunk = time_chunk * num_chan ->
  Forall (fun x => chunk_elements size_elem x = size_elem) df_chunk ->
  get_np_chunk df_chunk time_chunk num_chan size_elem (np.full_nan size_elem)
    = Ok {| np.shape := [time_chunk; num_chan; size_elem];
            np.data := concat (map (padded size_elem) df_chunk) |}.
Proof.
  intros He Hne Hlen Hall. unfold get_np_chunk.
  rewrite (np_chunk_data size_elem df_chunk Hne). cbn [rbind].
  unfold np.reshape. cbn [np.data np.array1].
  rewrite np_chunk_len by assumption.
  assert (Hsum : py_sum (map (chunk_elements size_elem) df_chunk)
                 = len df_chunk * size_elem).
  { clear Hlen Hne. induction Hall as [|x l Hx _ IH]; [reflexivity|].
    cbn [map]. rewrite py_sum_cons, len_cons, IH, Hx. lia. }
  cbn [fold_right]. rewrite Hsum, Hlen.
  replace (time_chunk * (num_chan * (size_elem * 1)) =? time_chunk * num_chan * size_elem)
    with true by (symmetry; apply Z.eqb_eq; lia).
  do 2 f_equal. clear Hsum Hlen Hne.
  induction Hall as [|x l Hx _ IH]; [reflexivity|].
  cbn [map concat]. rewrite IH. f_equal.
  destruct x as [|samples]; cbn in *; [reflexivity|].
  rewrite Hx, Z.sub_diag. cbn. rewrite app_nil_r. reflexivity.
Qed.

(** What it does not do: a chunk that holds an array shorter than the
    reference length is not padded; [reshape] gets too few elements and
    raises. *)
Lemma get_np_chunk_short (df_chunk : list pd.cell) (time_chunk num_chan size_elem : Z) :
  0 <= size_elem ->
  len df_chunk = time_chunk * num_chan ->
  Forall (fun x => chunk_elements size_elem x <= size_elem) df_chunk ->
  Exists (fun x => chunk_elements size_elem x < size_elem) df_chunk ->
  get_np_chunk df_chunk time_chunk num_chan size_elem (np.full_nan size_elem)
    = Raise ValueError.
Proof.
  intros He Hlen Hall Hex. unfold get_np_chunk.
  assert (Hne : df_chunk <> []) by (intros ->; inversion Hex).
  rewrite (np_chunk_data size_elem df_chunk Hne). cbn [rbind].
  unfold np.reshape. cbn [np.data np.array1].
  rewrite np_chunk_len by assumption.
  pose proof (py_sum_lt _ _ _ Hall Hex) as Hlt.
  cbn [fold_right].
  destruct (time_chunk * (num_chan * (size_elem * 1))
            =? py_sum (map (chunk_elements size_elem) df_chunk)) eqn:Heq;
    [|reflexivity].
  apply Z.eqb_eq in Heq. nia.
Qed.

(** C1 at the failing input: one ping, two samples on channel 1 and one
    on channel 2. The reference length is 2; the second cell is left at
    length 1, the three values do not fill the shape (1, 2, 2), and
    nothing is written, where the claim has the chunk
    [[1, 2], [3, NaN]] written. *)
Theorem short_samples_not_padded :
  chunk_sizes ragged_series 1 = Ok (2, 2, 31250) /\
  pd.loc ragged_series [1] = [pd.NdArray [1%float; 2%float]; pd.NdArray [3%float]] /\
  get_np_chunk (pd.loc ragged_series [1]) 1 2 2 (np.full_nan 2) = Raise ValueError /\
  array_col_to_zarr ragged_series 1 ∅ = (Raise ValueError, ∅) /\
  concat (map (padded 2) (pd.loc ragged_series [1]))
    = [1%float; 2%float; 3%float; nan].
Proof. repeat split; reflexivity. Qed.

(** ** Padded Multi-Index Builder *)

Lemma unique_from_elem (seen l : list Z) (x : Z) :
  x ∈ pd.unique_from seen l <-> x ∈ l /\ x ∉ seen.
Proof.
  revert seen. induction l as [|y l IH]; intros seen; cbn [pd.unique_from].
  - split; [intros H; inversion H | intros [H _]; inversion H].
  - destruct (bool_decide (y ∈ seen)) eqn:Hy.
    + apply bool_decide_eq_true in Hy. rewrite IH, elem_of_cons.
      split; [tauto|]. intros [[-> | Hx] Hn]; [contradiction | tauto].
    + apply bool_decide_eq_false in Hy. rewrite elem_of_cons, IH, !elem_of_cons.
      split.
      * intros [-> | [Hx Hn]]; [tauto|]. split; [tauto|]. intros Hs. apply Hn. tauto.
      * intros [[-> | Hx] Hn]; [tauto|].
        destruct (decide (x = y)) as [-> | Hne]; [tauto|].
        right. split; [exact Hx|]. intros [-> | Hs]; tauto.
Qed.

Lemma unique_from_NoDup (seen l : list Z) : NoDup (pd.unique_from seen l).
Proof.
  revert seen. induction l as [|y l IH]; intros seen; cbn [pd.unique_from].
  - constructor.
  - destruct (bool_decide (y ∈ seen)) eqn:Hy; [apply IH|].
    apply NoDup_cons. split; [|apply IH].
    rewrite unique_from_elem, elem_of_cons. tauto.
Qed.

Lemma unique_elem (l : list Z) (x : Z) : x ∈ pd.unique l <-> x ∈ l.
Proof.
  unfold pd.unique. rewrite unique_from_elem. split; [tauto|].
  intros H. split; [exact H|]. intros Hn. inversion Hn.
Qed.

Lemma unique_NoDup (l : list Z) : NoDup (pd.unique l).
Proof. apply unique_from_NoDup. Qed.

Lemma unique_from_ext (seen seen' l : list Z) :
  (forall x, x ∈ seen <-> x ∈ seen') ->
  pd.unique_from seen l = pd.unique_from seen' l.
Proof.
  revert seen seen'. induction l as [|y l IH]; intros seen seen' Hs; [reflexivity|].
  cbn [pd.unique_from].
  rewrite (bool_decide_ext (y ∈ seen) (y ∈ seen') (Hs y)).
  destruct (bool_decide (y ∈ seen')); [apply IH; exact Hs|].
  f_equal. apply IH. intros x. rewrite !elem_of_cons, Hs. tauto.
Qed.

Lemma unique_from_app (seen l1 l2 : list Z) :
  pd.unique_from seen (l1 ++ l2)
    = pd.unique_from seen l1 ++ pd.unique_from (l1 ++ seen) l2.
Proof.
  revert seen. induction l1 as [|y l1 IH]; intros seen; [reflexivity|].
  cbn [app pd.unique_from].
  destruct (bool_decide (y ∈ seen)) eqn:Hy.
  - apply bool_decide_eq_true in Hy. rewrite IH. f_equal.
    apply unique_from_ext. intros x. rewrite elem_of_cons, !elem_of_app.
    split; [tauto|]. intros [-> | H]; tauto.
  - rewrite IH. cbn [app]. do 2 f_equal.
    apply unique_from_ext. intros x.
    rewrite elem_of_cons, !elem_of_app, elem_of_cons. tauto.
Qed.

Lemma unique_from_seen (seen l : list Z) :
  (forall x, x ∈ l -> x ∈ seen) -> pd.unique_from seen l = [].
Proof.
  induction l as [|y l IH]; intros Hl; [reflexivity|].
  cbn [pd.unique_from].
  rewrite bool_decide_eq_true_2 by (apply Hl; left).
  apply IH. intros x Hx. apply Hl. right. exact Hx.
Qed.

Lemma unique_from_fresh (seen l : list Z) :
  NoDup l -> (forall x, x ∈ l -> x ∉ seen) -> pd.unique_from seen l = l.
Proof.
  intros Hnd. revert seen. induction Hnd as [|y l Hy Hnd IH]; intros seen Hl;
    [reflexivity|].
  cbn [pd.unique_from].
  rewrite bool_decide_eq_false_2 by (apply Hl; left).
  f_equal. apply IH. intros x Hx. rewrite elem_of_cons.
  intros [-> | Hs]; [contradiction|]. apply (Hl x); [right; exact Hx | exact Hs].
Qed.

Lemma unique_from_repeats (n : nat) (ts seen : list Z) :
  NoDup ts -> (forall x, x ∈ ts -> x ∉ seen) ->
  pd.unique_from seen (flat_map (fun a => repeat a (S n)) ts) = ts.
Proof.
  intros Hnd. revert seen.
  induction Hnd as [|t ts Ht Hnd IH]; intros seen Hs; [reflexivity|].
  cbn [flat_map repeat app pd.unique_from].
  rewrite bool_decide_eq_false_2 by (apply Hs; left). f_equal.
  rewrite unique_from_app, unique_from_seen.
  2:{ intros x Hx. apply list_elem_of_In, repeat_spec in Hx. subst. left. }
  cbn [app]. apply IH. intros x Hx.
  rewrite elem_of_app, elem_of_cons. intros [Hr | [-> | Hsn]].
  - apply list_elem_of_In, repeat_spec in Hr. subst. contradiction.
  - contradiction.
  - apply (Hs x); [right; exact Hx | exact Hsn].
Qed.

Lemma unique_fst_product (ts chs : list Z) :
  NoDup ts -> chs <> [] ->
  pd.unique (map fst (pd.from_product ts chs)) = ts.
Proof.
  intros Hnd Hne. unfold pd.from_product, pd.unique. rewrite fst_list_prod.
  destruct chs as [|c chs]; [congruence|]. cbn [length].
  apply unique_from_repeats; [exact Hnd|]. intros x _ Hx. inversion Hx.
Qed.

Lemma unique_snd_product (ts chs : list Z) :
  NoDup chs -> ts <> [] ->
  pd.unique (map snd (pd.from_product ts chs)) = chs.
Proof.
  intros Hnd Hne. unfold pd.from_product, pd.unique. rewrite snd_list_prod.
  destruct ts as [|t ts]; [congruence|]. cbn [length repeat concat].
  rewrite unique_from_app, unique_from_fresh, unique_from_seen.
  - apply app_nil_r.
  - intros x Hx. apply list_elem_of_In, in_concat in Hx.
    destruct Hx as (l & Hl & Hx). apply repeat_spec in Hl. subst.
    rewrite elem_of_app. left. apply list_elem_of_In. exact Hx.
  - exact Hnd.
  - intros x _ Hx. inversion Hx.
Qed.

Lemma NoDup_from_product (ts chs : list Z) :
  NoDup ts -> NoDup chs -> NoDup (pd.from_product ts chs).
Proof.
  intros Hts Hchs. unfold pd.from_product.
  induction Hts as [|t ts Ht Hts IH]; [constructor|].
  cbn [list_prod]. apply NoDup_app. split; [|split].
  - apply (NoDup_fmap_2 (pair t)). exact Hchs.
  - intros [a b] Hin Hin'.
    apply list_elem_of_In, in_map_iff in Hin. destruct Hin as (c & Heq & _).
    apply list_elem_of_In, in_prod_iff in Hin'. destruct Hin' as [Ha _].
    inversion Heq; subst. apply Ht, list_elem_of_In. exact Ha.
  - exact IH.
Qed.

Lemma find_row_Some (k : Z * Z) (rs : list ((Z * Z) * list pd.cell)) :
  k ∈ map fst rs -> exists v, pd.find_row k rs = Some v.
Proof.
  induction rs as [|[k' v] rs IH]; cbn [map pd.find_row]; intros Hk.
  - inversion Hk.
  - destruct (bool_decide (k' = k)) eqn:Heq; [eauto|].
    apply bool_decide_eq_false in Heq. apply elem_of_cons in Hk.
    destruct Hk as [Hk | Hk]; [cbn in Hk; congruence | exact (IH Hk)].
Qed.

Lemma find_row_map (g : Z * Z -> list pd.cell) (k : Z * Z) (ks : list (Z * Z)) :
  k ∈ ks -> pd.find_row k (map (fun k => (k, g k)) ks) = Some (g k).
Proof.
  induction ks as [|k' ks IH]; intros Hk; [inversion Hk|].
  cbn [map pd.find_row].
  destruct (bool_decide (k' = k)) eqn:Heq.
  - apply bool_decide_eq_true in Heq. subst. reflexivity.
  - apply bool_decide_eq_false in Heq. apply elem_of_cons in Hk.
    destruct Hk as [Hk | Hk]; [congruence | exact (IH Hk)].
Qed.

(** What [set_multi_index] returns for a record set with one record per
    (timestamp, channel) pair: the frame indexed by the product of the
    unique timestamps and the unique channels. *)
Lemma set_multi_index_run (df : pd.DataFrame) :
  pd.dims_at df = pd.AsColumns ->
  NoDup (pd.keys df) ->
  exists out,
    set_multi_index df = Ok out /\
    pd.dims_at out = pd.AsIndexLevels /\
    pd.columns out = pd.columns df /\
    pd.keys out = pd.from_product (pd.unique (pd.timestamps df))
                                  (pd.unique (pd.channels df)) /\
    forall k, k ∈ pd.keys out ->
      pd.find_row k (pd.rows out)
        = Some (default (padding_row df) (pd.find_row k (pd.rows df))).
Proof.
  intros Hcols Hnd. unfold set_multi_index, pd.dim_column, pd.set_index.
  rewrite Hcols. cbn [rbind fst snd]. fold (pd.timestamps df) (pd.channels df).
  set (multi_index := pd.from_product _ _).
  set (df_multi := {| pd.dims_at := pd.AsIndexLevels;
                      pd.columns := pd.columns df; pd.rows := pd.rows df |}).
  assert (Hk : pd.keys df_multi = pd.keys df) by reflexivity.
  unfold pd.reindex. rewrite Hk.
  destruct (bool_decide (pd.keys df = multi_index)) eqn:Hsame.
  - apply bool_decide_eq_true in Hsame. exists df_multi.
    split; [reflexivity|]. rewrite Hk.
    repeat split; [exact Hsame|].
    intros k Hk'. destruct (find_row_Some k (pd.rows df) Hk') as [v Hv].
    cbn [df_multi pd.rows]. rewrite Hv. reflexivity.
  - unfold pd.is_unique. rewrite bool_decide_eq_true_2 by exact Hnd.
    eexists. split; [reflexivity|].
    assert (Hks : forall g : Z * Z -> list pd.cell,
              map fst (map (fun k => (k, g k)) multi_index) = multi_index).
    { intros g. rewrite map_map. cbn [fst]. apply map_id. }
    unfold pd.keys at 1 2. cbn [pd.dims_at pd.columns pd.rows]. rewrite Hks.
    repeat split.
    intros k Hk'.
    apply (find_row_map (fun k => default (padding_row df)
                                    (pd.find_row k (pd.rows df)))).
    exact Hk'.
Qed.

(** C4. For every record set with one record per (timestamp, channel)
    pair, the builder returns a view of exactly
    unique(timestamp) x unique(channel) rows in which every such pair
    appears exactly once; a pair of the input keeps its row and a pair
    absent from the input gets a row of padding markers. *)
Theorem set_multi_index_padded (df : pd.DataFrame) :
  pd.dims_at df = pd.AsColumns ->
  NoDup (pd.keys df) ->
  exists out, set_multi_index df = Ok out /\ padded_view df out.
Proof.
  intros Hcols Hnd.
  destruct (set_multi_index_run df Hcols Hnd) as (out & Hrun & _ & _ & Hkeys & Hrows).
  exists out. split; [exact Hrun|]. unfold padded_view.
  assert (Hlen : len (pd.rows out) = len (pd.keys out)).
  { unfold pd.keys, len. rewrite length_map. reflexivity. }
  split.
  - rewrite Hlen, Hkeys. unfold pd.from_product, len. rewrite length_prod. lia.
  - intros t c Ht Hc.
    assert (Hin : (t, c) ∈ pd.keys out).
    { rewrite Hkeys. apply list_elem_of_In, in_prod_iff.
      split; apply list_elem_of_In, unique_elem; assumption. }
    split; [|apply Hrows; exact Hin].
    apply NoDup_count_occ'; [|apply list_elem_of_In; exact Hin].
    apply NoDup_ListNoDup. rewrite Hkeys.
    apply NoDup_from_product; apply unique_NoDup.
Qed.

Lemma set_multi_index_padded_witness :
  pd.dims_at five_ping_frame = pd.AsColumns /\
  NoDup (pd.keys five_ping_frame) /\
  exists out, set_multi_index five_ping_frame = Ok out /\
              padded_view five_ping_frame out.
Proof.
  assert (Hnd : NoDup (pd.keys five_ping_frame))
    by (apply (bool_decide_eq_true_1 _); vm_compute; reflexivity).
  split; [reflexivity|]. split; [exact Hnd|].
  apply (set_multi_index_padded five_ping_frame); [reflexivity | exact Hnd].
Defined.

(** The example of the specification: the missing cell (3, 2) reads
    back as the padding marker, and the padded column is the series the
    writer is given. *)
Example set_multi_index_five_pings :
  rbind (set_multi_index five_ping_frame) (fun out => pd.getitem out "power")
    = Ok five_ping_series.
Proof. reflexivity. Qed.

(** A record set with two records for one (timestamp, channel) pair is
    refused. *)
Example set_multi_index_repeated_pair :
  set_multi_index (record_set ["power"]
                     [((1, 1), [pd.NaN]); ((1, 1), [pd.NaN]); ((2, 1), [pd.NaN])])
    = Raise ValueError.
Proof. reflexivity. Qed.

(** C5, amended. For every record set with one record per (timestamp,
    channel) pair, running the builder on its own output, with the
    index levels turned back into columns ([reset_index]), returns that
    output again. *)
Theorem set_multi_index_idempotent (df : pd.DataFrame) :
  pd.dims_at df = pd.AsColumns ->
  NoDup (pd.keys df) ->
  exists out,
    set_multi_index df = Ok out /\
    set_multi_index (pd.reset_index out) = Ok out.
Proof.
  intros Hcols Hnd.
  destruct (set_multi_index_run df Hcols Hnd)
    as (out & Hrun & Hdims & _ & Hkeys & _).
  exists out. split; [exact Hrun|].
  set (product := pd.from_product (pd.unique (pd.timestamps df))
                                  (pd.unique (pd.channels df))) in *.
  assert (Hsame :
    pd.from_product (pd.unique (map fst product)) (pd.unique (map snd product))
    = product).
  { subst product. destruct (pd.rows df) as [|[[t c] v] rs] eqn:Hrs.
    - unfold pd.timestamps, pd.channels, pd.keys. rewrite Hrs. reflexivity.
    - rewrite unique_fst_product, unique_snd_product; try apply unique_NoDup.
      + reflexivity.
      + unfold pd.timestamps, pd.keys. rewrite Hrs. apply unique_cons_not_nil.
      + unfold pd.channels, pd.keys. rewrite Hrs. apply unique_cons_not_nil. }
  destruct out as [d cs rs]. cbn [pd.dims_at] in Hdims. subst d.
  assert (Hkeys' : map fst rs = product) by exact Hkeys.
  unfold set_multi_index, pd.dim_column, pd.set_index, pd.reset_index,
    pd.reindex, pd.keys.
  cbn [pd.dims_at pd.columns pd.rows rbind fst snd].
  rewrite Hkeys', Hsame.
  rewrite bool_decide_eq_true_2 by reflexivity. reflexivity.
Qed.

Lemma set_multi_index_idempotent_witness :
  pd.dims_at five_ping_frame = pd.AsColumns /\
  NoDup (pd.keys five_ping_frame) /\
  exists out,
    set_multi_index five_ping_frame = Ok out /\
    set_multi_index (pd.reset_index out) = Ok out.
Proof.
  assert (Hnd : NoDup (pd.keys five_ping_frame))
    by (apply (bool_decide_eq_true_1 _); vm_compute; reflexivity).
  split; [reflexivity|]. split; [exact Hnd|].
  apply (set_multi_index_idempotent five_ping_frame); [reflexivity | exact Hnd].
Defined.

(** C5 as stated fails: the output has [timestamp] and [channel] as
    index levels, [df[name]] finds no such column, and the second run
    raises [KeyError]. *)
Lemma set_multi_index_twice : ~ rebuild_is_noop five_ping_frame.
Proof.
  intros (out & Hrun & Hagain). vm_compute in Hrun.
  injection Hrun as <-. vm_compute in Hagain. discriminate.
Qed.

(** ** Store Combine Engine *)

Section combine_properties.
Context {Dataset : Type}.
Context (xr_combine : combine_opt -> list Dataset -> result Dataset).
Context (uninitialized : nat -> nc.complex64).

(** C6, amended. When the object has fewer than 2 raw source files
    ([self.source_file] is a list with fewer than 2 entries),
    [combine_files] returns [False] without raising, prints one
    message, and leaves every file as it was, whatever files it is
    given to combine: nothing is written and nothing is deleted. *)
Theorem combine_files_skipped (self : Convert)
    (src_files : option (list string)) (save_path : pyobj)
    (remove_orig : bool) (w : @World Dataset) (sources : list string) :
  source_file self = Some sources ->
  len sources < 2 ->
  combine_files xr_combine uninitialized self src_files save_path remove_orig w
  = (Ok false,
     {| files := files w;
        stdout := stdout w
                  ++ ["Combination did not occur as there is only 1 source file"] |}).
Proof.
  intros Hsrc Hfew. unfold combine_files, combine_files_with. rewrite Hsrc.
  rewrite (proj2 (Z.ltb_lt _ _) Hfew). reflexivity.
Qed.

(** C10, amended. With the sonar model EK60 or AZFP, at least 2 source
    files, a [save_path] that is [None] or a string and a non-empty
    list of files to combine, [combine_files] raises
    [UnboundLocalError]; it has printed one line and no file has been
    written or deleted. *)
Theorem combine_files_unbound (self : Convert)
    (src_files : option (list string)) (save_path : pyobj)
    (remove_orig : bool) (w : @World Dataset)
    (sources : list string) (f : string) (fs : list string) :
  sonar_model self = Some "EK60" \/ sonar_model self = Some "AZFP" ->
  source_file self = Some sources ->
  2 <= len sources ->
  save_path = PyNone \/ (exists p, save_path = PyStr p) ->
  files_to_combine self src_files = Some (f :: fs) ->
  combine_files xr_combine uninitialized self src_files save_path remove_orig w
  = (Raise UnboundLocalError,
     {| files := files w; stdout := stdout w ++ ["combining files..."] |}).
Proof.
  intros Hmodel Hsrc Hlen Hpath Hfiles.
  unfold combine_files, combine_files_with, _check_param_consistency.
  rewrite Hsrc.
  destruct (len sources <? 2) eqn:Hlt; [apply Z.ltb_lt in Hlt; lia|].
  cbn [negb]. unfold files_to_combine in Hfiles. rewrite Hfiles.
  rewrite bool_decide_eq_false_2
    by (destruct Hmodel as [-> | ->]; discriminate).
  destruct Hpath as [-> | [p ->]].
  - cbv [bind print modify ret raise first].
    destruct (os_path.splitext f) as [fname ext]. reflexivity.
  - cbv [bind print modify ret raise first].
    destruct (os_path.splitext p) as [fname ext].
    destruct (String.eqb ext ""); [|reflexivity].
    destruct (os_path.splitext (os_path.basename f)) as [fname' ext'].
    reflexivity.
Qed.
End combine_properties.

Lemma combine_files_skipped_witness :
  source_file single_convert = Some ["a.raw"] /\
  len ["a.raw"] < 2 /\
  combine_files concat_datasets zeroed single_convert None PyNone true four_stores
  = (Ok false,
     {| files := files four_stores;
        stdout := stdout four_stores
                  ++ ["Combination did not occur as there is only 1 source file"] |}).
Proof.
  split; [reflexivity|]. split; [reflexivity|].
  apply (combine_files_skipped concat_datasets zeroed single_convert None PyNone
           true four_stores ["a.raw"]); reflexivity.
Defined.

(** C6 as stated fails: the number that decides is the number of raw
    files of the object, not the number of stores to combine. With two
    raw files and the one store [a.nc] given to combine, the store is
    copied to [a[combined].nc] and the empty group of continuous-wave
    files raises [IndexError]. *)
Lemma one_store_not_skipped :
  ~ few_stores_skipped concat_datasets zeroed ek80_broadband_only
      (Some ["a.nc"]) PyNone true four_stores.
Proof.
  intros H. unfold few_stores_skipped in H. cbv zeta in H.
  assert (Hrun : fst (combine_files concat_datasets zeroed ek80_broadband_only
                        (Some ["a.nc"]) PyNone true four_stores)
                 = Raise IndexError) by (vm_compute; reflexivity).
  destruct H as [Hskip _]; [reflexivity|].
  rewrite Hrun in Hskip. discriminate.
Qed.

Example one_store_written :
  let r := combine_files concat_datasets zeroed ek80_broadband_only
             (Some ["a.nc"]) PyNone true four_stores in
  fst r = Raise IndexError /\
  is_dir <$> files (snd r) !! "a[combined].nc" = Some false.
Proof. vm_compute. split; reflexivity. Qed.

(** The consistency check of this version is [return True] under a
    list of what is still to be checked: two stores whose [Sonar]
    groups differ are combined, with the [Sonar] group of the first,
    and deleted. *)
Example mismatched_stores_combined :
  let r := combine_files concat_datasets zeroed ek80_convert None PyNone true
             mismatched_stores in
  fst r = Ok true /\
  (groups <$> files (snd r) !! "a[combined].nc") ≫= (.!! "Sonar") = Some [38] /\
  (groups <$> files (snd r) !! "a[combined].nc") ≫= (.!! "Beam")
    = Some [10; 11; 12] /\
  files (snd r) !! "a.nc" = None /\
  files (snd r) !! "b.nc" = None.
Proof. vm_compute. repeat split; reflexivity. Qed.

Lemma combine_files_unbound_witness :
  (sonar_model ek60_convert = Some "EK60" \/
   sonar_model ek60_convert = Some "AZFP") /\
  source_file ek60_convert = Some ["a.raw"; "b.raw"] /\
  2 <= len ["a.raw"; "b.raw"] /\
  (PyNone = PyNone \/ (exists p, PyNone = PyStr p)) /\
  files_to_combine ek60_convert None = Some ["a.nc"; "b.nc"] /\
  combine_files concat_datasets zeroed ek60_convert None PyNone true four_stores
  = (Raise UnboundLocalError,
     {| files := files four_stores;
        stdout := stdout four_stores ++ ["combining files..."] |}).
Proof.
  split; [left; reflexivity|]. split; [reflexivity|].
  split; [vm_compute; discriminate|]. split; [left; reflexivity|].
  split; [reflexivity|].
  apply (combine_files_unbound concat_datasets zeroed ek60_convert None PyNone
           true four_stores ["a.raw"; "b.raw"] "a.nc" ["b.nc"]);
    [left; reflexivity | reflexivity | vm_compute; discriminate
    | left; reflexivity | reflexivity].
Defined.

(** C10 as stated fails for a [save_path] that is neither [None] nor a
    string: line 317 raises [ValueError] before [file_groups] is read. *)
Lemma combine_files_invalid_save_path :
  ~ fails_unbound concat_datasets zeroed ek60_convert None PyOther true four_stores.
Proof. intros [H _]. vm_compute in H. discriminate. Qed.

(** ** Deleting the originals *)

Section deletion.
Context {Dataset : Type}.
Context (xr_combine : combine_opt -> list Dataset -> result Dataset).
Context (uninitialized : nat -> nc.complex64).

Lemma remove_deletable (w : @World Dataset) (path : string) :
  deletable w path = true ->
  _remove path w = (Ok tt, removed [path] w).
Proof.
  unfold deletable, _remove, removed. cbn [fold_left].
  destruct (os_path.splitext path) as [fname ext]. cbn [snd].
  destruct (files w !! path) as [st|] eqn:Hst; [|discriminate].
  intros Hkind. apply Bool.eqb_prop in Hkind.
  destruct (String.eqb ext ".zarr");
    cbv [shutil_rmtree os_remove bind get set_files modify raise];
    rewrite Hst, Hkind; reflexivity.
Qed.

Lemma remove_not_deletable (w : @World Dataset) (path : string) :
  deletable w path = false ->
  exists e, _remove path w = (Raise e, w).
Proof.
  unfold deletable, _remove.
  destruct (os_path.splitext path) as [fname ext]. cbn [snd].
  destruct (files w !! path) as [st|] eqn:Hst.
  - intros Hkind. apply Bool.eqb_false_iff in Hkind.
    destruct (String.eqb ext ".zarr");
      cbv [shutil_rmtree os_remove bind get set_files modify raise];
      rewrite Hst; destruct (is_dir st); try congruence; eexists; reflexivity.
  - intros _.
    destruct (String.eqb ext ".zarr");
      cbv [shutil_rmtree os_remove bind get set_files modify raise];
      rewrite Hst; eexists; reflexivity.
Qed.

Lemma deletable_removed (w : @World Dataset) (p q : string) :
  deletable (removed [p] w) q = if decide (p = q) then false else deletable w q.
Proof.
  unfold deletable, removed. cbn [fold_left files].
  destruct (decide (p = q)) as [-> | Hne].
  - rewrite lookup_delete_eq. reflexivity.
  - rewrite lookup_delete_ne by exact Hne. reflexivity.
Qed.

Lemma removed_cons (p : string) (paths : list string) (w : @World Dataset) :
  removed (p :: paths) w = removed paths (removed [p] w).
Proof. reflexivity. Qed.

Lemma removed_lookup (paths : list string) (w : @World Dataset) (q : string) :
  files (removed paths w) !! q
  = if decide (q ∈ paths) then None else files w !! q.
Proof.
  revert w. induction paths as [|p paths IH]; intros w.
  - cbn. reflexivity.
  - rewrite removed_cons, IH.
    unfold removed at 1. cbn [fold_left files].
    destruct (decide (q ∈ paths)) as [Hin | Hnin].
    + rewrite decide_True by (right; exact Hin). reflexivity.
    + destruct (decide (p = q)) as [-> | Hne].
      * rewrite lookup_delete_eq, decide_True by left. reflexivity.
      * rewrite lookup_delete_ne by exact Hne.
        rewrite decide_False; [reflexivity|].
        intros Hin. apply elem_of_cons in Hin. destruct Hin; congruence.
Qed.

Lemma remove_originals_cons (p : string) (paths : list string) (w : @World Dataset) :
  remove_originals (p :: paths) w
  = match _remove p w with
    | (Ok _, w') => remove_originals paths w'
    | (Raise e, w') => (Raise e, w')
    end.
Proof. reflexivity. Qed.

Lemma removed_nil (w : @World Dataset) : removed [] w = w.
Proof. destruct w. reflexivity. Qed.

Lemma remove_originals_run (w : @World Dataset)
    (deleted : list string) (f : string) (rest : list string) :
  NoDup deleted ->
  Forall (fun p => deletable w p = true) deleted ->
  f ∈ deleted \/ deletable w f = false ->
  remove_originals deleted w = (Ok tt, removed deleted w) /\
  exists e,
    remove_originals (deleted ++ f :: rest) w = (Raise e, removed deleted w).
Proof.
  intros Hnd. revert w. induction Hnd as [|p deleted Hp Hnd IH]; intros w Hall Hf.
  - rewrite removed_nil. split; [reflexivity|].
    destruct Hf as [Hf | Hf]; [inversion Hf|].
    destruct (remove_not_deletable w f Hf) as [e He]. exists e.
    cbn [app]. rewrite remove_originals_cons, He. reflexivity.
  - inversion Hall as [|? ? Hpd Hall']; subst.
    assert (Hall1 : Forall (fun q => deletable (removed [p] w) q = true) deleted).
    { apply Forall_forall. intros q Hq. rewrite deletable_removed.
      rewrite decide_False by (intros ->; contradiction).
      rewrite Forall_forall in Hall'. exact (Hall' q Hq). }
    assert (Hf1 : f ∈ deleted \/ deletable (removed [p] w) f = false).
    { rewrite deletable_removed.
      destruct (decide (p = f)) as [<- | Hne]; [right; reflexivity|].
      destruct Hf as [Hf | Hf]; [|right; exact Hf].
      apply elem_of_cons in Hf. destruct Hf as [-> | Hf]; [congruence|].
      left. exact Hf. }
    destruct (IH (removed [p] w) Hall1 Hf1) as (Hok & [e He]).
    rewrite removed_cons. split.
    + rewrite remove_originals_cons, (remove_deletable w p Hpd). exact Hok.
    + exists e. cbn [app].
      rewrite remove_originals_cons, (remove_deletable w p Hpd). exact He.
Qed.

(** The loop deletes the files one after the other. While every file
    is there (a directory for [.zarr], a plain file otherwise) and is
    listed once, each is deleted; the first file that cannot be deleted
    (it was listed before, it is missing, or it is of the other kind)
    raises, and no file after it is deleted. *)
Lemma remove_originals_until_failure (w : @World Dataset)
    (deleted : list string) (f : string) (rest : list string) :
  NoDup deleted ->
  Forall (fun p => deletable w p = true) deleted ->
  f ∈ deleted \/ deletable w f = false ->
  remove_originals deleted w = (Ok tt, removed deleted w) /\
  (exists e,
     remove_originals (deleted ++ f :: rest) w = (Raise e, removed deleted w)) /\
  (forall q, q ∈ deleted -> files (removed deleted w) !! q = None) /\
  (forall q, q ∉ deleted -> files (removed deleted w) !! q = files w !! q).
Proof.
  intros Hnd Hall Hf.
  destruct (remove_originals_run w deleted f rest Hnd Hall Hf) as [Hok Hfail].
  split; [exact Hok|]. split; [exact Hfail|].
  split; intros q Hq; rewrite removed_lookup.
  - rewrite decide_True by exact Hq. reflexivity.
  - rewrite decide_False by exact Hq. reflexivity.
Qed.

(** Deletion is the last step of [combine_files]: with [remove_orig] it
    does what it does without, and then, if that returned [True],
    deletes the files. *)
Lemma combine_files_then_remove (check : Convert -> bool) (self : Convert)
    (src_files : option (list string)) (save_path : pyobj)
    (w : @World Dataset) (paths : list string) :
  files_to_combine self src_files = Some paths ->
  combine_files_with xr_combine uninitialized check self src_files save_path true w
  = match combine_files_with xr_combine uninitialized check self src_files
            save_path false w with
    | (Ok true, w') =>
        match remove_originals (paths ++ extra_files self) w' with
        | (Ok _, w'') => (Ok true, w'')
        | (Raise e, w'') => (Raise e, w'')
        end
    | other => other
    end.
Proof.
  intros Hpaths. unfold combine_files_with, files_to_combine in *.
  destruct (source_file self) as [sources|]; [|reflexivity].
  destruct (len sources <? 2); [reflexivity|].
  destruct (check self); [|reflexivity]. cbn [negb].
  rewrite Hpaths.
  cbv [bind print modify ret raise first].
  repeat first
    [ reflexivity
    | match goal with
      | |- context [match ?x with _ => _ end] => destruct x
      end ].
Qed.

(** When every file is listed once and can be deleted, a combine that
    succeeds deletes them all and returns [True]. *)
Lemma combine_files_deletes_all (check : Convert -> bool) (self : Convert)
    (src_files : option (list string)) (save_path : pyobj)
    (w combined : @World Dataset) (paths : list string) :
  files_to_combine self src_files = Some paths ->
  combine_files_with xr_combine uninitialized check self src_files save_path
    false w = (Ok true, combined) ->
  NoDup (paths ++ extra_files self) ->
  Forall (fun p => deletable combined p = true) (paths ++ extra_files self) ->
  combine_files_with xr_combine uninitialized check self src_files save_path
    true w = (Ok true, removed (paths ++ extra_files self) combined).
Proof.
  intros Hpaths Hrun Hnd Hall.
  rewrite (combine_files_then_remove check self src_files save_path w paths Hpaths).
  rewrite Hrun.
  destruct (paths ++ extra_files self) as [|p ps] eqn:Hlist.
  - rewrite removed_nil. reflexivity.
  - destruct (remove_originals_until_failure combined (p :: ps) p [] Hnd Hall)
      as [-> _]; [left; left | reflexivity].
Qed.

(** C9, amended. After a combine that succeeded, the files
    [src_files + self.extra_files] are deleted one after the other, in
    this order. The first file that cannot be deleted (it was listed
    before, it is missing, or it is of the other kind) makes
    [combine_files] raise: the files listed before it are gone, the
    files after it are not attempted and stay as they were. *)
Theorem combine_files_deletion_stops (check : Convert -> bool) (self : Convert)
    (src_files : option (list string)) (save_path : pyobj)
    (w combined : @World Dataset)
    (paths deleted : list string) (f : string) (rest : list string) :
  files_to_combine self src_files = Some paths ->
  combine_files_with xr_combine uninitialized check self src_files save_path
    false w = (Ok true, combined) ->
  paths ++ extra_files self = deleted ++ f :: rest ->
  NoDup deleted ->
  Forall (fun p => deletable combined p = true) deleted ->
  f ∈ deleted \/ deletable combined f = false ->
  (exists e,
     combine_files_with xr_combine uninitialized check self src_files save_path
       true w = (Raise e, removed deleted combined)) /\
  (forall q, q ∈ deleted -> files (removed deleted combined) !! q = None) /\
  (forall q, q ∉ deleted ->
             files (removed deleted combined) !! q = files combined !! q).
Proof.
  intros Hpaths Hrun Hsplit Hnd Hall Hf.
  destruct (remove_originals_until_failure combined deleted f rest Hnd Hall Hf)
    as (_ & [e He] & Hgone & Hkept).
  split; [|split; assumption].
  exists e.
  rewrite (combine_files_then_remove check self src_files save_path w paths Hpaths).
  rewrite Hrun, Hsplit, He. reflexivity.
Qed.
End deletion.

Lemma combine_files_deletion_stops_witness :
  let combined :=
    snd (combine_files concat_datasets zeroed ek80_convert listed_twice PyNone
           false four_stores) in
  files_to_combine ek80_convert listed_twice = Some ["a.nc"; "a_cw.nc"; "b.nc"] /\
  combine_files_with concat_datasets zeroed _check_param_consistency
    ek80_convert listed_twice PyNone false four_stores = (Ok true, combined) /\
  ["a.nc"; "a_cw.nc"; "b.nc"] ++ extra_files ek80_convert
    = ["a.nc"; "a_cw.nc"; "b.nc"] ++ "a_cw.nc" :: ["b_cw.nc"] /\
  NoDup ["a.nc"; "a_cw.nc"; "b.nc"] /\
  Forall (fun p => deletable combined p = true) ["a.nc"; "a_cw.nc"; "b.nc"] /\
  ("a_cw.nc" ∈ ["a.nc"; "a_cw.nc"; "b.nc"] \/
   deletable combined "a_cw.nc" = false) /\
  (exists e,
     combine_files_with concat_datasets zeroed _check_param_consistency
       ek80_convert listed_twice PyNone true four_stores
     = (Raise e, removed ["a.nc"; "a_cw.nc"; "b.nc"] combined)) /\
  (forall q, q ∈ ["a.nc"; "a_cw.nc"; "b.nc"] ->
             files (removed ["a.nc"; "a_cw.nc"; "b.nc"] combined) !! q = None) /\
  (forall q, q ∉ ["a.nc"; "a_cw.nc"; "b.nc"] ->
             files (removed ["a.nc"; "a_cw.nc"; "b.nc"] combined) !! q
             = files combined !! q).
Proof.
  intros combined.
  assert (Hpaths : files_to_combine ek80_convert listed_twice
                   = Some ["a.nc"; "a_cw.nc"; "b.nc"]) by reflexivity.
  assert (Hrun : combine_files_with concat_datasets zeroed
                   _check_param_consistency ek80_convert listed_twice PyNone
                   false four_stores = (Ok true, combined))
    by (vm_compute; reflexivity).
  assert (Hsplit : ["a.nc"; "a_cw.nc"; "b.nc"] ++ extra_files ek80_convert
                   = ["a.nc"; "a_cw.nc"; "b.nc"] ++ "a_cw.nc" :: ["b_cw.nc"])
    by reflexivity.
  assert (Hnd : NoDup ["a.nc"; "a_cw.nc"; "b.nc"])
    by (apply (bool_decide_eq_true_1 _); vm_compute; reflexivity).
  assert (Hall : Forall (fun p => deletable combined p = true)
                   ["a.nc"; "a_cw.nc"; "b.nc"])
    by (constructor; [vm_compute; reflexivity|];
        constructor; [vm_compute; reflexivity|];
        constructor; [vm_compute; reflexivity|]; constructor).
  assert (Hf : "a_cw.nc" ∈ ["a.nc"; "a_cw.nc"; "b.nc"] \/
               deletable combined "a_cw.nc" = false)
    by (left; apply (bool_decide_eq_true_1 _); vm_compute; reflexivity).
  split; [exact Hpaths|]. split; [exact Hrun|]. split; [exact Hsplit|].
  split; [exact Hnd|]. split; [exact Hall|]. split; [exact Hf|].
  exact (combine_files_deletion_stops concat_datasets zeroed
           _check_param_consistency ek80_convert listed_twice PyNone
           four_stores combined ["a.nc"; "a_cw.nc"; "b.nc"]
           ["a.nc"; "a_cw.nc"; "b.nc"] "a_cw.nc" ["b_cw.nc"]
           Hpaths Hrun Hsplit Hnd Hall Hf).
Defined.

(** The combine of the four example stores, every file listed once: two
    combined files are written, the four originals are deleted, and it
    returns [True]. *)
Example combine_four_stores :
  let r := combine_files concat_datasets zeroed ek80_convert None PyNone true
             four_stores in
  fst r = Ok true /\
  size (files (snd r)) = 2%nat /\
  (groups <$> files (snd r) !! "a[combined].nc") ≫= (.!! "Beam")
    = Some [10; 11; 12] /\
  (groups <$> files (snd r) !! "a[combined]_cw.nc") ≫= (.!! "Beam")
    = Some [20; 30].
Proof. vm_compute. repeat split; reflexivity. Qed.

(** C9 as stated fails: with [a_cw.nc] listed among the files to
    combine and among the extra files, its second deletion raises
    [FileNotFoundError], and [b_cw.nc], which comes after it and could
    be deleted, is still there. *)
Lemma deletion_stops_at_first_failure :
  ~ best_effort_deletion concat_datasets zeroed ek80_convert listed_twice PyNone
      four_stores.
Proof.
  intros H. unfold best_effort_deletion in H. cbv zeta in H.
  assert (Hdone : fst (combine_files concat_datasets zeroed ek80_convert
                         listed_twice PyNone false four_stores) = Ok true)
    by (vm_compute; reflexivity).
  specialize (H Hdone "b_cw.nc").
  assert (Hin : "b_cw.nc" ∈ default [] (files_to_combine ek80_convert listed_twice)
                            ++ extra_files ek80_convert)
    by (apply (bool_decide_eq_true_1 _); vm_compute; reflexivity).
  assert (Hdel : deletable
                   (snd (combine_files concat_datasets zeroed ek80_convert
                           listed_twice PyNone false four_stores)) "b_cw.nc"
                 = true)
    by (vm_compute; reflexivity).
  specialize (H Hin Hdel).
  assert (Hstill :
    is_dir <$> files (snd (combine_files concat_datasets zeroed ek80_convert
                             listed_twice PyNone true four_stores)) !! "b_cw.nc"
    = Some false) by (vm_compute; reflexivity).
  rewrite H in Hstill. discriminate.
Qed.

Example deletion_raises :
  fst (combine_files concat_datasets zeroed ek80_convert listed_twice PyNone true
         four_stores) = Raise FileNotFoundError.
Proof. vm_compute. reflexivity. Qed.

(** ** The vendor filter coefficients *)

Section vendor.
Context (uninitialized : nat -> nc.complex64).

Lemma copy_dimensions_keep (dims : list (string * nc.Dimension)) (vdr : nc.Group) :
  nc.ncattrs (fold_left copy_dimension dims vdr) = nc.ncattrs vdr /\
  nc.variables (fold_left copy_dimension dims vdr) = nc.variables vdr.
Proof.
  revert vdr. induction dims as [|[k v] dims IH]; intros vdr; [split; reflexivity|].
  cbn [fold_left]. destruct (IH (copy_dimension vdr (k, v))) as [-> ->].
  split; reflexivity.
Qed.

Lemma copy_variables_spec (vars : list (string * nc.Var)) (vdr : nc.Group) :
  nc.ncattrs (fold_left (copy_variable uninitialized) vars vdr) = nc.ncattrs vdr /\
  nc.variables (fold_left (copy_variable uninitialized) vars vdr)
  = nc.variables vdr
    ++ map (fun kv =>
              (fst kv,
               {| nc.dimensions_of := nc.dimensions_of (snd kv);
                  nc.values := np_empty uninitialized
                                 (length (nc.values (snd kv))) |})) vars.
Proof.
  revert vdr. induction vars as [|[k v] vars IH]; intros vdr.
  - cbn. rewrite app_nil_r. split; reflexivity.
  - cbn [fold_left map].
    destruct (IH (copy_variable uninitialized vdr (k, v))) as [-> ->].
    split; [reflexivity|]. cbn [copy_variable nc.createVariable nc.variables].
    rewrite <- app_assoc. reflexivity.
Qed.

(** [copy_vendor] carries the attributes and the names and dimensions of
    the variables over; the values of every variable are what
    [np.empty] returned, whatever the source holds. *)
Lemma copy_vendor_group_spec (ds_vend : nc.Group) :
  nc.ncattrs (copy_vendor_group uninitialized ds_vend) = nc.ncattrs ds_vend /\
  nc.variables (copy_vendor_group uninitialized ds_vend)
  = map (fun kv =>
           (fst kv,
            {| nc.dimensions_of := nc.dimensions_of (snd kv);
               nc.values := np_empty uninitialized
                              (length (nc.values (snd kv))) |}))
        (nc.variables ds_vend).
Proof.
  unfold copy_vendor_group.
  destruct (copy_variables_spec (nc.variables ds_vend)
              (fold_left copy_dimension (nc.dimensions ds_vend)
                 (nc.setncatts (nc.ncattrs ds_vend)
                    (nc.createCompoundType "complex64" nc.empty_group))))
    as [-> ->].
  destruct (copy_dimensions_keep (nc.dimensions ds_vend)
              (nc.setncatts (nc.ncattrs ds_vend)
                 (nc.createCompoundType "complex64" nc.empty_group)))
    as [-> ->].
  split; reflexivity.
Qed.

(** C7 at the failing input: the first EK80 store holds the filter
    coefficient 1 + 2j; after the combine the [Vendor] group of the
    combined file has the attributes, the dimension and the variable of
    the source, and as its value the uninitialised element [np.empty]
    returned, where the claim has the value of the source. *)
Theorem filter_coefficients_not_copied :
  let r := combine_files concat_datasets uninitialized ek80_convert None PyNone
             false four_stores in
  fst r = Ok true /\
  (nc_groups <$> files four_stores !! "a.nc") ≫= (.!! "Vendor")
    = Some (vendor_group [(1%float, 2%float)]) /\
  (nc_groups <$> files (snd r) !! "a[combined].nc") ≫= (.!! "Vendor")
    = Some (vendor_group [uninitialized 0%nat]).
Proof. vm_compute. repeat split; reflexivity. Qed.
End vendor.

(** With memory that holds zeros the combined file has the coefficient
    0 + 0j, which is not the 1 + 2j of the source. *)
Example filter_coefficients_zeroed :
  (nc_groups <$> files (snd (combine_files concat_datasets zeroed ek80_convert
                               None PyNone false four_stores))
                 !! "a[combined].nc") ≫= (.!! "Vendor")
  = Some (vendor_group [(0%float, 0%float)]) /\
  (0%float, 0%float) <> (1%float, 2%float).
Proof.
  split; [vm_compute; reflexivity|].
  intros H. apply (f_equal (fun c => PrimFloat.eqb (fst c) 0)) in H.
  vm_compute in H. discriminate.
Qed.

(** * Further properties *)

(** ** The writer on a padded series *)

Lemma list_prod_app {A B} (l1 l2 : list A) (k : list B) :
  list_prod (l1 ++ l2) k = list_prod l1 k ++ list_prod l2 k.
Proof.
  induction l1 as [|x l1 IH]; [reflexivity|].
  cbn [app list_prod]. rewrite IH. apply app_assoc.
Qed.

Lemma map_eq_app_split {A B} (f : A -> B) (l : list A) (k1 k2 : list B) :
  map f l = k1 ++ k2 ->
  exists l1 l2, l = l1 ++ l2 /\ map f l1 = k1 /\ map f l2 = k2.
Proof.
  revert l. induction k1 as [|b k1 IH]; intros l Hl.
  - exists [], l. repeat split. exact Hl.
  - destruct l as [|a l]; [discriminate|]. cbn in Hl. injection Hl as Hb Hl.
    destruct (IH l Hl) as (l1 & l2 & -> & H1 & H2).
    exists (a :: l1), l2. cbn. rewrite Hb, H1. repeat split. exact H2.
Qed.

Section blocks.
Context (chs : list Z).

Lemma chunk_rows_all (chunk : list Z) (items : list ((Z * Z) * pd.cell)) :
  Forall (fun it => fst (fst it) ∈ chunk) items -> chunk_rows chunk items = items.
Proof.
  induction 1 as [|it items Hit _ IH]; [reflexivity|].
  unfold chunk_rows in *. rewrite filter_cons_True by exact Hit. f_equal. exact IH.
Qed.

Lemma chunk_rows_none (chunk : list Z) (items : list ((Z * Z) * pd.cell)) :
  Forall (fun it => fst (fst it) ∉ chunk) items -> chunk_rows chunk items = [].
Proof.
  induction 1 as [|it items Hit _ IH]; [reflexivity|].
  unfold chunk_rows in *. rewrite filter_cons_False by exact Hit. exact IH.
Qed.

Lemma product_rows_timestamps (ts : list Z) (items : list ((Z * Z) * pd.cell)) :
  map fst items = list_prod ts chs ->
  Forall (fun it => fst (fst it) ∈ ts) items.
Proof.
  intros Hkeys. apply Forall_forall. intros it Hit.
  assert (Hin : fst it ∈ map fst items) by (apply list_elem_of_fmap; eauto).
  rewrite Hkeys in Hin. apply list_elem_of_In in Hin.
  destruct (fst it) as [t c]. apply in_prod_iff in Hin.
  apply list_elem_of_In. tauto.
Qed.

(** The chunks of timestamps cut the rows into consecutive blocks. *)
Lemma chunk_rows_partition (chunks : list (list Z)) :
  forall items : list ((Z * Z) * pd.cell),
    map fst items = list_prod (concat chunks) chs ->
    NoDup (concat chunks) ->
    concat (map (fun chunk => chunk_rows chunk items) chunks) = items /\
    Forall (fun chunk => len (chunk_rows chunk items) = len chunk * len chs) chunks.
Proof.
  induction chunks as [|chunk chunks IH]; intros items Hkeys Hnd.
  - cbn in Hkeys. destruct items; [|discriminate]. split; constructor.
  - cbn [concat] in Hkeys, Hnd. rewrite list_prod_app in Hkeys.
    destruct (map_eq_app_split fst items _ _ Hkeys) as (i1 & i2 & -> & H1 & H2).
    apply NoDup_app in Hnd. destruct Hnd as (Hnd1 & Hdisj & Hnd2).
    pose proof (product_rows_timestamps chunk i1 H1) as Hin1.
    pose proof (product_rows_timestamps (concat chunks) i2 H2) as Hin2.
    assert (Hhere : chunk_rows chunk (i1 ++ i2) = i1).
    { unfold chunk_rows. rewrite filter_app.
      fold (chunk_rows chunk i1). fold (chunk_rows chunk i2).
      rewrite chunk_rows_all by exact Hin1.
      rewrite chunk_rows_none; [apply app_nil_r|].
      eapply Forall_impl; [exact Hin2|]. intros it Hit Hc. exact (Hdisj _ Hc Hit). }
    assert (Hlater : map (fun c => chunk_rows c (i1 ++ i2)) chunks
                     = map (fun c => chunk_rows c i2) chunks).
    { apply map_ext_in. intros c Hc. unfold chunk_rows. rewrite filter_app.
      fold (chunk_rows c i1). fold (chunk_rows c i2).
      rewrite chunk_rows_none; [reflexivity|].
      eapply Forall_impl; [exact Hin1|]. intros it Hit Hitc.
      apply (Hdisj _ Hit). apply list_elem_of_In, in_concat.
      exists c. split; [exact Hc | apply list_elem_of_In; exact Hitc]. }
    destruct (IH i2 H2 Hnd2) as [Hcat Hlens].
    cbn [map concat]. rewrite Hhere, Hlater, Hcat. split; [reflexivity|].
    constructor.
    + rewrite Hhere. unfold len.
      rewrite <- (length_map fst i1), H1, length_prod. lia.
    + apply Forall_forall. intros c Hc.
      assert (Heq : chunk_rows c (i1 ++ i2) = chunk_rows c i2).
      { assert (Hc' : In c chunks) by (apply list_elem_of_In; exact Hc).
        unfold chunk_rows. rewrite filter_app.
        fold (chunk_rows c i1). fold (chunk_rows c i2).
        rewrite chunk_rows_none; [reflexivity|].
        eapply Forall_impl; [exact Hin1|]. intros it Hit Hitc.
        apply (Hdisj _ Hit). apply list_elem_of_In, in_concat.
        exists c. split; [exact Hc' | apply list_elem_of_In; exact Hitc]. }
      rewrite Heq. rewrite Forall_forall in Hlens. exact (Hlens c Hc).
Qed.
End blocks.

Lemma concat_map_concat {A B} (g : A -> list B) (ls : list (list A)) :
  concat (map g (concat ls)) = concat (map (fun l => concat (map g l)) ls).
Proof.
  induction ls as [|l ls IH]; [reflexivity|].
  cbn [concat map]. rewrite map_app, concat_app, IH. reflexivity.
Qed.

Lemma combine_map_r {A B} (f : A -> B) (l : list A) :
  combine l (map f l) = map (fun x => (x, f x)) l.
Proof. induction l as [|x l IH]; [reflexivity|]. cbn. rewrite IH. reflexivity. Qed.

Section writing.
Context (s : pd.Series) (num_chan size_elem : Z).

(** Appending the blocks of [rest] to an array extends its first
    dimension and its data. *)
Lemma append_blocks (chunks_attr : list Z) (rest : list (list Z)) :
  Forall (fun chunk =>
            get_np_chunk (pd.loc s chunk) (len chunk) num_chan size_elem
              (np.full_nan size_elem) = Ok (chunk_block s num_chan size_elem chunk)) rest ->
  forall (t : Z) (data : list float) (grp : zarr.Group),
    for_each (map (fun chunk => (chunk, len chunk)) rest)
      (fun '(chunk, len_i) =>
         let df_chunk := pd.loc s chunk in
         do np_chunk <- lift (get_np_chunk df_chunk len_i num_chan size_elem
                                (np.full_nan size_elem));
         zarr.append (pd.name s) np_chunk)
      (<[pd.name s := {| zarr.shape := [t; num_chan; size_elem];
                         zarr.chunks := chunks_attr;
                         zarr.data := data |}]> grp)
    = (Ok tt,
       <[pd.name s :=
           {| zarr.shape := [t + len (concat rest); num_chan; size_elem];
              zarr.chunks := chunks_attr;
              zarr.data := data ++ concat (map (fun chunk => np.data (chunk_block s num_chan size_elem chunk))
                                               rest) |}]> grp).
Proof.
  induction 1 as [|chunk rest Hchunk _ IH]; intros t data grp.
  - cbn. rewrite len_nil, Z.add_0_r, app_nil_r. reflexivity.
  - cbn [map for_each]. unfold bind at 1. unfold bind at 1. unfold lift at 1.
    rewrite Hchunk. unfold zarr.append at 1.
    rewrite lookup_insert_eq.
    cbn [zarr.shape np.shape chunk_block zarr.chunks zarr.data np.data].
    rewrite bool_decide_eq_true_2 by reflexivity.
    rewrite insert_insert_eq.
    rewrite IH. cbn [concat map]. rewrite len_app, <- app_assoc.
    do 4 f_equal. lia.
Qed.
End writing.

Lemma unique_times_of_product (s : pd.Series) (ts chs : list Z) :
  indexed_by_product s ts chs -> chs <> [] ->
  pd.unique (pd.level0 s) = ts.
Proof.
  intros (Hkeys & Hts & _) Hne. unfold pd.level0.
  rewrite <- (map_map fst fst), Hkeys. apply unique_fst_product; assumption.
Qed.

Lemma unique_channels_of_product (s : pd.Series) (ts chs : list Z) :
  indexed_by_product s ts chs -> ts <> [] ->
  pd.unique_channels s = chs.
Proof.
  intros (Hkeys & _ & Hchs) Hne. unfold pd.unique_channels.
  rewrite <- (map_map fst snd), Hkeys. apply unique_snd_product; assumption.
Qed.

Lemma len_pos_of_not_nil {A} (l : list A) : l <> [] -> 1 <= len l.
Proof. destruct l; [congruence|]. intros _. rewrite len_cons. pose proof (len_nonneg l). lia. Qed.

Lemma not_nil_of_len_pos {A} (l : list A) : 1 <= len l -> l <> [].
Proof. intros H ->. rewrite len_nil in H. lia. Qed.

(** On a padded series whose arrays all have the reference length, every
    chunk of timestamps that is not empty builds its dense block. *)
Lemma chunk_blocks_built (s : pd.Series) (ts chs : list Z) (size_elem : Z)
    (chunks : list (list Z)) :
  indexed_by_product s ts chs ->
  chs <> [] ->
  Forall (fun chunk => 1 <= len chunk) chunks ->
  uniform_samples size_elem s ->
  0 <= size_elem ->
  concat chunks = ts ->
  Forall (fun chunk =>
            get_np_chunk (pd.loc s chunk) (len chunk) (len chs) size_elem
              (np.full_nan size_elem)
            = Ok (chunk_block s (len chs) size_elem chunk)) chunks /\
  concat (map (fun chunk => np.data (chunk_block s (len chs) size_elem chunk))
              chunks)
  = dense_values size_elem s.
Proof.
  intros (Hkeys & Hts & Hchs) Hchs_ne Hfilled Huni Hsize Hcat. subst ts.
  destruct (chunk_rows_partition chs chunks (pd.items s) Hkeys Hts) as [Hrows Hlens].
  pose proof (len_pos_of_not_nil chs Hchs_ne) as Hc.
  split.
  - apply Forall_forall. intros chunk Hchunk.
    rewrite Forall_forall in Hlens. specialize (Hlens chunk Hchunk).
    rewrite Forall_forall in Hfilled. specialize (Hfilled chunk Hchunk).
    assert (Hlen : len (pd.loc s chunk) = len chunk * len chs).
    { unfold pd.loc. fold (chunk_rows chunk (pd.items s)).
      unfold len in *. rewrite length_map. exact Hlens. }
    unfold chunk_block. apply get_np_chunk_full.
    + exact Hsize.
    + apply not_nil_of_len_pos. rewrite Hlen. nia.
    + exact Hlen.
    + unfold pd.loc. apply Forall_map.
      apply Forall_forall. intros it Hit.
      apply list_elem_of_filter in Hit. destruct Hit as [_ Hit].
      unfold uniform_samples in Huni. rewrite Forall_forall in Huni.
      exact (Huni it Hit).
  - unfold dense_values. rewrite <- Hrows at 1.
    rewrite (concat_map_concat (fun it => padded size_elem (snd it))).
    rewrite map_map. f_equal. apply map_ext. intros chunk.
    cbn [chunk_block np.data]. unfold pd.loc, chunk_rows.
    rewrite map_map. reflexivity.
Qed.

Lemma chunk_sizes_run (s : pd.Series) (num_mb max_dim : Z) :
  max_sample_length s = Some max_dim ->
  1 <= max_dim ->
  1 <= channel_count s ->
  chunk_sizes s num_mb
    = Ok (max_dim, channel_count s,
          (num_mb * (1000000 / (max_dim * 8))) / channel_count s).
Proof.
  unfold max_sample_length, channel_count, chunk_sizes. intros -> Hdim Hchan.
  destruct (max_dim * 8 =? 0) eqn:H0; [apply Z.eqb_eq in H0; lia|].
  destruct (len (pd.unique_channels s) =? 0) eqn:H1;
    [apply Z.eqb_eq in H1; lia|].
  reflexivity.
Qed.

(** [write_chunks] on a padded series whose arrays all have the
    reference length, with a chunk limit of at least 1: it creates the
    array and appends every chunk, unless the group already has an
    array of this name. *)
Lemma write_chunks_run (s : pd.Series) (ts chs : list Z)
    (size_elem max_time_chunk : Z) (grp : zarr.Group) :
  indexed_by_product s ts chs ->
  ts <> [] -> chs <> [] ->
  uniform_samples size_elem s ->
  0 <= size_elem ->
  1 <= max_time_chunk ->
  exists max_chunk_len,
    1 <= max_chunk_len <= max_time_chunk /\
    write_chunks s (len chs) size_elem (np.full_nan size_elem) max_time_chunk grp
    = match grp !! pd.name s with
      | Some _ => (Raise ContainsArrayError, grp)
      | None =>
          (Ok tt,
           <[pd.name s := written_array s ts chs size_elem max_chunk_len]> grp)
      end.
Proof.
  intros Hidx Hts Hchs Huni Hsize Hlimit.
  unfold write_chunks, time_chunks.
  rewrite (unique_times_of_product s ts chs Hidx Hchs).
  destruct (chunked_even_spec ts max_time_chunk Hlimit (len_pos_of_not_nil ts Hts))
    as (chunks & full_size & Hrun & Hcat & Hall & _).
  rewrite Hrun. unfold bind at 1. unfold lift at 1.
  assert (Hbounds : Forall (fun x => 1 <= x <= max_time_chunk) (map len chunks)).
  { apply Forall_map. eapply Forall_impl; [exact Hall|]. intros c Hc. cbn in Hc |- *. lia. }
  destruct chunks as [|chunk0 rest]; [cbn in Hcat; congruence|].
  destruct (py_max_bounds 1 max_time_chunk (map len (chunk0 :: rest))
              ltac:(discriminate) Hbounds) as (max_chunk_len & Hmax & Hmaxb).
  exists max_chunk_len. split; [exact Hmaxb|].
  rewrite Hmax. unfold bind at 1. unfold lift at 1.
  assert (Hfilled : Forall (fun chunk => 1 <= len chunk) (chunk0 :: rest)).
  { eapply Forall_impl; [exact Hall|]. intros c Hc. cbn in Hc |- *. lia. }
  destruct (chunk_blocks_built s ts chs size_elem (chunk0 :: rest)
              Hidx Hchs Hfilled Huni Hsize Hcat) as [Hblocks Hdata].
  apply Forall_cons in Hblocks. destruct Hblocks as [Hblock0 Hrest].
  cbn [map]. unfold bind at 1. unfold lift at 1. rewrite Hblock0.
  unfold bind at 1. unfold zarr.array at 1.
  destruct (grp !! pd.name s) as [existing|] eqn:Hname; [reflexivity|].
  cbn [chunk_block np.shape np.data].
  rewrite combine_map_r.
  rewrite (append_blocks s (len chs) size_elem _ rest Hrest).
  unfold written_array. do 3 f_equal.
  - rewrite <- Hcat. cbn [concat]. rewrite len_app. reflexivity.
  - rewrite <- Hdata. reflexivity.
Qed.

(** [array_col_to_zarr] on a padded series whose arrays all have the
    reference length, with a budget that allows at least one ping per
    chunk. *)
Lemma array_col_to_zarr_run (s : pd.Series) (ts chs : list Z)
    (num_mb max_dim : Z) (array_grp : zarr.Group) :
  indexed_by_product s ts chs ->
  ts <> [] -> chs <> [] ->
  max_sample_length s = Some max_dim ->
  1 <= max_dim ->
  uniform_samples max_dim s ->
  len chs <= num_mb * (1000000 / (max_dim * 8)) ->
  exists max_chunk_len,
    1 <= max_chunk_len <= (num_mb * (1000000 / (max_dim * 8))) / len chs /\
    array_col_to_zarr s num_mb array_grp
    = match array_grp !! pd.name s with
      | Some _ => (Raise ContainsArrayError, array_grp)
      | None =>
          (Ok tt,
           <[pd.name s := written_array s ts chs max_dim max_chunk_len]> array_grp)
      end.
Proof.
  intros Hidx Hts Hchs Hmax Hdim Huni Hbudget.
  pose proof (len_pos_of_not_nil chs Hchs) as Hc.
  assert (Hcount : channel_count s = len chs).
  { unfold channel_count.
    rewrite (unique_channels_of_product s ts chs Hidx Hts). reflexivity. }
  assert (Hlimit : 1 <= (num_mb * (1000000 / (max_dim * 8))) / len chs).
  { apply Z.div_le_lower_bound; lia. }
  destruct (write_chunks_run s ts chs max_dim
              ((num_mb * (1000000 / (max_dim * 8))) / len chs) array_grp
              Hidx Hts Hchs Huni ltac:(lia) Hlimit)
    as (max_chunk_len & Hb & Hrun).
  exists max_chunk_len. split; [exact Hb|].
  unfold array_col_to_zarr.
  rewrite (chunk_sizes_run s num_mb max_dim Hmax Hdim ltac:(lia)), Hcount.
  unfold bind at 1. unfold lift at 1.
  exact Hrun.
Qed.

(** X1. On a series indexed by the product of its timestamps and
    channels (what [set_multi_index] returns), whose sample arrays all
    have the reference length, with a budget that allows at least one
    ping per chunk and a name the group does not have yet,
    [array_col_to_zarr] succeeds and leaves one array of shape
    (timestamps, channels, reference length) that holds every cell in
    index order, an absent cell as a row of NaN; its chunk attribute is
    the largest chunk of timestamps, which the budget bounds. *)
Theorem array_col_to_zarr_writes (s : pd.Series) (ts chs : list Z)
    (num_mb max_dim : Z) (array_grp : zarr.Group) :
  indexed_by_product s ts chs ->
  ts <> [] -> chs <> [] ->
  max_sample_length s = Some max_dim ->
  1 <= max_dim ->
  uniform_samples max_dim s ->
  len chs <= num_mb * (1000000 / (max_dim * 8)) ->
  array_grp !! pd.name s = None ->
  exists max_chunk_len,
    1 <= max_chunk_len <= (num_mb * (1000000 / (max_dim * 8))) / len chs /\
    array_col_to_zarr s num_mb array_grp
    = (Ok tt,
       <[pd.name s := written_array s ts chs max_dim max_chunk_len]> array_grp).
Proof.
  intros Hidx Hts Hchs Hmax Hdim Huni Hbudget Hfresh.
  destruct (array_col_to_zarr_run s ts chs num_mb max_dim array_grp
              Hidx Hts Hchs Hmax Hdim Huni Hbudget) as (max_chunk_len & Hb & Hrun).
  exists max_chunk_len. split; [exact Hb|].
  rewrite Hrun, Hfresh. reflexivity.
Qed.

Lemma array_col_to_zarr_writes_witness :
  indexed_by_product five_ping_series [1; 2; 3; 4; 5] [1; 2] /\
  [1; 2; 3; 4; 5] <> [] /\ [1; 2] <> [] /\
  max_sample_length five_ping_series = Some 1 /\
  1 <= 1 /\
  uniform_samples 1 five_ping_series /\
  len [1; 2] <= 1 * (1000000 / (1 * 8)) /\
  (∅ : zarr.Group) !! pd.name five_ping_series = None /\
  exists max_chunk_len,
    1 <= max_chunk_len <= (1 * (1000000 / (1 * 8))) / len [1; 2] /\
    array_col_to_zarr five_ping_series 1 ∅
    = (Ok tt,
       <[pd.name five_ping_series :=
           written_array five_ping_series [1; 2; 3; 4; 5] [1; 2] 1 max_chunk_len]> ∅).
Proof.
  assert (Hidx : indexed_by_product five_ping_series [1; 2; 3; 4; 5] [1; 2]).
  { split; [reflexivity|].
    split; apply (bool_decide_eq_true_1 _); vm_compute; reflexivity. }
  assert (Huni : uniform_samples 1 five_ping_series)
    by (unfold uniform_samples; repeat (constructor; [reflexivity|]); constructor).
  split; [exact Hidx|]. split; [discriminate|]. split; [discriminate|].
  split; [reflexivity|]. split; [lia|]. split; [exact Huni|].
  split; [vm_compute; discriminate|]. split; [reflexivity|].
  apply (array_col_to_zarr_writes five_ping_series [1; 2; 3; 4; 5] [1; 2] 1 1 ∅);
    [exact Hidx | discriminate | discriminate | reflexivity | lia | exact Huni
    | vm_compute; discriminate | reflexivity].
Defined.

(** X2. Under the same conditions, when the group already has an array
    of the series' name, [array_col_to_zarr] raises [ContainsArrayError]
    and leaves the group as it was: a column is never written twice. *)
Theorem array_col_to_zarr_name_taken (s : pd.Series) (ts chs : list Z)
    (num_mb max_dim : Z) (array_grp : zarr.Group) (existing : zarr.Array) :
  indexed_by_product s ts chs ->
  ts <> [] -> chs <> [] ->
  max_sample_length s = Some max_dim ->
  1 <= max_dim ->
  uniform_samples max_dim s ->
  len chs <= num_mb * (1000000 / (max_dim * 8)) ->
  array_grp !! pd.name s = Some existing ->
  array_col_to_zarr s num_mb array_grp = (Raise ContainsArrayError, array_grp).
Proof.
  intros Hidx Hts Hchs Hmax Hdim Huni Hbudget Htaken.
  destruct (array_col_to_zarr_run s ts chs num_mb max_dim array_grp
              Hidx Hts Hchs Hmax Hdim Huni Hbudget) as (max_chunk_len & _ & Hrun).
  rewrite Hrun, Htaken. reflexivity.
Qed.

Lemma array_col_to_zarr_name_taken_witness :
  let written := snd (array_col_to_zarr five_ping_series 1 ∅) in
  indexed_by_product five_ping_series [1; 2; 3; 4; 5] [1; 2] /\
  [1; 2; 3; 4; 5] <> [] /\ [1; 2] <> [] /\
  max_sample_length five_ping_series = Some 1 /\
  1 <= 1 /\
  uniform_samples 1 five_ping_series /\
  len [1; 2] <= 1 * (1000000 / (1 * 8)) /\
  written !! pd.name five_ping_series
    = Some (written_array five_ping_series [1; 2; 3; 4; 5] [1; 2] 1 5) /\
  array_col_to_zarr five_ping_series 1 written
    = (Raise ContainsArrayError, written).
Proof.
  intros written.
  assert (Hidx : indexed_by_product five_ping_series [1; 2; 3; 4; 5] [1; 2]).
  { split; [reflexivity|].
    split; apply (bool_decide_eq_true_1 _); vm_compute; reflexivity. }
  assert (Huni : uniform_samples 1 five_ping_series)
    by (unfold uniform_samples; repeat (constructor; [reflexivity|]); constructor).
  assert (Htaken : written !! pd.name five_ping_series
                   = Some (written_array five_ping_series [1; 2; 3; 4; 5] [1; 2] 1 5))
    by (vm_compute; reflexivity).
  split; [exact Hidx|]. split; [discriminate|]. split; [discriminate|].
  split; [reflexivity|]. split; [lia|]. split; [exact Huni|].
  split; [vm_compute; discriminate|]. split; [exact Htaken|].
  apply (array_col_to_zarr_name_taken five_ping_series [1; 2; 3; 4; 5] [1; 2] 1 1
           written
           (written_array five_ping_series [1; 2; 3; 4; 5] [1; 2] 1 5) Hidx);
    [discriminate | discriminate | reflexivity | lia | exact Huni
    | vm_compute; discriminate | exact Htaken].
Defined.

(** ** A chunk that is not full *)

Lemma all_full_Forall (size_elem : Z) (df_chunk : list pd.cell) :
  all_full size_elem df_chunk = true ->
  Forall (fun x => chunk_elements size_elem x = size_elem) df_chunk.
Proof.
  unfold all_full. intros H. apply Forall_forall. intros x Hx.
  apply list_elem_of_In in Hx.
  rewrite forallb_forall in H. apply Z.eqb_eq, H, Hx.
Qed.

Lemma all_full_Exists (size_elem : Z) (df_chunk : list pd.cell) :
  Forall (fun x => chunk_elements size_elem x <= size_elem) df_chunk ->
  all_full size_elem df_chunk = false ->
  Exists (fun x => chunk_elements size_elem x < size_elem) df_chunk.
Proof.
  unfold all_full. induction 1 as [|x l Hx _ IH]; cbn [forallb]; [discriminate|].
  destruct (chunk_elements size_elem x =? size_elem) eqn:Hfull; cbn [andb].
  - intros H. apply Exists_cons_tl, IH, H.
  - intros _. apply Exists_cons_hd. apply Z.eqb_neq in Hfull. lia.
Qed.



(** ** The sizes and the memory budget *)

Lemma fold_left_max_nonneg (l : list Z) (a : Z) :
  0 <= a -> 0 <= fold_left Z.max l a.
Proof.
  revert a. induction l as [|x l IH]; intros a Ha; cbn [fold_left]; [exact Ha|].
  apply IH. lia.
Qed.

Lemma sample_length_nonneg (x : pd.cell) : 0 <= sample_length x.
Proof. destruct x; cbn; [lia | apply len_nonneg]. Qed.

(** What a successful [chunk_sizes] tells about the series. *)
Lemma chunk_sizes_Ok (s : pd.Series) (num_mb max_dim num_chan max_num_pings : Z) :
  chunk_sizes s num_mb = Ok (max_dim, num_chan, max_num_pings) ->
  max_sample_length s = Some max_dim /\ 1 <= max_dim /\
  num_chan = channel_count s /\ 1 <= num_chan /\
  max_num_pings = (num_mb * (1000000 / (max_dim * 8))) / num_chan /\
  1 <= total_time_steps s.
Proof.
  unfold chunk_sizes, max_sample_length, channel_count, total_time_steps,
    unique_times, pd.level0.
  destruct (pd.items s) as [|it its] eqn:Hitems; [discriminate|].
  cbn [map np.max].
  set (d := fold_left Z.max _ _).
  assert (Hd : 0 <= d) by apply fold_left_max_nonneg, sample_length_nonneg.
  destruct (d * 8 =? 0) eqn:H0; [discriminate|]. apply Z.eqb_neq in H0.
  pose proof (len_nonneg (pd.unique_channels s)) as Hc.
  destruct (len (pd.unique_channels s) =? 0) eqn:H1; [discriminate|].
  apply Z.eqb_neq in H1.
  intros H. injection H as <- <- <-.
  split; [reflexivity|]. split; [lia|]. split; [reflexivity|]. split; [lia|].
  split; [reflexivity|].
  apply len_pos_of_not_nil, unique_cons_not_nil.
Qed.

(** X4. Whenever [array_col_to_zarr] gets sizes with room for at least
    one ping, from a budget that is not negative, the chunks of
    timestamps it goes on to write are none empty and each one, as
    8-byte values on every channel at the reference length, takes at
    most [num_mb] * 10^6 bytes. *)
Theorem chunks_fit_budget (s : pd.Series) (num_mb max_dim num_chan max_num_pings : Z) :
  0 <= num_mb ->
  chunk_sizes s num_mb = Ok (max_dim, num_chan, max_num_pings) ->
  1 <= max_num_pings ->
  exists chunks,
    time_chunks s max_num_pings = Ok chunks /\
    Forall (fun chunk =>
              1 <= len chunk /\
              len chunk * num_chan * (max_dim * 8) <= num_mb * 1000000) chunks.
Proof.
  intros Hmb Hsizes Hpings.
  destruct (chunk_sizes_Ok _ _ _ _ _ Hsizes) as (_ & Hd & _ & Hc & Hp & Htotal).
  unfold time_chunks. fold (unique_times s).
  destruct (chunked_even_spec (unique_times s) max_num_pings Hpings Htotal)
    as (chunks & full_size & Hrun & _ & Hall & _).
  exists chunks. split; [exact Hrun|].
  eapply Forall_impl; [exact Hall|].
  intros chunk [_ [Hlo Hhi]]. cbn beta. split; [exact Hlo|].
  assert (Hpc : max_num_pings * num_chan <= num_mb * (1000000 / (max_dim * 8))).
  { subst max_num_pings.
    pose proof (Z.mul_div_le (num_mb * (1000000 / (max_dim * 8))) num_chan
                  ltac:(lia)). lia. }
  pose proof (Z.mul_div_le 1000000 (max_dim * 8) ltac:(lia)) as Hfloor.
  set (q := 1000000 / (max_dim * 8)) in *.
  set (e := max_dim * 8) in *.
  assert (He : 0 <= e) by (unfold e; lia).
  assert (H1 : len chunk * num_chan <= num_mb * q) by nia.
  assert (H2 : len chunk * num_chan * e <= num_mb * q * e)
    by (apply Z.mul_le_mono_nonneg_r; assumption).
  assert (H3 : num_mb * (e * q) <= num_mb * 1000000)
    by (apply Z.mul_le_mono_nonneg_l; assumption).
  lia.
Qed.

Lemma chunks_fit_budget_witness :
  0 <= 2 /\
  chunk_sizes three_sample_series 2 = Ok (3, 1, 83332) /\
  1 <= 83332 /\
  exists chunks,
    time_chunks three_sample_series 83332 = Ok chunks /\
    Forall (fun chunk =>
              1 <= len chunk /\
              len chunk * 1 * (3 * 8) <= 2 * 1000000) chunks.
Proof.
  split; [lia|]. split; [reflexivity|]. split; [lia|].
  apply (chunks_fit_budget three_sample_series 2 3 1 83332);
    [lia | reflexivity | lia].
Defined.

(** X5. When the budget has room for less than one ping (the elements
    it allows, [num_mb * floor(10^6 / (max_dim * 8))], are fewer than
    the channels), the chunk limit comes out as 0 and
    [array_col_to_zarr] raises [ZeroDivisionError] in the chunking,
    before anything is written. *)
Theorem array_col_to_zarr_no_ping_fits (s : pd.Series) (num_mb max_dim : Z)
    (array_grp : zarr.Group) :
  max_sample_length s = Some max_dim ->
  1 <= max_dim ->
  0 <= num_mb * (1000000 / (max_dim * 8)) < channel_count s ->
  array_col_to_zarr s num_mb array_grp = (Raise ZeroDivisionError, array_grp).
Proof.
  intros Hmax Hdim Hsmall.
  unfold array_col_to_zarr.
  rewrite (chunk_sizes_run s num_mb max_dim Hmax Hdim ltac:(lia)).
  rewrite (Z.div_small _ _ Hsmall).
  unfold bind at 1. unfold lift at 1.
  unfold write_chunks, bind at 1. unfold lift at 1.
  assert (Hrun : time_chunks s 0 = Raise ZeroDivisionError).
  { unfold time_chunks, miter.chunked_even, miter._chunked_even_finite.
    unfold max_sample_length in Hmax. unfold pd.level0.
    destruct (pd.items s) as [|it its]; [discriminate|].
    cbn [map].
    pose proof (len_pos_of_not_nil _ (unique_cons_not_nil (fst (fst it))
                  (map (fun it => fst (fst it)) its))) as Hlen.
    destruct (len _ <? 1) eqn:H1; [apply Z.ltb_lt in H1; lia|].
    reflexivity. }
  rewrite Hrun. reflexivity.
Qed.

Lemma array_col_to_zarr_no_ping_fits_witness :
  max_sample_length three_sample_series = Some 3 /\
  1 <= 3 /\
  0 <= 0 * (1000000 / (3 * 8)) < channel_count three_sample_series /\
  array_col_to_zarr three_sample_series 0 ∅ = (Raise ZeroDivisionError, ∅).
Proof.
  split; [reflexivity|]. split; [lia|].
  split; [split; [vm_compute; discriminate | vm_compute; reflexivity]|].
  apply (array_col_to_zarr_no_ping_fits three_sample_series 0 3 ∅);
    [reflexivity | lia
    | split; [vm_compute; discriminate | vm_compute; reflexivity]].
Defined.

(** ** Records that share a pair *)

(** X6. A record set in which two records share a (timestamp, channel)
    pair is refused: [set_multi_index] raises [ValueError] from
    [reindex] and returns no view. *)
Theorem set_multi_index_repeated_pairs (df : pd.DataFrame) :
  pd.dims_at df = pd.AsColumns ->
  ~ NoDup (pd.keys df) ->
  set_multi_index df = Raise ValueError.
Proof.
  intros Hcols Hdup. unfold set_multi_index, pd.dim_column, pd.set_index.
  rewrite Hcols. cbn [rbind fst snd]. unfold pd.reindex.
  set (df_multi := {| pd.dims_at := pd.AsIndexLevels;
                      pd.columns := pd.columns df; pd.rows := pd.rows df |}).
  assert (Hk : pd.keys df_multi = pd.keys df) by reflexivity.
  rewrite Hk.
  destruct (bool_decide _) eqn:Hsame.
  - exfalso. apply bool_decide_eq_true in Hsame. apply Hdup.
    rewrite Hsame. apply NoDup_from_product; apply unique_NoDup.
  - unfold pd.is_unique.
    rewrite (bool_decide_eq_false_2 _ Hdup). reflexivity.
Qed.

Lemma set_multi_index_repeated_pairs_witness :
  let df := record_set ["power"]
              [((1, 1), [pd.NdArray [1%float]]); ((2, 1), [pd.NaN]);
               ((1, 1), [pd.NdArray [3%float]])] in
  pd.dims_at df = pd.AsColumns /\
  ~ NoDup (pd.keys df) /\
  set_multi_index df = Raise ValueError.
Proof.
  intros df.
  assert (Hdup : ~ NoDup (pd.keys df)).
  { apply (bool_decide_eq_false_1 (NoDup (pd.keys df))). vm_compute. reflexivity. }
  split; [reflexivity|]. split; [exact Hdup|].
  apply (set_multi_index_repeated_pairs df); [reflexivity | exact Hdup].
Defined.

(** ** Writing a padded frame *)

Lemma getitem_Ok (df : pd.DataFrame) (column : string) (s : pd.Series) :
  pd.getitem df column = Ok s ->
  pd.name s = column /\ map fst (pd.items s) = pd.keys df.
Proof.
  unfold pd.getitem. destruct (list_find _ _) as [[j c]|]; [|discriminate].
  intros H. injection H as <-. cbn [pd.name pd.items]. split; [reflexivity|].
  unfold pd.keys. rewrite map_map. reflexivity.
Qed.

Section columns.
Context (df : pd.DataFrame) (ts chs : list Z) (num_mb : Z).
Hypothesis Hdims : pd.dims_at df = pd.AsIndexLevels.
Hypothesis Hkeys : pd.keys df = pd.from_product ts chs.
Hypothesis Hts : NoDup ts.
Hypothesis Hchs : NoDup chs.
Hypothesis Hts_ne : ts <> [].
Hypothesis Hchs_ne : chs <> [].

(** The loop of [write_df_to_zarr] over columns that are ready and not
    yet in the group. *)
Lemma write_columns (cols : list string) :
  NoDup cols ->
  forall array_grp : zarr.Group,
  Forall (fun column => array_grp !! column = None) cols ->
  Forall (column_ready df (len chs) num_mb) cols ->
  exists final,
    for_each cols (fun column =>
      do pd_series <- lift (pd.getitem df column);
      match pd.dims_at df with
      | pd.AsIndexLevels => array_col_to_zarr pd_series num_mb
      | pd.AsColumns => raise NotImplementedError
      end) array_grp = (Ok tt, final) /\
    Forall (column_written df ts chs final) cols /\
    forall name, name ∉ cols -> final !! name = array_grp !! name.
Proof.
  induction 1 as [|column cols Hnotin Hnd IH]; intros array_grp Hfresh Hready.
  - exists array_grp. split; [reflexivity|]. split; [constructor|]. reflexivity.
  - apply Forall_cons in Hfresh. destruct Hfresh as [Hfresh0 Hfresh].
    apply Forall_cons in Hready. destruct Hready as [Hready0 Hready].
    destruct Hready0 as (s & max_dim & Hget & Hmax & Hdim & Huni & Hbudget).
    destruct (getitem_Ok _ _ _ Hget) as [Hname Hidx].
    assert (Hprod : indexed_by_product s ts chs).
    { split; [rewrite Hidx; exact Hkeys|]. split; assumption. }
    destruct (array_col_to_zarr_run s ts chs num_mb max_dim array_grp
                Hprod Hts_ne Hchs_ne Hmax Hdim Huni Hbudget)
      as (max_chunk_len & _ & Hrun).
    rewrite Hname, Hfresh0 in Hrun.
    set (grp1 := <[column := written_array s ts chs max_dim max_chunk_len]> array_grp)
      in Hrun.
    destruct (IH grp1) as (final & Hloop & Hwritten & Hother).
    { apply Forall_forall. intros name Hin. unfold grp1.
      rewrite lookup_insert_ne;
        [exact (proj1 (Forall_forall _ _) Hfresh name Hin)|].
      intros ->. exact (Hnotin Hin). }
    { exact Hready. }
    exists final. split; [|split].
    + cbn [for_each]. unfold bind at 1. unfold bind at 1. unfold lift at 1.
      rewrite Hget, Hdims, Hrun. rewrite Hdims in Hloop. exact Hloop.
    + constructor; [|exact Hwritten].
      exists s, max_dim, max_chunk_len.
      split; [exact Hget|]. split; [exact Hmax|].
      rewrite (Hother column Hnotin). unfold grp1.
      apply lookup_insert_eq.
    + intros name Hname'. rewrite not_elem_of_cons in Hname'.
      destruct Hname' as [Hne Hnin].
      rewrite (Hother name Hnin). unfold grp1.
      apply lookup_insert_ne. congruence.
Qed.
End columns.

(** X7. For a frame indexed by the product of its timestamps and
    channels, with distinct column names none of which the group has
    yet, and every column ready (one sample length of at least 1 and
    room in the budget for one ping), [write_df_to_zarr] succeeds: the
    group then holds for every column the dense array of that column,
    each with its own reference length, and every other array of the
    group is as it was. *)
Theorem write_df_to_zarr_writes (df : pd.DataFrame) (ts chs : list Z)
    (num_mb : Z) (array_grp : zarr.Group) :
  pd.dims_at df = pd.AsIndexLevels ->
  pd.keys df = pd.from_product ts chs ->
  NoDup ts -> NoDup chs -> ts <> [] -> chs <> [] ->
  NoDup (pd.columns df) ->
  Forall (fun column => array_grp !! column = None) (pd.columns df) ->
  Forall (column_ready df (len chs) num_mb) (pd.columns df) ->
  exists final,
    write_df_to_zarr df num_mb array_grp = (Ok tt, final) /\
    Forall (column_written df ts chs final) (pd.columns df) /\
    forall name, name ∉ pd.columns df -> final !! name = array_grp !! name.
Proof.
  intros Hdims Hkeys Hts Hchs Hts_ne Hchs_ne Hcols Hfresh Hready.
  unfold write_df_to_zarr.
  apply (write_columns df ts chs num_mb Hdims Hkeys Hts Hchs Hts_ne Hchs_ne
           (pd.columns df) Hcols array_grp Hfresh Hready).
Qed.

Lemma write_df_to_zarr_writes_witness :
  pd.dims_at two_column_frame = pd.AsIndexLevels /\
  pd.keys two_column_frame = pd.from_product [1; 2] [1; 2] /\
  NoDup [1; 2] /\ [1; 2] <> [] /\
  NoDup (pd.columns two_column_frame) /\
  Forall (fun column => (∅ : zarr.Group) !! column = None)
    (pd.columns two_column_frame) /\
  Forall (column_ready two_column_frame (len [1; 2]) 1)
    (pd.columns two_column_frame) /\
  exists final,
    write_df_to_zarr two_column_frame 1 ∅ = (Ok tt, final) /\
    Forall (column_written two_column_frame [1; 2] [1; 2] final)
      (pd.columns two_column_frame) /\
    forall name, name ∉ pd.columns two_column_frame ->
      final !! name = (∅ : zarr.Group) !! name.
Proof.
  assert (Hnd : NoDup [1; 2])
    by (apply (bool_decide_eq_true_1 _); vm_compute; reflexivity).
  assert (Hcols : NoDup (pd.columns two_column_frame))
    by (apply (bool_decide_eq_true_1 _); vm_compute; reflexivity).
  assert (Hfresh : Forall (fun column => (∅ : zarr.Group) !! column = None)
                     (pd.columns two_column_frame))
    by (constructor; [reflexivity|]; constructor; [reflexivity|]; constructor).
  assert (Hready : Forall (column_ready two_column_frame (len [1; 2]) 1)
                     (pd.columns two_column_frame)).
  { constructor; [|constructor; [|constructor]].
    - eexists _, 1. split; [reflexivity|]. split; [reflexivity|].
      split; [lia|]. split; [|vm_compute; discriminate].
      unfold uniform_samples. cbn [pd.items].
      constructor; [reflexivity|]. constructor; [reflexivity|].
      constructor; [reflexivity|]. constructor; [reflexivity|]. constructor.
    - eexists _, 2. split; [reflexivity|]. split; [reflexivity|].
      split; [lia|]. split; [|vm_compute; discriminate].
      unfold uniform_samples. cbn [pd.items].
      constructor; [reflexivity|]. constructor; [reflexivity|].
      constructor; [reflexivity|]. constructor; [reflexivity|]. constructor. }
  split; [reflexivity|]. split; [reflexivity|]. split; [exact Hnd|].
  split; [discriminate|]. split; [exact Hcols|]. split; [exact Hfresh|].
  split; [exact Hready|].
  apply (write_df_to_zarr_writes two_column_frame [1; 2] [1; 2] 1 ∅);
    [reflexivity | reflexivity | exact Hnd | exact Hnd | discriminate
    | discriminate | exact Hcols | exact Hfresh | exact Hready].
Defined.

(** ** A write that stops half way *)

Lemma list_prod_nil_r {A B} (l : list A) : list_prod l (@nil B) = [].
Proof. induction l as [|x l IH]; [reflexivity | exact IH]. Qed.

(** X8. [write_chunks] is not all-or-nothing. On a series indexed by
    the product of its timestamps and channels that is cut into at
    least two chunks of timestamps, the first with every cell absent or
    of the reference length and the second with an array that is too
    short, it raises [ValueError] at the second chunk, after the array
    was created: the group is left with an array that holds the first
    chunk only. *)
Theorem write_chunks_partial (s : pd.Series) (ts chs : list Z)
    (size_elem max_time_chunk : Z) (grp : zarr.Group)
    (chunk0 chunk1 : list Z) (rest : list (list Z)) :
  indexed_by_product s ts chs ->
  0 <= size_elem ->
  1 <= max_time_chunk ->
  time_chunks s max_time_chunk = Ok (chunk0 :: chunk1 :: rest) ->
  all_full size_elem (pd.loc s chunk0) = true ->
  Forall (fun x => chunk_elements size_elem x <= size_elem) (pd.loc s chunk1) ->
  all_full size_elem (pd.loc s chunk1) = false ->
  grp !! pd.name s = None ->
  exists max_chunk_len,
    write_chunks s (len chs) size_elem (np.full_nan size_elem) max_time_chunk grp
    = (Raise ValueError,
       <[pd.name s := first_chunk_array s (len chs) size_elem chunk0 max_chunk_len]>
         grp).
Proof.
  intros Hidx Hsize Hlimit Htime Hfull0 Hle1 Hshort1 Hfresh.
  assert (Hchunks : concat (chunk0 :: chunk1 :: rest) = unique_times s /\
                    1 <= len chunk0).
  { unfold time_chunks in Htime. fold (unique_times s) in Htime.
    assert (Hlen : 1 <= len (unique_times s)).
    { destruct (unique_times s) as [|t l] eqn:Hu; [discriminate|].
      rewrite len_cons. pose proof (len_nonneg l). lia. }
    destruct (chunked_even_spec (unique_times s) max_time_chunk Hlimit Hlen)
      as (chunks & full_size & Hrun & Hcat & Hall & _).
    rewrite Htime in Hrun. injection Hrun as <-. split; [exact Hcat|].
    apply Forall_cons in Hall. destruct Hall as [[_ Hfirst] _]. lia. }
  destruct Hchunks as [Hcat Hchunk0].
  destruct Hidx as (Hkeys & Hts & Hchs).
  assert (Hu : NoDup (unique_times s)) by apply unique_NoDup.
  assert (Hprod : map fst (pd.items s)
                  = list_prod (concat (chunk0 :: chunk1 :: rest)) chs).
  { rewrite Hcat, Hkeys. unfold unique_times, pd.level0.
    rewrite <- (map_map fst fst), Hkeys.
    destruct chs as [|c chs'].
    - unfold pd.from_product. rewrite !list_prod_nil_r. reflexivity.
    - rewrite unique_fst_product; [reflexivity | exact Hts | discriminate]. }
  rewrite <- Hcat in Hu.
  destruct (chunk_rows_partition chs _ (pd.items s) Hprod Hu) as [_ Hlens].
  apply Forall_cons in Hlens. destruct Hlens as [Hlen0 Hlens].
  apply Forall_cons in Hlens. destruct Hlens as [Hlen1 _].
  assert (Hloc : forall chunk,
            len (pd.loc s chunk) = len (chunk_rows chunk (pd.items s))).
  { intros chunk. unfold pd.loc, chunk_rows, len. rewrite length_map. reflexivity. }
  rewrite <- Hloc in Hlen0, Hlen1.
  assert (Hfilled1 : pd.loc s chunk1 <> []).
  { intros Hnil. pose proof (all_full_Exists _ _ Hle1 Hshort1) as Hex.
    rewrite Hnil in Hex. inversion Hex. }
  assert (Hfilled0 : pd.loc s chunk0 <> []).
  { apply not_nil_of_len_pos. rewrite Hlen0.
    pose proof (len_pos_of_not_nil _ Hfilled1) as Hpos1. rewrite Hlen1 in Hpos1.
    pose proof (len_nonneg chs). pose proof (len_nonneg chunk1). nia. }
  unfold write_chunks. rewrite Htime.
  unfold bind at 1. unfold lift at 1.
  cbn [map py_max]. unfold bind at 1. unfold lift at 1.
  eexists.
  unfold bind at 1. unfold lift at 1.
  rewrite (get_np_chunk_full _ _ _ _ Hsize Hfilled0 Hlen0
             (all_full_Forall _ _ Hfull0)).
  unfold bind at 1. unfold zarr.array at 1. rewrite Hfresh.
  cbn [combine for_each]. unfold bind at 1. unfold bind at 1. unfold lift at 1.
  rewrite (get_np_chunk_short _ _ _ _ Hsize Hlen1 Hle1
             (all_full_Exists _ _ Hle1 Hshort1)).
  reflexivity.
Qed.

Lemma write_chunks_partial_witness :
  indexed_by_product late_short_series [1; 2] [1; 2] /\
  0 <= 2 /\ 1 <= 1 /\
  time_chunks late_short_series 1 = Ok [[1]; [2]] /\
  all_full 2 (pd.loc late_short_series [1]) = true /\
  Forall (fun x => chunk_elements 2 x <= 2) (pd.loc late_short_series [2]) /\
  all_full 2 (pd.loc late_short_series [2]) = false /\
  (∅ : zarr.Group) !! pd.name late_short_series = None /\
  exists max_chunk_len,
    write_chunks late_short_series (len [1; 2]) 2 (np.full_nan 2) 1 ∅
    = (Raise ValueError,
       <[pd.name late_short_series :=
           first_chunk_array late_short_series (len [1; 2]) 2 [1] max_chunk_len]> ∅).
Proof.
  assert (Hidx : indexed_by_product late_short_series [1; 2] [1; 2]).
  { split; [reflexivity|].
    split; apply (bool_decide_eq_true_1 _); vm_compute; reflexivity. }
  assert (Hle : Forall (fun x => chunk_elements 2 x <= 2)
                  (pd.loc late_short_series [2])).
  { assert (Hloc : pd.loc late_short_series [2]
                   = [pd.NdArray [3%float]; pd.NdArray [4%float; 5%float]])
      by (vm_compute; reflexivity).
    rewrite Hloc.
    constructor; [vm_compute; discriminate|].
    constructor; [vm_compute; discriminate|]. constructor. }
  split; [exact Hidx|]. split; [lia|]. split; [lia|].
  split; [vm_compute; reflexivity|]. split; [vm_compute; reflexivity|].
  split; [exact Hle|]. split; [vm_compute; reflexivity|].
  split; [reflexivity|].
  apply (write_chunks_partial late_short_series [1; 2] [1; 2] 2 1 ∅ [1] [2] []);
    [exact Hidx | lia | lia | vm_compute; reflexivity | vm_compute; reflexivity
    | exact Hle | vm_compute; reflexivity | reflexivity].
Defined.

(** ** Combining: the file groups *)

Lemma split_into_groups_step (paths : list string) (g0 g1 : list string) :
  fold_left (fun file_groups f =>
               match file_groups with
               | [g0; g1] =>
                   if os_path.contains "_cw" f then [g0; g1 ++ [f]]
                   else [g0 ++ [f]; g1]
               | _ => file_groups
               end) paths [g0; g1]
  = [g0 ++ List.filter (fun f => negb (os_path.contains "_cw" f)) paths;
     g1 ++ List.filter (os_path.contains "_cw") paths].
Proof.
  revert g0 g1. induction paths as [|f paths IH]; intros g0 g1.
  - cbn. rewrite !app_nil_r. reflexivity.
  - cbn [fold_left List.filter].
    destruct (os_path.contains "_cw" f); cbn [negb]; rewrite IH.
    + rewrite <- app_assoc. reflexivity.
    + rewrite <- app_assoc. reflexivity.
Qed.

(** X9. For an EK80 conversion [split_into_groups] returns exactly two
    groups: the paths without ["_cw"] anywhere in them, and the paths
    with it, each in the order given (so every path is in exactly one
    group); for any other model it returns the one group of all
    paths. *)
Theorem split_into_groups_partition (self : Convert) (paths : list string) :
  split_into_groups self paths
  = if bool_decide (sonar_model self = Some "EK80")
    then [List.filter (fun f => negb (os_path.contains "_cw" f)) paths;
          List.filter (os_path.contains "_cw") paths]
    else [paths].
Proof.
  unfold split_into_groups.
  destruct (bool_decide (sonar_model self = Some "EK80")); [|reflexivity].
  apply (split_into_groups_step paths [] []).
Qed.

(** ** Combining: what is touched *)

Section effects.
Context {Dataset : Type}.
Context (xr_combine : combine_opt -> list Dataset -> result Dataset).
Context (uninitialized : nat -> nc.complex64).

Local Abbreviation world := (@World Dataset).

Lemma unchanging_ret {A} (a : A) : unchanging (ret a : M world A).
Proof. intros w. reflexivity. Qed.

Lemma unchanging_raise {A} (e : exn) : unchanging (raise e : M world A).
Proof. intros w. reflexivity. Qed.

Lemma unchanging_lift {A} (r : result A) : unchanging (lift r : M world A).
Proof. intros w. reflexivity. Qed.

Lemma unchanging_bind {A B} (m : M world A) (k : A -> M world B) :
  unchanging m -> (forall a, unchanging (k a)) -> unchanging (bind m k).
Proof.
  intros Hm Hk w. unfold bind. specialize (Hm w).
  destruct (m w) as [[a|e] w1]; cbn [snd] in Hm; subst w1; [apply Hk | reflexivity].
Qed.

Lemma unchanging_map_M {A B} (f : A -> M world B) (l : list A) :
  (forall x, unchanging (f x)) -> unchanging (map_M f l).
Proof.
  intros Hf. induction l as [|x l IH]; cbn [map_M]; [apply unchanging_ret|].
  apply unchanging_bind; [apply Hf|]. intros y.
  apply unchanging_bind; [exact IH|]. intros ys. apply unchanging_ret.
Qed.

Lemma unchanging_first {A} (l : list A) : unchanging (first l : M world A).
Proof. destruct l; [apply unchanging_raise | apply unchanging_ret]. Qed.

Lemma unchanging_xr_open (is_zarr : bool) (path group : string) :
  unchanging (xr_open is_zarr path group : M world Dataset).
Proof.
  intros w. unfold xr_open, bind, get.
  destruct (files w !! path) as [st|]; [|reflexivity].
  destruct (negb _); [reflexivity|].
  destruct (groups st !! group); reflexivity.
Qed.

Lemma unchanging_open_dataset (ext : string) (path group : string) :
  unchanging (call (set_open_dataset ext) path group : M world Dataset).
Proof.
  unfold set_open_dataset, call.
  destruct (String.eqb ext ".nc"); [apply unchanging_xr_open|].
  destruct (String.eqb ext ".zarr");
    [apply unchanging_xr_open | apply unchanging_raise].
Qed.

Lemma unchanging_open_mfdataset (ext : string) (paths : list string)
    (group : string) (how : combine_opt) :
  unchanging (match set_open_mfdataset xr_combine ext with
              | Some g => g paths group how
              | None => raise TypeError
              end).
Proof.
  unfold set_open_mfdataset.
  destruct (String.eqb ext ".nc").
  - unfold xr_open_mfdataset. destruct paths as [|p paths];
      [apply unchanging_raise|].
    apply unchanging_bind;
      [apply unchanging_map_M; intros x; apply unchanging_xr_open|].
    intros datasets. apply unchanging_lift.
  - destruct (String.eqb ext ".zarr"); [|apply unchanging_raise].
    unfold open_mfzarr. destruct how; [|apply unchanging_raise].
    apply unchanging_bind;
      [apply unchanging_map_M; intros x; apply unchanging_xr_open|].
    intros datasets. apply unchanging_raise.
Qed.

Lemma touches_unchanging {A} (targets : list string) (m : M world A) :
  unchanging m -> touches_only targets m.
Proof. intros Hm w p. rewrite (Hm w). split; [reflexivity | exact id]. Qed.

Lemma touches_bind {A B} (targets : list string) (m : M world A)
    (k : A -> M world B) (Q : A -> Prop) :
  touches_only targets m ->
  (forall w a w', m w = (Ok a, w') -> Q a) ->
  (forall a, Q a -> touches_only targets (k a)) ->
  touches_only targets (bind m k).
Proof.
  intros Hm HQ Hk w p. unfold bind.
  destruct (Hm w p) as [Hsame Hkept].
  destruct (m w) as [[a|e] w1] eqn:Hrun; cbn [snd] in Hsame, Hkept.
  - destruct (Hk a (HQ w a w1 Hrun) w1 p) as [Hsame' Hkept'].
    split.
    + intros Hp. rewrite (Hsame' Hp). exact (Hsame Hp).
    + intros Hp. exact (Hkept' (Hkept Hp)).
  - split; assumption.
Qed.

Lemma touches_seq {A B} (targets : list string) (m : M world A)
    (k : A -> M world B) :
  touches_only targets m ->
  (forall a, touches_only targets (k a)) ->
  touches_only targets (bind m k).
Proof.
  intros Hm Hk. apply (touches_bind targets m k (fun _ => True));
    [exact Hm | trivial | intros a _; apply Hk].
Qed.

Lemma touches_print (targets : list string) (msg : string) :
  touches_only targets (print msg : M world unit).
Proof. intros w p. split; [reflexivity | exact id]. Qed.

Lemma touches_insert (targets : list string) (path : string) (st : Store)
    (w : world) (p : string) :
  path ∈ targets ->
  (p ∉ targets -> <[path := st]> (files w) !! p = files w !! p) /\
  (is_Some (files w !! p) -> is_Some (<[path := st]> (files w) !! p)).
Proof.
  intros Hin. split.
  - intros Hp. apply lookup_insert_ne. intros ->. exact (Hp Hin).
  - intros Hp. destruct (decide (path = p)) as [->|Hne].
    + rewrite lookup_insert_eq. eexists. reflexivity.
    + rewrite lookup_insert_ne by exact Hne. exact Hp.
Qed.

Lemma touches_xr_write (targets : list string) (is_zarr : bool) (ds : Dataset)
    (path : string) (append : bool) (group : string) :
  path ∈ targets ->
  touches_only targets (xr_write is_zarr ds path append group).
Proof.
  intros Hin w p. unfold xr_write, bind, get.
  destruct (files w !! path) as [st|].
  - destruct (negb _); [split; [reflexivity | exact id]|].
    destruct append; apply (touches_insert targets path _ w p Hin).
  - apply (touches_insert targets path _ w p Hin).
Qed.

Lemma touches_save (targets : list string) (ext : string) (ds : Dataset)
    (path : string) (append : bool) (group : string) :
  path ∈ targets ->
  touches_only targets (_save ext ds path append group).
Proof.
  intros Hin. unfold _save.
  destruct (String.eqb ext ".nc"); apply touches_xr_write; exact Hin.
Qed.

Lemma touches_copy_vendor (targets : list string) (src_file trg_file : string) :
  trg_file ∈ targets ->
  touches_only targets
    (copy_vendor (Dataset := Dataset) uninitialized src_file trg_file).
Proof.
  intros Hin w p. unfold copy_vendor, bind, get.
  destruct (files w !! src_file) as [src|]; [|split; [reflexivity | exact id]].
  destruct (files w !! trg_file) as [trg|]; [|split; [reflexivity | exact id]].
  destruct (nc_groups src !! "Vendor") as [ds_vend|];
    [|split; [reflexivity | exact id]].
  destruct (nc_groups trg !! "Vendor"); [split; [reflexivity | exact id]|].
  apply (touches_insert targets trg_file _ w p Hin).
Qed.

Lemma touches_copy_first (targets : list string) (ext0 ext : string)
    (file_group : list string) (save_path : string) (append : bool)
    (group : string) :
  save_path ∈ targets ->
  touches_only (Dataset := Dataset) targets
    (copy_first (set_open_dataset ext0) ext file_group save_path append group).
Proof.
  intros Hin. unfold copy_first.
  apply touches_seq; [apply touches_unchanging, unchanging_first|]. intros f0.
  apply touches_seq; [apply touches_unchanging, unchanging_open_dataset|].
  intros ds. apply touches_save. exact Hin.
Qed.

Lemma touches_concat_all (targets : list string) (ext0 ext : string)
    (file_group : list string) (save_path group : string) (how : combine_opt) :
  save_path ∈ targets ->
  touches_only targets
    (concat_all (set_open_mfdataset xr_combine ext0) ext file_group save_path
       group how).
Proof.
  intros Hin. unfold concat_all.
  apply touches_seq; [apply touches_unchanging, unchanging_open_mfdataset|].
  intros ds. apply touches_save. exact Hin.
Qed.

Lemma bind_Ok_inv {A B} (m : M world A) (k : A -> M world B) (w w' : world)
    (b : B) :
  bind m k w = (Ok b, w') ->
  exists a w1, m w = (Ok a, w1) /\ k a w1 = (Ok b, w').
Proof.
  unfold bind. destruct (m w) as [[a|e] w1]; [|discriminate].
  intros H. exists a, w1. split; [reflexivity | exact H].
Qed.

(** The [save_path] and [ext] an iteration of the loop hands to the
    next one. *)
Lemma combine_group_value (self : Convert)
    (_open_dataset : option (string -> string -> M world Dataset))
    (_open_mfdataset : option (list string -> string -> combine_opt -> M world Dataset))
    (i : nat) (file_group : list string) (save_path ext : string)
    (w w' : world) (a : string * string) :
  combine_group uninitialized self _open_dataset _open_mfdataset i file_group
    save_path ext w = (Ok a, w') ->
  a = if (i =? 1)%nat
      then (cw_name save_path, snd (os_path.splitext save_path))
      else (save_path, ext).
Proof.
  unfold combine_group, cw_name.
  destruct (i =? 1)%nat; destruct (os_path.splitext save_path) as [fname e];
    cbn [snd]; intros H;
    repeat (apply bind_Ok_inv in H; destruct H as (? & ? & _ & H));
    injection H as <- _; reflexivity.
Qed.

Ltac touch Hin :=
  repeat first
    [ apply touches_copy_first; exact Hin
    | apply touches_concat_all; exact Hin
    | apply touches_copy_vendor; exact Hin
    | apply touches_unchanging, unchanging_ret
    | apply touches_unchanging, unchanging_first
    | apply touches_seq; [|intros ?]
    | match goal with
      | |- touches_only _ (if ?b then _ else _) => destruct b
      end ].

Lemma touches_combine_group (targets : list string) (self : Convert)
    (ext0 : string) (i : nat) (file_group : list string)
    (save_path ext : string) :
  (if (i =? 1)%nat then cw_name save_path else save_path) ∈ targets ->
  touches_only targets
    (combine_group uninitialized self (set_open_dataset ext0)
       (set_open_mfdataset xr_combine ext0) i file_group save_path ext).
Proof.
  unfold combine_group, cw_name.
  destruct (i =? 1)%nat; destruct (os_path.splitext save_path) as [fname e];
    intros Hin; cbv zeta beta; touch Hin.
Qed.

Lemma touches_combine_groups (self : Convert) (ext0 : string)
    (g0 g1 : list string) (save_path ext : string) :
  touches_only [save_path; cw_name save_path]
    (combine_groups uninitialized self (set_open_dataset ext0)
       (set_open_mfdataset xr_combine ext0) 0 [g0; g1] save_path ext).
Proof.
  cbn [combine_groups].
  apply (touches_bind _ _ _ (fun a => a = (save_path, ext))).
  - apply touches_combine_group. cbn. left.
  - intros w a w' H. apply combine_group_value in H. exact H.
  - intros a ->.
    apply touches_seq.
    + apply touches_combine_group. cbn. right. left.
    + intros [sp e]. apply touches_unchanging, unchanging_ret.
Qed.

(** [combine_files] without deletion, once it has decided to combine:
    it prints, finds the combined name and runs the loop over the two
    groups of an EK80 conversion; for another model the loop has
    nothing to iterate over. *)
Lemma combine_files_run (check : Convert -> bool) (self : Convert)
    (src_files : option (list string)) (save_path : pyobj)
    (sources : list string) (f0 : string) (rest : list string)
    (target ext : string) (w : world) :
  source_file self = Some sources ->
  2 <= len sources ->
  check self = true ->
  files_to_combine self src_files = Some (f0 :: rest) ->
  combined_name f0 save_path = Some (target, ext) ->
  combine_files_with xr_combine uninitialized check self src_files save_path
    false w
  = if bool_decide (sonar_model self = Some "EK80") then
      match combine_groups uninitialized self (set_open_dataset ext)
              (set_open_mfdataset xr_combine ext) 0
              [List.filter (fun f => negb (os_path.contains "_cw" f))
                 ((f0 :: rest) ++ extra_files self);
               List.filter (os_path.contains "_cw")
                 ((f0 :: rest) ++ extra_files self)]
              target ext (printed "combining files..." w) with
      | (Ok _, w2) => (Ok true, w2)
      | (Raise e, w2) => (Raise e, w2)
      end
    else (Raise UnboundLocalError, printed "combining files..." w).
Proof.
  intros Hsources Hlen Hcheck Hpaths Hname.
  unfold combine_files_with. unfold files_to_combine in Hpaths.
  rewrite Hsources, Hcheck, Hpaths.
  destruct (len sources <? 2) eqn:Hfew; [apply Z.ltb_lt in Hfew; lia|].
  cbn [negb]. unfold split_into_groups.
  destruct (bool_decide (sonar_model self = Some "EK80")) eqn:Hmodel.
  - rewrite split_into_groups_step. cbn [app].
    unfold combined_name in Hname.
    destruct save_path as [|sp|]; [| |discriminate].
    + destruct (os_path.splitext f0) as [fname e] eqn:Hsplit.
      injection Hname as <- <-.
      cbv [bind first ret print modify]. rewrite Hsplit.
      fold (printed "combining files..." w).
      destruct (combine_groups _ _ _ _ _ _ _ _ _) as [[[]|e'] w2]; reflexivity.
    + destruct (os_path.splitext sp) as [fname e].
      destruct (String.eqb e "").
      * destruct (os_path.splitext (os_path.basename f0)) as [fname' e'] eqn:Hsplit.
        injection Hname as <- <-.
        cbv [bind first ret print modify]. rewrite Hsplit.
        fold (printed "combining files..." w).
        destruct (combine_groups _ _ _ _ _ _ _ _ _) as [[[]|e''] w2]; reflexivity.
      * injection Hname as <- <-.
        cbv [bind first ret print modify].
        fold (printed "combining files..." w).
        destruct (combine_groups _ _ _ _ _ _ _ _ _) as [[[]|e''] w2]; reflexivity.
  - unfold combined_name in Hname.
    destruct save_path as [|sp|]; [| |discriminate].
    + destruct (os_path.splitext f0) as [fname e] eqn:Hsplit.
      cbv [bind first ret print modify raise]. rewrite Hsplit. reflexivity.
    + destruct (os_path.splitext sp) as [fname e].
      destruct (String.eqb e "").
      * destruct (os_path.splitext (os_path.basename f0)) as [fname' e'] eqn:Hsplit.
        cbv [bind first ret print modify raise]. rewrite Hsplit. reflexivity.
      * reflexivity.
Qed.

(** ** Combining: what cannot succeed *)

Lemma fails_raise {A} (e : exn) : fails (raise e : M world A).
Proof. intros w. reflexivity. Qed.

Lemma fails_bind_l {A B} (m : M world A) (k : A -> M world B) :
  fails m -> fails (bind m k).
Proof.
  intros Hm w. unfold bind. specialize (Hm w).
  destruct (m w) as [[a|e] w1]; [discriminate | reflexivity].
Qed.

Lemma fails_bind_r {A B} (m : M world A) (k : A -> M world B) :
  (forall a, fails (k a)) -> fails (bind m k).
Proof.
  intros Hk w. unfold bind.
  destruct (m w) as [[a|e] w1]; [apply Hk | reflexivity].
Qed.

(** No opener for several files works for an extension other than
    [.nc]: [open_mfzarr] calls [combine_nested] without [concat_dim],
    and for any other extension there is no opener at all. *)
Lemma fails_concat_all (ext0 ext : string) (file_group : list string)
    (save_path group : string) (how : combine_opt) :
  ext0 <> ".nc"%string ->
  fails (concat_all (set_open_mfdataset xr_combine ext0) ext file_group
           save_path group how).
Proof.
  intros Hext. unfold concat_all, set_open_mfdataset.
  apply fails_bind_l.
  destruct (String.eqb_spec ext0 ".nc"); [contradiction|].
  destruct (String.eqb ext0 ".zarr"); [|apply fails_raise].
  unfold open_mfzarr. destruct how; [|apply fails_raise].
  apply fails_bind_r. intros datasets. apply fails_raise.
Qed.

Lemma fails_combine_group_ext (self : Convert) (ext0 : string) (i : nat)
    (file_group : list string) (save_path ext : string) :
  ext0 <> ".nc"%string ->
  fails (combine_group uninitialized self (set_open_dataset ext0)
           (set_open_mfdataset xr_combine ext0) i file_group save_path ext).
Proof.
  intros Hext. unfold combine_group.
  destruct (i =? 1)%nat; destruct (os_path.splitext save_path) as [fname e];
    cbv zeta beta;
    do 3 (apply fails_bind_r; intros _);
    apply fails_bind_l, fails_concat_all, Hext.
Qed.

Lemma fails_combine_group_empty (self : Convert)
    (_open_dataset : option (string -> string -> M world Dataset))
    (_open_mfdataset : option (list string -> string -> combine_opt -> M world Dataset))
    (i : nat) (save_path ext : string) :
  fails (combine_group uninitialized self _open_dataset _open_mfdataset i []
           save_path ext).
Proof.
  unfold combine_group.
  destruct (i =? 1)%nat; destruct (os_path.splitext save_path) as [fname e];
    cbv zeta beta;
    apply fails_bind_l; unfold copy_first; apply fails_bind_l, fails_raise.
Qed.

Lemma filter_none (P : string -> bool) (l : list string) :
  Forall (fun f => P f = false) l -> List.filter P l = [].
Proof.
  induction 1 as [|f l Hf _ IH]; [reflexivity|].
  cbn [List.filter]. rewrite Hf. exact IH.
Qed.

(** The loop over the two groups raises when one of them is empty. *)
Lemma fails_combine_groups_one_kind (self : Convert) (ext0 : string)
    (paths : list string) (cw : bool) (save_path ext : string) :
  Forall (fun f => os_path.contains "_cw" f = cw) paths ->
  fails (combine_groups uninitialized self (set_open_dataset ext0)
           (set_open_mfdataset xr_combine ext0) 0
           [List.filter (fun f => negb (os_path.contains "_cw" f)) paths;
            List.filter (os_path.contains "_cw") paths]
           save_path ext).
Proof.
  intros Hkind. cbn [combine_groups]. destruct cw.
  - rewrite (filter_none (fun f => negb (os_path.contains "_cw" f))).
    + apply fails_bind_l, fails_combine_group_empty.
    + eapply Forall_impl; [exact Hkind|]. cbn beta. intros f ->. reflexivity.
  - rewrite (filter_none (os_path.contains "_cw")) by exact Hkind.
    apply fails_bind_r. intros [sp e].
    apply fails_bind_l, fails_combine_group_empty.
Qed.

(** X10. With deletion off, [combine_files] changes no file other than
    the combined file and its continuous-wave sibling
    ([<name>_cw<ext>]), and it deletes no file. *)
Theorem combine_files_changes_only_target (self : Convert)
    (src_files : option (list string)) (save_path : pyobj)
    (f0 : string) (rest : list string) (target ext : string) (w : world)
    (p : string) :
  files_to_combine self src_files = Some (f0 :: rest) ->
  combined_name f0 save_path = Some (target, ext) ->
  let after := snd (combine_files xr_combine uninitialized self src_files
                      save_path false w) in
  (p <> target -> p <> cw_name target -> files after !! p = files w !! p) /\
  (is_Some (files w !! p) -> is_Some (files after !! p)).
Proof.
  intros Hpaths Hname after. subst after. unfold combine_files.
  destruct (source_file self) as [sources|] eqn:Hsources.
  - destruct (Z.ltb_spec (len sources) 2) as [Hfew|Hmany].
    + unfold combine_files_with. rewrite Hsources.
      rewrite (proj2 (Z.ltb_lt _ _) Hfew). split; [reflexivity | exact id].
    + rewrite (combine_files_run _check_param_consistency self src_files
                 save_path sources f0 rest target ext w Hsources Hmany
                 eq_refl Hpaths Hname).
      destruct (bool_decide (sonar_model self = Some "EK80"));
        [|split; [reflexivity | exact id]].
      destruct (touches_combine_groups self ext
                  (List.filter (fun f => negb (os_path.contains "_cw" f))
                     ((f0 :: rest) ++ extra_files self))
                  (List.filter (os_path.contains "_cw")
                     ((f0 :: rest) ++ extra_files self))
                  target ext (printed "combining files..." w) p)
        as [Hsame Hkept].
      destruct (combine_groups _ _ _ _ _ _ _ _ _) as [[[]|e] w2];
        cbn [snd] in Hsame, Hkept |- *.
      * split; [|exact Hkept]. intros H1 H2. apply Hsame.
        rewrite !not_elem_of_cons. split; [exact H1|].
        split; [exact H2 | apply not_elem_of_nil].
      * split; [|exact Hkept]. intros H1 H2. apply Hsame.
        rewrite !not_elem_of_cons. split; [exact H1|].
        split; [exact H2 | apply not_elem_of_nil].
  - unfold combine_files_with. rewrite Hsources. split; [reflexivity | exact id].
Qed.

(** X11. [combine_files] returns [True] only for a combined file with
    the extension [.nc]: with any other extension, [.zarr] among them,
    no call returns [True], with or without deletion. *)
Theorem combine_files_needs_netcdf (self : Convert)
    (src_files : option (list string)) (save_path : pyobj)
    (f0 : string) (rest : list string) (target ext : string)
    (remove_orig : bool) (w : world) :
  files_to_combine self src_files = Some (f0 :: rest) ->
  combined_name f0 save_path = Some (target, ext) ->
  ext <> ".nc"%string ->
  fst (combine_files xr_combine uninitialized self src_files save_path
         remove_orig w) <> Ok true.
Proof.
  intros Hpaths Hname Hext.
  assert (Hplain : fst (combine_files xr_combine uninitialized self src_files
                          save_path false w) <> Ok true).
  { unfold combine_files.
    destruct (source_file self) as [sources|] eqn:Hsources.
    - destruct (Z.ltb_spec (len sources) 2) as [Hfew|Hmany].
      + unfold combine_files_with. rewrite Hsources.
        rewrite (proj2 (Z.ltb_lt _ _) Hfew). discriminate.
      + rewrite (combine_files_run _check_param_consistency self src_files
                   save_path sources f0 rest target ext w Hsources Hmany
                   eq_refl Hpaths Hname).
        destruct (bool_decide (sonar_model self = Some "EK80")); [|discriminate].
        assert (Hloop : fails (combine_groups uninitialized self
                  (set_open_dataset ext) (set_open_mfdataset xr_combine ext) 0
                  [List.filter (fun f => negb (os_path.contains "_cw" f))
                     ((f0 :: rest) ++ extra_files self);
                   List.filter (os_path.contains "_cw")
                     ((f0 :: rest) ++ extra_files self)] target ext)).
        { cbn [combine_groups]. apply fails_bind_l, fails_combine_group_ext, Hext. }
        specialize (Hloop (printed "combining files..." w)).
        destruct (combine_groups _ _ _ _ _ _ _ _ _) as [[[]|e] w2];
          [discriminate Hloop | discriminate].
    - unfold combine_files_with. rewrite Hsources. discriminate. }
  destruct remove_orig; [|exact Hplain].
  unfold combine_files in *.
  rewrite (combine_files_then_remove xr_combine uninitialized
             _check_param_consistency self src_files save_path w
             (f0 :: rest) Hpaths).
  destruct (combine_files_with _ _ _ _ _ _ false w) as [[[|]|e] w'];
    [exfalso; apply Hplain; reflexivity | discriminate | discriminate].
Qed.

(** X12. An EK80 conversion whose files to combine are all of one
    kind (no path has ["_cw"] in it, or every path has) cannot be
    combined: with two source files or more, [combine_files] raises,
    with or without deletion, and no file is deleted. *)
Theorem combine_files_one_kind (self : Convert)
    (src_files : option (list string)) (save_path : pyobj)
    (sources : list string) (f0 : string) (rest : list string)
    (target ext : string) (cw remove_orig : bool) (w : world) :
  sonar_model self = Some "EK80"%string ->
  source_file self = Some sources ->
  2 <= len sources ->
  files_to_combine self src_files = Some (f0 :: rest) ->
  combined_name f0 save_path = Some (target, ext) ->
  Forall (fun f => os_path.contains "_cw" f = cw)
    ((f0 :: rest) ++ extra_files self) ->
  exists e after,
    combine_files xr_combine uninitialized self src_files save_path
      remove_orig w = (Raise e, after) /\
    forall p, is_Some (files w !! p) -> is_Some (files after !! p).
Proof.
  intros Hmodel Hsources Hmany Hpaths Hname Hkind.
  assert (Hplain : exists e after,
            combine_files xr_combine uninitialized self src_files save_path
              false w = (Raise e, after) /\
            forall p, is_Some (files w !! p) -> is_Some (files after !! p)).
  { unfold combine_files.
    rewrite (combine_files_run _check_param_consistency self src_files
               save_path sources f0 rest target ext w Hsources Hmany
               eq_refl Hpaths Hname).
    rewrite (bool_decide_eq_true_2 _ Hmodel).
    pose proof (fails_combine_groups_one_kind self ext _ cw target ext Hkind
                  (printed "combining files..." w)) as Hloop.
    pose proof (fun p => proj2 (touches_combine_groups self ext
                  (List.filter (fun f => negb (os_path.contains "_cw" f))
                     ((f0 :: rest) ++ extra_files self))
                  (List.filter (os_path.contains "_cw")
                     ((f0 :: rest) ++ extra_files self))
                  target ext (printed "combining files..." w) p)) as Hkept.
    destruct (combine_groups _ _ _ _ _ _ _ _ _) as [[[]|e] w2];
      [discriminate Hloop|].
    exists e, w2. split; [reflexivity | exact Hkept]. }
  destruct remove_orig; [|exact Hplain].
  destruct Hplain as (e & after & Hrun & Hkept).
  exists e, after. split; [|exact Hkept].
  unfold combine_files in *.
  rewrite (combine_files_then_remove xr_combine uninitialized
             _check_param_consistency self src_files save_path w
             (f0 :: rest) Hpaths).
  rewrite Hrun. reflexivity.
Qed.
End effects.

Lemma combine_files_changes_only_target_witness :
  let after := snd (combine_files concat_datasets zeroed ek80_convert None
                      PyNone false four_stores) in
  files_to_combine ek80_convert None = Some ("a.nc" :: ["b.nc"]) /\
  combined_name "a.nc" PyNone = Some ("a[combined].nc", ".nc") /\
  ("b_cw.nc" <> "a[combined].nc" -> "b_cw.nc" <> cw_name "a[combined].nc" ->
   files after !! "b_cw.nc" = files four_stores !! "b_cw.nc") /\
  (is_Some (files four_stores !! "b_cw.nc") ->
   is_Some (files after !! "b_cw.nc")).
Proof.
  intros after.
  split; [reflexivity|]. split; [reflexivity|].
  apply (combine_files_changes_only_target concat_datasets zeroed ek80_convert
           None PyNone "a.nc" ["b.nc"] "a[combined].nc" ".nc" four_stores
           "b_cw.nc"); reflexivity.
Defined.

Lemma combine_files_needs_netcdf_witness :
  files_to_combine ek80_convert None = Some ("a.nc" :: ["b.nc"]) /\
  combined_name "a.nc" (PyStr "out.zarr") = Some ("out.zarr", ".zarr") /\
  ".zarr" <> ".nc" /\
  fst (combine_files concat_datasets zeroed ek80_convert None (PyStr "out.zarr")
         true four_stores) <> Ok true.
Proof.
  split; [reflexivity|]. split; [reflexivity|]. split; [discriminate|].
  apply (combine_files_needs_netcdf concat_datasets zeroed ek80_convert None
           (PyStr "out.zarr") "a.nc" ["b.nc"] "out.zarr" ".zarr" true
           four_stores); [reflexivity | reflexivity | discriminate].
Defined.

Lemma combine_files_one_kind_witness :
  sonar_model ek80_broadband_only = Some "EK80"%string /\
  source_file ek80_broadband_only = Some ["a.raw"; "b.raw"] /\
  2 <= len ["a.raw"; "b.raw"] /\
  files_to_combine ek80_broadband_only None = Some ("a.nc" :: ["b.nc"]) /\
  combined_name "a.nc" PyNone = Some ("a[combined].nc", ".nc") /\
  Forall (fun f => os_path.contains "_cw" f = false)
    (("a.nc" :: ["b.nc"]) ++ extra_files ek80_broadband_only) /\
  exists e after,
    combine_files concat_datasets zeroed ek80_broadband_only None PyNone true
      four_stores = (Raise e, after) /\
    forall p, is_Some (files four_stores !! p) -> is_Some (files after !! p).
Proof.
  assert (Hkind : Forall (fun f => os_path.contains "_cw" f = false)
                    (("a.nc" :: ["b.nc"]) ++ extra_files ek80_broadband_only))
    by (constructor; [reflexivity|]; constructor; [reflexivity|]; constructor).
  split; [reflexivity|]. split; [reflexivity|]. split; [vm_compute; discriminate|].
  split; [reflexivity|]. split; [reflexivity|]. split; [exact Hkind|].
  apply (combine_files_one_kind concat_datasets zeroed ek80_broadband_only None
           PyNone ["a.raw"; "b.raw"] "a.nc" ["b.nc"] "a[combined].nc" ".nc"
           false true four_stores);
    [reflexivity | reflexivity | vm_compute; discriminate | reflexivity
    | reflexivity | exact Hkind].
Defined.

(** * The rest of the [Convert] class *)

(** ** set_param *)

Lemma extra_params_lookup (items : list (string * pyval))
    (params : gmap string pyval) (k : string) :
  fold_left (fun params kv =>
               if bool_decide (is_Some (params !! fst kv)) then params
               else <[fst kv := snd kv]> params) items params !! k
  = match params !! k with
    | Some v => Some v
    | None => (list_to_map items : gmap string pyval) !! k
    end.
Proof.
  revert params. induction items as [|[k' v'] items IH]; intros params.
  - cbn. rewrite lookup_empty. destruct (params !! k); reflexivity.
  - cbn [fold_left fst snd list_to_map foldr]. rewrite IH.
    destruct (bool_decide (is_Some (params !! k'))) eqn:Hhas.
    + apply bool_decide_eq_true in Hhas.
      destruct (params !! k) as [v|] eqn:Hk; [reflexivity|].
      destruct (decide (k' = k)) as [->|Hne].
      * rewrite Hk in Hhas. destruct Hhas as [? Hhas]. discriminate.
      * rewrite lookup_insert_ne by exact Hne. reflexivity.
    + apply bool_decide_eq_false in Hhas.
      destruct (decide (k' = k)) as [->|Hne].
      * rewrite !lookup_insert_eq.
        destruct (params !! k) as [v|] eqn:Hk; [|reflexivity].
        exfalso. apply Hhas. eexists. reflexivity.
      * rewrite !lookup_insert_ne by exact Hne. reflexivity.
Qed.

(** X13. After [set_param] each of the five standard keys holds the
    value [param_dict] gives it, or its default (the empty string,
    [None] for [water_level]) when [param_dict] does not have the key,
    whatever was stored before: a call that leaves a standard key out
    resets it. *)
Theorem set_param_standard (param_dict : gmap string pyval) (self : obj.t) :
  let params := obj._conversion_params (set_param param_dict self) in
  params !! "platform_name" = Some (dict_get param_dict "platform_name" (VStr "")) /\
  params !! "platform_code_ICES"
    = Some (dict_get param_dict "platform_code_ICES" (VStr "")) /\
  params !! "platform_type" = Some (dict_get param_dict "platform_type" (VStr "")) /\
  params !! "water_level" = Some (dict_get param_dict "water_level" VNone) /\
  params !! "survey_name" = Some (dict_get param_dict "survey_name" (VStr "")).
Proof.
  cbv zeta. unfold set_param. cbn [obj.set_conversion_params obj._conversion_params].
  rewrite !extra_params_lookup.
  repeat split;
    repeat first [ rewrite lookup_insert_eq; reflexivity
                 | rewrite lookup_insert_ne by discriminate ].
Qed.

(** X14. Any other key is written once: after [set_param] it holds the
    value stored before if there was one, and the value of
    [param_dict] otherwise; a later call cannot change or remove it. *)
Theorem set_param_extra_once (param_dict : gmap string pyval) (self : obj.t)
    (k : string) :
  k ∉ standard_keys ->
  obj._conversion_params (set_param param_dict self) !! k
  = match obj._conversion_params self !! k with
    | Some v => Some v
    | None => param_dict !! k
    end.
Proof.
  intros Hk. unfold standard_keys in Hk. rewrite !not_elem_of_cons in Hk.
  destruct Hk as (H1 & H2 & H3 & H4 & H5 & _).
  unfold set_param. cbn [obj.set_conversion_params obj._conversion_params].
  rewrite extra_params_lookup, list_to_map_to_list.
  rewrite !lookup_insert_ne by congruence. reflexivity.
Qed.

Lemma set_param_extra_once_witness :
  let self := set_param {[ "ship" := VStr "A" ]} __init__ in
  ("ship"%string ∉ standard_keys) /\
  obj._conversion_params (set_param {[ "ship" := VStr "B" ]} self) !! "ship"
  = match obj._conversion_params self !! "ship" with
    | Some v => Some v
    | None => ({[ "ship" := VStr "B" ]} : gmap string pyval) !! "ship"
    end.
Proof.
  intros self.
  assert (Hk : ("ship"%string) ∉ standard_keys)
    by (apply (bool_decide_eq_true_1 _); vm_compute; reflexivity).
  split; [exact Hk|].
  apply (set_param_extra_once {[ "ship" := VStr "B" ]} self "ship" Hk).
Defined.

(** ** set_source *)

Section source_checks.
Context (isfile : string -> bool).

(** The loop over the files changes nothing; it stops at the first
    file that is missing or has another extension. *)
Lemma check_files_run (ext : string) (files : list string) (self : obj.t) :
  exists e,
    (e = FileNotFoundError \/ e = ValueError) /\
    for_each files (fun p =>
      if negb (isfile p) then raise FileNotFoundError
      else if negb (String.eqb (snd (os_path.splitext p)) ext)
      then raise ValueError
      else ret tt) self
    = if forallb (valid_raw isfile ext) files then (Ok tt, self)
      else (Raise e, self).
Proof.
  induction files as [|p files IH].
  - exists ValueError. split; [right; reflexivity | reflexivity].
  - cbn [for_each forallb]. unfold valid_raw at 1. unfold bind at 1.
    destruct (isfile p); cbn [negb andb].
    + destruct (String.eqb (snd (os_path.splitext p)) ext); cbn [negb].
      * destruct IH as (e & He & IH). exists e. split; [exact He|].
        unfold ret at 1. exact IH.
      * exists ValueError. split; [right; reflexivity | reflexivity].
    + exists FileNotFoundError. split; [left; reflexivity | reflexivity].
Qed.

(** X15. [set_source] refuses a model other than AZFP, EK60 and EK80,
    and AZFP without an XML path, with [ValueError], before it changes
    the object: model, XML path and source files stay as they were. *)
Theorem set_source_rejected (file : file_arg) (model : string)
    (xml_path : option string) (self : obj.t) :
  model ∉ ["AZFP"; "EK60"; "EK80"]%string \/
  (model = "AZFP"%string /\ (xml_path = None \/ xml_path = Some ""%string)) ->
  set_source isfile file model xml_path self = (Raise ValueError, self).
Proof.
  intros [Hmodel | [-> Hxml]]; unfold set_source, model_ext.
  - rewrite !not_elem_of_cons in Hmodel. destruct Hmodel as (H1 & H2 & H3 & _).
    destruct (String.eqb_spec model "AZFP"); [contradiction|].
    destruct (String.eqb_spec model "EK60"); [contradiction|].
    destruct (String.eqb_spec model "EK80"); [contradiction|].
    reflexivity.
  - cbn [String.eqb Ascii.eqb Bool.eqb]. destruct Hxml as [-> | ->]; reflexivity.
Qed.

(** X16. For EK60 and EK80, [set_source] succeeds exactly when every
    given file exists and has the extension [.raw] (compared as
    written, so [.RAW] is refused); the source files are then the
    given list, a single string becoming a list of one. When a file is
    refused ([FileNotFoundError] or [ValueError]) the source files are
    not changed, but the model already is. *)
Theorem set_source_raw_files (file : file_arg) (model : string)
    (xml_path : option string) (self : obj.t) (files : list string) :
  model = "EK60"%string \/ model = "EK80"%string ->
  listed file = Some files ->
  exists e,
    (e = FileNotFoundError \/ e = ValueError) /\
    set_source isfile file model xml_path self
    = if forallb (valid_raw isfile ".raw") files
      then (Ok tt, obj.set_source_file (Some files)
                     (obj.set_sonar_model (Some model) self))
      else (Raise e, obj.set_sonar_model (Some model) self).
Proof.
  intros Hmodel Hfiles.
  destruct (check_files_run ".raw" files (obj.set_sonar_model (Some model) self))
    as (e & He & Hrun).
  exists e. split; [exact He|].
  assert (Hext : model_ext isfile model xml_path = ret ".raw"%string)
    by (destruct Hmodel as [-> | ->]; reflexivity).
  unfold set_source. rewrite Hext.
  unfold bind at 1. unfold ret at 1.
  unfold bind at 1. unfold modify at 1.
  destruct file as [s|l|]; [| |discriminate]; cbn in Hfiles;
    injection Hfiles as <-; unfold bind at 1; unfold ret at 1;
    unfold bind at 1; rewrite Hrun;
    destruct (forallb _ _); reflexivity.
Qed.
End source_checks.

Lemma set_source_rejected_witness :
  ("EK500"%string ∉ ["AZFP"; "EK60"; "EK80"]%string \/
   ("EK500"%string = "AZFP"%string /\
    (@None string = None \/ None = Some ""%string))) /\
  set_source (fun _ => true) (FileStr "a.raw") "EK500" None __init__
  = (Raise ValueError, __init__).
Proof.
  assert (H : ("EK500"%string) ∉ ["AZFP"; "EK60"; "EK80"]%string)
    by (apply (bool_decide_eq_true_1 _); vm_compute; reflexivity).
  split; [left; exact H|].
  apply (set_source_rejected (fun _ => true) (FileStr "a.raw") "EK500" None
           __init__).
  left. exact H.
Defined.

Lemma set_source_raw_files_witness :
  let isfile := fun p => String.eqb p "a.raw" || String.eqb p "b.RAW" in
  ("EK60"%string = "EK60"%string \/ "EK60"%string = "EK80"%string) /\
  listed (FileList ["a.raw"; "b.RAW"]) = Some ["a.raw"; "b.RAW"]%string /\
  exists e,
    (e = FileNotFoundError \/ e = ValueError) /\
    set_source isfile (FileList ["a.raw"; "b.RAW"]) "EK60" None __init__
    = if forallb (valid_raw isfile ".raw") ["a.raw"; "b.RAW"]%string
      then (Ok tt, obj.set_source_file (Some ["a.raw"; "b.RAW"]%string)
                     (obj.set_sonar_model (Some "EK60"%string) __init__))
      else (Raise e, obj.set_sonar_model (Some "EK60"%string) __init__).
Proof.
  intros isfile.
  split; [left; reflexivity|]. split; [reflexivity|].
  apply (set_source_raw_files isfile (FileList ["a.raw"; "b.RAW"]) "EK60" None
           __init__ ["a.raw"; "b.RAW"]%string); [left; reflexivity | reflexivity].
Defined.

(** ** _validate_path *)

Section methods.
Context {Dataset : Type}.
Context (xr_combine : combine_opt -> list Dataset -> result Dataset).
Context (uninitialized : nat -> nc.complex64).
Context (os_mkdir : string -> M (@World Dataset) unit).
Context (convert_raw :
  string -> string -> string -> string -> bool -> bool ->
  gmap string pyval -> list string ->
  M (@World Dataset) (gmap string pyval * list string)).

Local Abbreviation world := (@World Dataset).
Local Abbreviation env := (@Env Dataset).

Ltac named_outputs :=
  unfold with_outputs, output_names; rewrite ?map_map;
  reflexivity.

(** [_validate_path] for a valid format and at least one source
    file. *)
Lemma _validate_path_run (file_format : string) (save_path : option string)
    (self : obj.t) (w : world) (f0 : string) (rest : list string) :
  file_format = ".nc"%string \/ file_format = ".zarr"%string ->
  source_file (obj.attrs self) = Some (f0 :: rest) ->
  _validate_path os_mkdir file_format save_path (self, w)
  = match target_dir f0 (len (f0 :: rest)) save_path with
    | None => (Raise ValueError, (obj.set_out_dir (Some (dirname f0)) self, w))
    | Some d =>
        if bool_decide (is_Some (files w !! d))
        then (Ok tt, (with_outputs d file_format (f0 :: rest) self, w))
        else match os_mkdir d w with
             | (Ok _, w') =>
                 (Ok tt, (with_outputs d file_format (f0 :: rest) self, w'))
             | (Raise FileNotFoundError, w') =>
                 (Raise ValueError, (obj.set_out_dir (Some d) self, w'))
             | (Raise e, w') => (Raise e, (obj.set_out_dir (Some d) self, w'))
             end
    end.
Proof.
  intros Hformat Hsource. unfold _validate_path.
  assert (Hvalid : negb (String.eqb file_format ".nc")
                   && negb (String.eqb file_format ".zarr") = false)
    by (destruct Hformat as [-> | ->]; reflexivity).
  rewrite Hvalid. unfold target_dir.
  cbv [bind on_self on_world get modify ret raise os_path_exists].
  rewrite Hsource.
  destruct save_path as [p|].
  - destruct (String.eqb (snd (os_path.splitext p)) "").
    + destruct (bool_decide (is_Some (files w !! p))); cbn [negb];
        [named_outputs|].
      destruct (os_mkdir p w) as [[[]|e] w']; [named_outputs|].
      destruct e; reflexivity.
    + destruct ((String.eqb (snd (os_path.splitext p)) ".nc"
                 || String.eqb (snd (os_path.splitext p)) ".zarr")
                && (len (f0 :: rest) =? 1)); [|reflexivity].
      destruct (bool_decide (is_Some (files w !! dirname p)));
        cbn [negb]; [named_outputs|].
      destruct (os_mkdir (dirname p) w) as [[[]|e] w']; [named_outputs|].
      destruct e; reflexivity.
  - destruct (bool_decide (is_Some (files w !! dirname f0)));
      cbn [negb]; [named_outputs|].
    destruct (os_mkdir (dirname f0) w) as [[[]|e] w']; [named_outputs|].
    destruct e; reflexivity.
Qed.

(** X17. When the output directory exists, [_validate_path] succeeds
    without touching the file system and stores, for every source
    file, its name moved to the output directory with the requested
    extension ([output_file]), with [.nc] ([nc_path]) and with [.zarr]
    ([zarr_path]). The directory is [save_path] when that has no
    extension, the directory part of [save_path] when it names one
    [.nc] or [.zarr] file and there is one source file, and the
    directory of the first source file without [save_path]. *)
Theorem _validate_path_names (file_format : string) (save_path : option string)
    (self : obj.t) (w : world) (f0 : string) (rest : list string) (d : string) :
  file_format = ".nc"%string \/ file_format = ".zarr"%string ->
  source_file (obj.attrs self) = Some (f0 :: rest) ->
  target_dir f0 (len (f0 :: rest)) save_path = Some d ->
  is_Some (files w !! d) ->
  _validate_path os_mkdir file_format save_path (self, w)
  = (Ok tt, (with_outputs d file_format (f0 :: rest) self, w)).
Proof.
  intros Hformat Hsource Hdir Hexists.
  rewrite (_validate_path_run file_format save_path self w f0 rest Hformat Hsource).
  rewrite Hdir, (bool_decide_eq_true_2 _ Hexists). reflexivity.
Qed.

(** X18. A [save_path] that names a file is used for its directory
    only: with one source file and a [save_path] ending in [.nc] or
    [.zarr] whose directory exists, the output file is the source
    file's own name in that directory, with the extension of the
    requested format; the file name and the extension of [save_path]
    are not used. *)
Theorem _validate_path_file_name_unused (file_format save_path : string)
    (self : obj.t) (w : world) (f0 : string) :
  file_format = ".nc"%string \/ file_format = ".zarr"%string ->
  source_file (obj.attrs self) = Some [f0] ->
  snd (os_path.splitext save_path) = ".nc"%string \/
  snd (os_path.splitext save_path) = ".zarr"%string ->
  is_Some (files w !! dirname save_path) ->
  exists self',
    _validate_path os_mkdir file_format (Some save_path) (self, w)
    = (Ok tt, (self', w)) /\
    output_file (obj.attrs self')
    = Some [os_path.join (dirname save_path)
              (fst (os_path.splitext (os_path.basename f0)) +:+ file_format)].
Proof.
  intros Hformat Hsource Hext Hexists.
  exists (with_outputs (dirname save_path) file_format [f0] self).
  split; [|reflexivity].
  rewrite (_validate_path_run file_format (Some save_path) self w f0 []
             Hformat Hsource).
  assert (Hdir : target_dir f0 (len [f0]) (Some save_path)
                 = Some (dirname save_path))
    by (unfold target_dir; destruct Hext as [-> | ->]; reflexivity).
  rewrite Hdir, (bool_decide_eq_true_2 _ Hexists). reflexivity.
Qed.

(** X19. A [save_path] with an extension is refused with [ValueError]
    when the extension is neither [.nc] nor [.zarr] or when there are
    several source files; the file system is untouched and no output
    name is stored, but [out_dir] has already been set to the
    directory of the first source file. *)
Theorem _validate_path_rejects_file (file_format save_path : string)
    (self : obj.t) (w : world) (f0 : string) (rest : list string) :
  file_format = ".nc"%string \/ file_format = ".zarr"%string ->
  source_file (obj.attrs self) = Some (f0 :: rest) ->
  snd (os_path.splitext save_path) <> ""%string ->
  (snd (os_path.splitext save_path) <> ".nc"%string /\
   snd (os_path.splitext save_path) <> ".zarr"%string) \/ rest <> [] ->
  _validate_path os_mkdir file_format (Some save_path) (self, w)
  = (Raise ValueError, (obj.set_out_dir (Some (dirname f0)) self, w)).
Proof.
  intros Hformat Hsource Hext Hwhy.
  rewrite (_validate_path_run file_format (Some save_path) self w f0 rest
             Hformat Hsource).
  unfold target_dir.
  destruct (String.eqb_spec (snd (os_path.splitext save_path)) "");
    [contradiction|].
  destruct Hwhy as [[Hnc Hzarr] | Hrest].
  - destruct (String.eqb_spec (snd (os_path.splitext save_path)) ".nc");
      [contradiction|].
    destruct (String.eqb_spec (snd (os_path.splitext save_path)) ".zarr");
      [contradiction|].
    reflexivity.
  - assert (Hlen : (len (f0 :: rest) =? 1) = false).
    { apply Z.eqb_neq. destruct rest as [|f1 rest']; [congruence|].
      rewrite !len_cons. pose proof (len_nonneg rest'). lia. }
    rewrite Hlen, andb_false_r. reflexivity.
Qed.

(** ** _convert_indiv_file *)

Lemma exists_lookup (w : world) (path : string) :
  bool_decide (is_Some (files w !! path))
  = match files w !! path with Some _ => true | None => false end.
Proof.
  destruct (files w !! path) as [st|].
  - apply bool_decide_eq_true_2. eexists. reflexivity.
  - apply bool_decide_eq_false_2. intros [st H]. discriminate.
Qed.

(** [_convert_indiv_file], case by case. *)
Lemma _convert_indiv_file_run
    (converter :
       string -> string -> string -> string -> bool -> bool ->
       gmap string pyval -> list string ->
       M world (gmap string pyval * list string))
    (file output_path save_ext : string) (self : obj.t) (w : world) :
  _convert_indiv_file converter file output_path save_ext (self, w)
  = match known_model (sonar_model (obj.attrs self)) with
    | None => (Raise ValueError, (self, w))
    | Some model =>
        let start := fun w1 : world =>
          match converter model file output_path save_ext
                  (obj.compress self) (obj.overwrite self)
                  (obj._conversion_params self)
                  (extra_files (obj.attrs self)) w1 with
          | (Ok (params, extra), w2) =>
              (Ok tt, (obj.set_extra_files extra
                         (obj.set_conversion_params params self), w2))
          | (Raise e, w2) => (Raise e, (self, w2))
          end in
        match files w !! output_path with
        | None => start w
        | Some _ =>
            if obj.overwrite self then
              match _remove output_path
                      (printed ("          overwriting: " +:+ output_path) w) with
              | (Ok _, w1) =>
                  match files w1 !! output_path with
                  | Some _ =>
                      (Ok tt, (self, printed (already_converted save_ext) w1))
                  | None => start w1
                  end
              | (Raise e, w1) => (Raise e, (self, w1))
              end
            else (Ok tt, (self, printed (already_converted save_ext) w))
        end
    end.
Proof.
  unfold _convert_indiv_file, known_model.
  cbv [bind on_self on_world get modify ret raise os_path_exists print].
  destruct (bool_decide (sonar_model (obj.attrs self) = Some "EK60"%string));
    [|destruct (bool_decide (sonar_model (obj.attrs self) = Some "EK80"%string));
      [|destruct (bool_decide (sonar_model (obj.attrs self) = Some "AZFP"%string));
        [|reflexivity]]].
  all: cbv beta iota zeta; rewrite ?exists_lookup.
  all: destruct (files w !! output_path) as [st|] eqn:Hout; cbn [andb];
         cbv beta iota zeta; rewrite ?exists_lookup, ?Hout.
  all: try (destruct (converter _ _ _ _ _ _ _ _ w) as [[[params extra]|e] w2];
            reflexivity).
  all: destruct (obj.overwrite self); cbv beta iota zeta;
         rewrite ?exists_lookup, ?Hout; [|reflexivity].
  all: fold (printed ("          overwriting: " +:+ output_path) w).
  all: destruct (_remove output_path _) as [[[]|e] w1]; [|reflexivity].
  all: cbv beta iota zeta; rewrite ?exists_lookup.
  all: destruct (files w1 !! output_path) as [st1|]; [reflexivity|].
  all: destruct (converter _ _ _ _ _ _ _ _ w1) as [[[params extra]|e] w2];
         reflexivity.
Qed.

(** X20. With a known sonar model, an output path that exists and
    [overwrite] off, [_convert_indiv_file] converts nothing: it prints
    that the file has already been converted and returns, the object
    and every file as they were. *)
Theorem _convert_indiv_file_skips (file output_path save_ext : string)
    (self : obj.t) (w : world) :
  sonar_model (obj.attrs self) ∈ [Some "EK60"; Some "EK80"; Some "AZFP"]%string ->
  is_Some (files w !! output_path) ->
  obj.overwrite self = false ->
  _convert_indiv_file convert_raw file output_path save_ext (self, w)
  = (Ok tt, (self, printed (already_converted save_ext) w)).
Proof.
  intros Hmodel [st Hexists] Hkeep.
  rewrite _convert_indiv_file_run, Hexists, Hkeep.
  rewrite !elem_of_cons in Hmodel.
  destruct Hmodel as [-> | [-> | [-> | Hnone]]];
    [reflexivity | reflexivity | reflexivity | inversion Hnone].
Qed.

(** X21. The converter is only ever started where the output path does
    not exist: two converters that agree on every file system without
    [output_path] give the same [_convert_indiv_file], whatever they do
    elsewhere. *)
Theorem _convert_indiv_file_output_absent
    (other_raw :
       string -> string -> string -> string -> bool -> bool ->
       gmap string pyval -> list string ->
       M world (gmap string pyval * list string))
    (file output_path save_ext : string) (self : obj.t) (w : world) :
  (forall model compress overwrite params extra (w1 : world),
     files w1 !! output_path = None ->
     convert_raw model file output_path save_ext compress overwrite params
       extra w1
     = other_raw model file output_path save_ext compress overwrite params
         extra w1) ->
  _convert_indiv_file convert_raw file output_path save_ext (self, w)
  = _convert_indiv_file other_raw file output_path save_ext (self, w).
Proof.
  intros Hagree.
  rewrite !_convert_indiv_file_run.
  destruct (known_model (sonar_model (obj.attrs self))) as [model|];
    [|reflexivity].
  cbv zeta.
  destruct (files w !! output_path) as [st|] eqn:Hout.
  - destruct (obj.overwrite self); [|reflexivity].
    destruct (_remove output_path _) as [[[]|e] w1]; [|reflexivity].
    destruct (files w1 !! output_path) as [st1|] eqn:Hout1; [reflexivity|].
    rewrite (Hagree _ _ _ _ _ w1 Hout1). reflexivity.
  - rewrite (Hagree _ _ _ _ _ w Hout). reflexivity.
Qed.

(** ** to_netcdf and to_zarr *)

Section preserved.
Context (holds : obj.t -> Prop).

Lemma preserves_ret {A} (a : A) : preserves holds (ret a : M env A).
Proof. intros self w H. exact H. Qed.

Lemma preserves_raise {A} (e : exn) : preserves holds (raise e : M env A).
Proof. intros self w H. exact H. Qed.

Lemma preserves_bind {A B} (m : M env A) (k : A -> M env B) :
  preserves holds m -> (forall a, preserves holds (k a)) ->
  preserves holds (bind m k).
Proof.
  intros Hm Hk self w H. unfold bind. specialize (Hm self w H).
  destruct (m (self, w)) as [[a|e] [self1 w1]]; cbn [fst snd] in Hm |- *;
    [apply Hk; exact Hm | exact Hm].
Qed.

Lemma preserves_on_world {A} (m : M world A) : preserves holds (on_world m).
Proof.
  intros self w H. unfold on_world. destruct (m w) as [r w1]. exact H.
Qed.

Lemma preserves_get : preserves holds (on_self get : M env obj.t).
Proof. intros self w H. exact H. Qed.

Lemma preserves_modify (f : obj.t -> obj.t) :
  (forall self, holds self -> holds (f self)) ->
  preserves holds (on_self (modify f) : M env unit).
Proof. intros Hf self w H. apply Hf. exact H. Qed.

Lemma preserves_mkdir (out_dir : string) :
  preserves holds
    (fun st : env =>
       match on_world (os_mkdir out_dir) st with
       | (Raise FileNotFoundError, st') => (Raise ValueError, st')
       | other => other
       end).
Proof.
  intros self w H. unfold on_world.
  destruct (os_mkdir out_dir w) as [[[]|e] w1]; [exact H|].
  destruct e; exact H.
Qed.
End preserved.

Section kept_for_combine.
Context (model : option string) (sources : list string).

Ltac kept :=
  repeat first
    [ apply preserves_ret
    | apply preserves_raise
    | apply preserves_get
    | apply preserves_on_world
    | apply preserves_mkdir
    | apply preserves_modify; intros ? H; exact H
    | apply preserves_bind; [|intros ?]
    | match goal with
      | |- preserves _ (if ?b then _ else _) => destruct b
      | |- preserves _ (match ?x with _ => _ end) => destruct x
      end ].

Lemma _validate_path_keeps (file_format : string) (save_path : option string) :
  preserves (set_to_combine model sources)
    (_validate_path os_mkdir file_format save_path).
Proof. unfold _validate_path. kept. Qed.

Lemma _convert_indiv_file_keeps (file output_path save_ext : string) :
  preserves (set_to_combine model sources)
    (_convert_indiv_file convert_raw file output_path save_ext).
Proof. unfold _convert_indiv_file. kept. Qed.

Lemma convert_each_keeps (save_ext : string) (files : list string) (i : nat) :
  preserves (set_to_combine model sources)
    (convert_each convert_raw save_ext i files).
Proof.
  revert i. induction files as [|file rest IH]; intros i; cbn [convert_each].
  - apply preserves_ret.
  - apply preserves_bind; [apply preserves_get|]. intros self.
    apply preserves_bind; [kept|]. intros output_path.
    apply preserves_bind; [apply _convert_indiv_file_keeps|]. intros _.
    apply IH.
Qed.
End kept_for_combine.

(** For a model other than EK80 the loop of [combine_files] has no
    file groups to run over: with two source files or more every call
    raises. *)
Lemma combine_files_other_model (self : Convert) (sources : list string)
    (src_files : option (list string)) (save_path : pyobj)
    (remove_orig : bool) (w : world) :
  sonar_model self <> Some "EK80"%string ->
  source_file self = Some sources ->
  2 <= len sources ->
  is_ok (fst (combine_files xr_combine uninitialized self src_files save_path
                remove_orig w)) = false.
Proof.
  intros Hmodel Hsources Hmany.
  unfold combine_files, combine_files_with, _check_param_consistency.
  rewrite Hsources.
  destruct (len sources <? 2) eqn:Hfew; [apply Z.ltb_lt in Hfew; lia|].
  rewrite (bool_decide_eq_false_2 _ Hmodel).
  cbv [bind print modify ret raise first negb].
  repeat first
    [ reflexivity
    | match goal with
      | |- context [match ?x with _ => _ end] => destruct x
      end ].
Qed.

Lemma fails_after {A B} (holds : obj.t -> Prop) (m : M env A)
    (k : A -> M env B) :
  preserves holds m ->
  (forall a self w, holds self -> is_ok (fst (k a (self, w))) = false) ->
  forall self w, holds self -> is_ok (fst (bind m k (self, w))) = false.
Proof.
  intros Hm Hk self w H. unfold bind. specialize (Hm self w H).
  destruct (m (self, w)) as [[a|e] [self1 w1]]; cbn [fst snd] in Hm;
    [apply Hk; exact Hm | reflexivity].
Qed.

Lemma convert_to_combine_fails (save_ext : string) (save_path : option string)
    (data_type : string) (compress overwrite parallel : bool)
    (self : obj.t) (w : world) (sources : list string) :
  sonar_model (obj.attrs self) <> Some "EK80"%string ->
  source_file (obj.attrs self) = Some sources ->
  2 <= len sources ->
  is_ok (fst (convert_to xr_combine uninitialized os_mkdir convert_raw save_ext
                save_path data_type compress overwrite true parallel (self, w)))
  = false.
Proof.
  intros Hmodel Hsources Hmany. unfold convert_to.
  do 4 (unfold bind at 1; unfold on_self at 1, modify at 1; cbv beta iota).
  apply (fails_after (set_to_combine (sonar_model (obj.attrs self)) sources)).
  - apply _validate_path_keeps.
  - intros _. apply fails_after.
    + destruct parallel; cbn [negb]; [apply preserves_ret|].
      apply preserves_bind; [apply preserves_get|]. intros self1.
      destruct (source_file (obj.attrs self1)) as [l|];
        [apply convert_each_keeps | apply preserves_raise].
    + intros _ self1 w1 (Hm1 & Hs1 & Hc1).
      cbv [bind on_self get]. rewrite Hc1.
      unfold on_world.
      pose proof (combine_files_other_model (obj.attrs self1) sources None
                    match save_path with Some p => PyStr p | None => PyNone end
                    true w1 ltac:(rewrite Hm1; exact Hmodel) Hs1 Hmany) as Hfail.
      destruct (combine_files _ _ _ _ _ _ w1) as [[b|e] w2];
        [discriminate Hfail | reflexivity].
  - split; [reflexivity|]. split; [exact Hsources | reflexivity].
Qed.

(** X22. For a sonar model other than EK80 and two source files or
    more, a conversion that is asked to combine never returns
    normally: whatever the directory check and the converter do,
    [to_netcdf] and [to_zarr] with [combine=True] raise, in the combine
    step at the latest. *)
Theorem combine_after_convert_raises (save_path : option string)
    (data_type : string) (compress overwrite parallel : bool)
    (self : obj.t) (w : world) (sources : list string) :
  sonar_model (obj.attrs self) <> Some "EK80"%string ->
  source_file (obj.attrs self) = Some sources ->
  2 <= len sources ->
  is_ok (fst (to_netcdf xr_combine uninitialized os_mkdir convert_raw save_path
                data_type compress overwrite true parallel (self, w))) = false /\
  is_ok (fst (to_zarr xr_combine uninitialized os_mkdir convert_raw save_path
                data_type compress true overwrite parallel (self, w))) = false.
Proof.
  intros Hmodel Hsources Hmany. unfold to_netcdf, to_zarr.
  split; apply (convert_to_combine_fails _ _ _ _ _ _ _ _ sources);
    assumption.
Qed.

(** X23. With [parallel=True] nothing is converted: when the output
    directory exists and no combining is asked for, [to_netcdf] and
    [to_zarr] return normally with the file system exactly as it was;
    they only store the four options and the output names in the
    object, and never start the converter. *)
Theorem parallel_converts_nothing (save_path : option string)
    (data_type : string) (compress overwrite : bool)
    (self : obj.t) (w : world) (f0 : string) (rest : list string) (d : string) :
  source_file (obj.attrs self) = Some (f0 :: rest) ->
  target_dir f0 (len (f0 :: rest)) save_path = Some d ->
  is_Some (files w !! d) ->
  let configured :=
    obj.set_overwrite overwrite
      (obj.set_combine false
         (obj.set_compress compress (obj.set_data_type data_type self))) in
  to_netcdf xr_combine uninitialized os_mkdir convert_raw save_path data_type
    compress overwrite false true (self, w)
  = (Ok tt, (with_outputs d ".nc" (f0 :: rest) configured, w)) /\
  to_zarr xr_combine uninitialized os_mkdir convert_raw save_path data_type
    compress false overwrite true (self, w)
  = (Ok tt, (with_outputs d ".zarr" (f0 :: rest) configured, w)).
Proof.
  intros Hsource Hdir Hexists configured.
  unfold to_netcdf, to_zarr, convert_to.
  split.
  - do 4 (unfold bind at 1; unfold on_self at 1, modify at 1; cbv beta iota).
    fold configured. unfold bind at 1.
    rewrite (_validate_path_run ".nc" save_path configured w f0 rest
               ltac:(left; reflexivity) Hsource).
    rewrite Hdir, (bool_decide_eq_true_2 _ Hexists). reflexivity.
  - do 4 (unfold bind at 1; unfold on_self at 1, modify at 1; cbv beta iota).
    fold configured. unfold bind at 1.
    rewrite (_validate_path_run ".zarr" save_path configured w f0 rest
               ltac:(right; reflexivity) Hsource).
    rewrite Hdir, (bool_decide_eq_true_2 _ Hexists). reflexivity.
Qed.
End methods.

Lemma _validate_path_names_witness :
  (".nc"%string = ".nc"%string \/ ".nc"%string = ".zarr"%string) /\
  source_file (obj.attrs one_raw_file) = Some ("raw/a.raw"%string :: []) /\
  target_dir "raw/a.raw" (len ("raw/a.raw"%string :: [])) (Some "out"%string)
    = Some "out"%string /\
  is_Some (files two_dirs !! "out"%string) /\
  _validate_path mkdir_no_parent ".nc" (Some "out"%string) (one_raw_file, two_dirs)
  = (Ok tt, (with_outputs "out" ".nc" ("raw/a.raw"%string :: []) one_raw_file,
             two_dirs)).
Proof.
  assert (Hexists : is_Some (files two_dirs !! "out"%string))
    by (apply (bool_decide_eq_true_1 _); vm_compute; reflexivity).
  split; [left; reflexivity|]. split; [reflexivity|]. split; [reflexivity|].
  split; [exact Hexists|].
  apply (_validate_path_names mkdir_no_parent ".nc" (Some "out"%string)
           one_raw_file two_dirs "raw/a.raw" [] "out");
    [left; reflexivity | reflexivity | reflexivity | exact Hexists].
Defined.

Lemma _validate_path_file_name_unused_witness :
  (".nc"%string = ".nc"%string \/ ".nc"%string = ".zarr"%string) /\
  source_file (obj.attrs one_raw_file) = Some ["raw/a.raw"%string] /\
  (snd (os_path.splitext "out/x.zarr") = ".nc"%string \/
   snd (os_path.splitext "out/x.zarr") = ".zarr"%string) /\
  is_Some (files two_dirs !! dirname "out/x.zarr") /\
  exists self',
    _validate_path mkdir_no_parent ".nc" (Some "out/x.zarr"%string)
      (one_raw_file, two_dirs) = (Ok tt, (self', two_dirs)) /\
    output_file (obj.attrs self')
    = Some [os_path.join (dirname "out/x.zarr")
              (fst (os_path.splitext (os_path.basename "raw/a.raw")) +:+ ".nc")].
Proof.
  assert (Hexists : is_Some (files two_dirs !! dirname "out/x.zarr"))
    by (apply (bool_decide_eq_true_1 _); vm_compute; reflexivity).
  split; [left; reflexivity|]. split; [reflexivity|].
  split; [right; reflexivity|]. split; [exact Hexists|].
  apply (_validate_path_file_name_unused mkdir_no_parent ".nc" "out/x.zarr"
           one_raw_file two_dirs "raw/a.raw");
    [left; reflexivity | reflexivity | right; reflexivity | exact Hexists].
Defined.

Lemma _validate_path_rejects_file_witness :
  (".nc"%string = ".nc"%string \/ ".nc"%string = ".zarr"%string) /\
  source_file (obj.attrs two_raw_files)
    = Some ("raw/a.raw"%string :: ["raw/b.raw"%string]) /\
  snd (os_path.splitext "out/x.nc") <> ""%string /\
  ((snd (os_path.splitext "out/x.nc") <> ".nc"%string /\
    snd (os_path.splitext "out/x.nc") <> ".zarr"%string) \/
   ["raw/b.raw"%string] <> []) /\
  _validate_path mkdir_no_parent ".nc" (Some "out/x.nc"%string)
    (two_raw_files, two_dirs)
  = (Raise ValueError,
     (obj.set_out_dir (Some (dirname "raw/a.raw")) two_raw_files, two_dirs)).
Proof.
  split; [left; reflexivity|]. split; [reflexivity|].
  split; [vm_compute; discriminate|]. split; [right; discriminate|].
  apply (_validate_path_rejects_file mkdir_no_parent ".nc" "out/x.nc"
           two_raw_files two_dirs "raw/a.raw" ["raw/b.raw"%string]);
    [left; reflexivity | reflexivity | vm_compute; discriminate
    | right; discriminate].
Defined.

Lemma _convert_indiv_file_skips_witness :
  sonar_model (obj.attrs one_raw_file)
    ∈ [Some "EK60"; Some "EK80"; Some "AZFP"]%string /\
  is_Some (files converted_once !! "out/a.nc"%string) /\
  obj.overwrite one_raw_file = false /\
  _convert_indiv_file convert_stub "raw/a.raw" "out/a.nc" ".nc"
    (one_raw_file, converted_once)
  = (Ok tt, (one_raw_file, printed (already_converted ".nc") converted_once)).
Proof.
  assert (Hmodel : sonar_model (obj.attrs one_raw_file)
                   ∈ [Some "EK60"; Some "EK80"; Some "AZFP"]%string)
    by (left).
  assert (Hexists : is_Some (files converted_once !! "out/a.nc"%string))
    by (apply (bool_decide_eq_true_1 _); vm_compute; reflexivity).
  split; [exact Hmodel|]. split; [exact Hexists|]. split; [reflexivity|].
  apply (_convert_indiv_file_skips convert_stub "raw/a.raw" "out/a.nc" ".nc"
           one_raw_file converted_once Hmodel Hexists eq_refl).
Defined.

Lemma _convert_indiv_file_output_absent_witness :
  (forall model compress overwrite params extra (w1 : @World (list Z)),
     files w1 !! "out/a.nc"%string = None ->
     convert_stub model "raw/a.raw" "out/a.nc" ".nc" compress overwrite params
       extra w1
     = convert_if_absent model "raw/a.raw" "out/a.nc" ".nc" compress overwrite
         params extra w1) /\
  _convert_indiv_file convert_stub "raw/a.raw" "out/a.nc" ".nc"
    (one_raw_file, converted_once)
  = _convert_indiv_file convert_if_absent "raw/a.raw" "out/a.nc" ".nc"
      (one_raw_file, converted_once).
Proof.
  assert (Hagree :
    forall model compress overwrite params extra (w1 : @World (list Z)),
      files w1 !! "out/a.nc"%string = None ->
      convert_stub model "raw/a.raw" "out/a.nc" ".nc" compress overwrite params
        extra w1
      = convert_if_absent model "raw/a.raw" "out/a.nc" ".nc" compress overwrite
          params extra w1).
  { intros model compress overwrite params extra w1 Habsent.
    unfold convert_if_absent. rewrite Habsent. reflexivity. }
  split; [exact Hagree|].
  apply (_convert_indiv_file_output_absent convert_stub convert_if_absent
           "raw/a.raw" "out/a.nc" ".nc" one_raw_file converted_once Hagree).
Defined.

Lemma combine_after_convert_raises_witness :
  sonar_model (obj.attrs two_raw_files) <> Some "EK80"%string /\
  source_file (obj.attrs two_raw_files) = Some ["raw/a.raw"; "raw/b.raw"]%string /\
  2 <= len ["raw/a.raw"; "raw/b.raw"]%string /\
  is_ok (fst (to_netcdf concat_datasets zeroed mkdir_no_parent convert_stub
                (Some "out"%string) "all" true false true false
                (two_raw_files, two_dirs))) = false /\
  is_ok (fst (to_zarr concat_datasets zeroed mkdir_no_parent convert_stub
                (Some "out"%string) "all" true true false false
                (two_raw_files, two_dirs))) = false.
Proof.
  split; [discriminate|]. split; [reflexivity|].
  split; [vm_compute; discriminate|].
  apply (combine_after_convert_raises concat_datasets zeroed mkdir_no_parent
           convert_stub (Some "out"%string) "all" true false false
           two_raw_files two_dirs ["raw/a.raw"; "raw/b.raw"]%string);
    [discriminate | reflexivity | vm_compute; discriminate].
Defined.

Lemma parallel_converts_nothing_witness :
  let configured :=
    obj.set_overwrite true
      (obj.set_combine false
         (obj.set_compress true (obj.set_data_type "all" two_raw_files))) in
  source_file (obj.attrs two_raw_files)
    = Some ("raw/a.raw"%string :: ["raw/b.raw"%string]) /\
  target_dir "raw/a.raw" (len ("raw/a.raw"%string :: ["raw/b.raw"%string]))
    (Some "out"%string) = Some "out"%string /\
  is_Some (files two_dirs !! "out"%string) /\
  to_netcdf concat_datasets zeroed mkdir_no_parent convert_stub
    (Some "out"%string) "all" true true false true (two_raw_files, two_dirs)
  = (Ok tt,
     (with_outputs "out" ".nc" ("raw/a.raw"%string :: ["raw/b.raw"%string])
        configured, two_dirs)) /\
  to_zarr concat_datasets zeroed mkdir_no_parent convert_stub
    (Some "out"%string) "all" true false true true (two_raw_files, two_dirs)
  = (Ok tt,
     (with_outputs "out" ".zarr" ("raw/a.raw"%string :: ["raw/b.raw"%string])
        configured, two_dirs)).
Proof.
  intros configured.
  assert (Hexists : is_Some (files two_dirs !! "out"%string))
    by (apply (bool_decide_eq_true_1 _); vm_compute; reflexivity).
  split; [reflexivity|]. split; [reflexivity|]. split; [exact Hexists|].
  apply (parallel_converts_nothing concat_datasets zeroed mkdir_no_parent
           convert_stub (Some "out"%string) "all" true true two_raw_files
           two_dirs "raw/a.raw" ["raw/b.raw"%string] "out");
    [reflexivity | reflexivity | exact Hexists].
Defined.
